(** * QtMeter audio capture thread: amplitude tracker, filter set-up and FFT framing

    A shallow embedding of [qtmAudioRxThread] (src/qtmAudioRxThread.py).

    Conventions of the embedding:
    - the attributes of the object keep their names and are grouped in
      records ([device], [format], [timing], [framing], [amplitude],
      [filter] and, for the FFT state, [fft]) that together form a [thread];
      a method becomes a function that takes the records it reads and
      returns the records it writes;
    - a method that can raise returns an [outcome] together with the state
      reached when the exception left it, so that partial updates survive;
      a loop that need not terminate takes fuel and returns [None] when it
      runs out;
    - the dB calculation is over the reals [R], durations and ratios over
      the rationals [Q]; sample data in the FFT path are binary64 values,
      because behaviour there turns on NaN and infinities; the amplitude
      tracker comes twice, over the reals, for what depends on the shape of
      its window only and as the argument of [current_dB], and in
      [Binary64] with the rounding arithmetic of the code, for what its
      running sum holds;
    - [tFFTUnit] and [windowOverlapRatio] are class constants that no
      method assigns, and are constants here;
    - scipy and numpy routines (window kernels, Butterworth design, the
      filters, the real FFT) are taken as an abstract interface [numlib];
    - the mutex is not modelled: every method body is one atomic step, and
      the pacing of the capture loop is left out. *)

From Stdlib Require Import String ZArith Bool Floats QArith Qround List.
From Stdlib Require Import Reals Qreals Lra Lia.
Import ListNotations.

Open Scope string_scope.
Open Scope list_scope.
Open Scope Z_scope.

(** ** Python values and exceptions *)

Inductive exn : Type :=
| ValueError
| ZeroDivisionError
| IndexError
| TypeError
| AttributeError
| IOError.

Inductive outcome (A : Type) : Type :=
| Ret (a : A)
| Raise (e : exn).

Arguments Ret {A} a.
Arguments Raise {A} e.

Definition returned {A : Type} (o : outcome A) : bool :=
  match o with Ret _ => true | Raise _ => false end.

(** State-and-exception computations: the state is always returned, also
    when an exception escapes. *)
Definition M (S A : Type) : Type := S -> outcome A * S.

Definition ret {S A : Type} (a : A) : M S A := fun s => (Ret a, s).

Definition raise {S A : Type} (e : exn) : M S A := fun s => (Raise e, s).

Definition bind {S A B : Type} (m : M S A) (k : A -> M S B) : M S B :=
  fun s =>
    match m s with
    | (Ret a, s') => k a s'
    | (Raise e, s') => (Raise e, s')
    end.

Definition get {S : Type} : M S S := fun s => (Ret s, s).

Definition modify {S : Type} (f : S -> S) : M S unit := fun s => (Ret tt, f s).

Declare Scope py_scope.
Delimit Scope py_scope with py.
Notation "x <- m ;; k" := (bind m (fun x => k))
  (at level 61, m at next level, right associativity) : py_scope.
Notation "m ;;; k" := (bind m (fun _ => k))
  (at level 61, right associativity) : py_scope.

(** [int(x)] on a float: truncation towards zero. *)
Definition py_int (q : Q) : Z := Z.quot (Qnum q) (Zpos (Qden q)).

(** [round(x)] on a float: to the nearest integer, ties to the even one. *)
Definition py_round (q : Q) : Z :=
  let f := Qfloor q in
  match Qcompare (q - inject_Z f) (1 # 2) with
  | Lt => f
  | Gt => f + 1
  | Eq => if Z.even f then f else f + 1
  end.

(** [a / b] with a float operand. *)
Definition py_div (a b : Q) : outcome Q :=
  if Qeq_bool b 0 then Raise ZeroDivisionError else Ret (a / b)%Q.

(** [math.log10]: a domain error at and below zero. *)
Definition log10 (x : R) : R := (ln x / ln 10)%R.

Definition math_log10 (x : R) : outcome R :=
  if Rle_lt_dec x 0 then Raise ValueError else Ret (log10 x).

(** ** Sample formats *)

Inductive sample_format : Type :=
| paFloat32
| paInt32
| paInt24
| paInt16
| paInt8
| paUInt8
| paCustomFormat.

(** [__set_sample_len] *)
Definition sample_len_of (f : sample_format) : Z :=
  match f with
  | paInt16 => 2
  | paInt32 => 4
  | paFloat32 => 4
  | paInt8 => 1
  | _ => 2
  end.

(** [__sample_peak] *)
Definition sample_peak_of (f : sample_format) : R :=
  match f with
  | paInt16 => 2 ^ 15 - 1
  | paInt32 => 2 ^ 31 - 1
  | paFloat32 => (2 ^ 23 - 1) + (/ 2 ^ 23 - 1)
  | paInt8 => 2 ^ 7 - 1
  | _ => 2 ^ 15 - 1
  end%R.

(** ** The amplitude tracker

    Here over the reals: the amplitudes and their running sum are the real
    numbers they stand for, added and subtracted exactly. What this says of
    the window (which amplitudes are retained, the count, the exceptions)
    is what the code does; what it says of the running sum is what the
    code would do if no operation rounded. The tracker with the arithmetic
    of the code is [Binary64], below; [current_dB] takes its argument in
    this form. *)

Record amplitude : Type := mkAmplitude {
  sampleFrameAmplitudes : list R;
  nSampleFrameAmplitudes : Z;
  sumSampleFrameAmplitudes : R
}.

(** [__reset_stream_amplitude]; also the class defaults. *)
Definition reset_stream_amplitude : amplitude :=
  {| sampleFrameAmplitudes := [];
     nSampleFrameAmplitudes := 0;
     sumSampleFrameAmplitudes := 0 |}.

(** The eviction loop of [__add_stream_amplitude],
    [while n >= meanSampleFrames: sum -= amps[0]; del amps[0]; n -= 1].
    Every turn removes the head of the list, or raises [IndexError] when the
    list is empty, so the recursion is on the list. *)
Fixpoint evict_while (meanSampleFrames : Z) (amps : list R) (n : Z) (sum : R)
  {struct amps} : outcome unit * amplitude :=
  if meanSampleFrames <=? n then
    match amps with
    | [] => (Raise IndexError, mkAmplitude [] n sum)
    | oldest :: rest => evict_while meanSampleFrames rest (n - 1) (sum - oldest)%R
    end
  else (Ret tt, mkAmplitude amps n sum).

(** [__add_stream_amplitude] *)
Definition add_stream_amplitude (meanSampleFrames : Z) (frameAmplitude : R)
  : M amplitude unit :=
  fun a =>
    match evict_while meanSampleFrames (sampleFrameAmplitudes a)
            (nSampleFrameAmplitudes a) (sumSampleFrameAmplitudes a) with
    | (Ret _, a') =>
        (Ret tt,
         {| sampleFrameAmplitudes := sampleFrameAmplitudes a' ++ [frameAmplitude];
            nSampleFrameAmplitudes := nSampleFrameAmplitudes a' + 1;
            sumSampleFrameAmplitudes :=
              (sumSampleFrameAmplitudes a' + frameAmplitude)%R |})
    | (Raise e, a') => (Raise e, a')
    end.

(** [__current_mean_amplitude] *)
Definition current_mean_amplitude (a : amplitude) : R :=
  if 0 <? nSampleFrameAmplitudes a
  then (sumSampleFrameAmplitudes a / (1 * IZR (nSampleFrameAmplitudes a)))%R
  else 1%R.

(** [current_dB]; [PEAK] is absent until [set_sample_size] or [sample_peak]
    has run. *)
Definition current_dB (PEAK : option R) (a : amplitude) : outcome R :=
  let meanAmp := current_mean_amplitude a in
  match PEAK with
  | None => Raise AttributeError
  | Some peakAmp =>
      if Req_dec_T meanAmp 0 then Ret (-90)%R
      else if Req_dec_T peakAmp 0 then Ret (-90)%R
      else
        match math_log10 (meanAmp / peakAmp) with
        | Ret l => Ret (20 * l)%R
        | Raise e => Raise e
        end
  end.

(** The sum of a window. *)
Definition window_sum (amps : list R) : R := fold_right Rplus 0%R amps.

(** The shape of the window: the count is the length of the list, and the
    list is no longer than the cap. *)
Definition window_ok (cap : Z) (a : amplitude) : Prop :=
  nSampleFrameAmplitudes a = Z.of_nat (length (sampleFrameAmplitudes a)) /\
  (Z.of_nat (length (sampleFrameAmplitudes a)) <= cap)%Z.

(** A run of pushes with a fixed cap, stopping at the first exception. *)
Fixpoint push_all (cap : Z) (xs : list R) : M amplitude unit :=
  match xs with
  | [] => ret tt
  | x :: xs' => bind (add_stream_amplitude cap x) (fun _ => push_all cap xs')
  end.

(** ** The amplitude tracker in binary64

    The tracker with the arithmetic of the code: a frame amplitude is the
    [np.float64] that [np.mean] returns, and [sum -= amps[0]] and
    [sum += frameAmplitude] are binary64 operations, each of which rounds.
    The integer 0 that [__reset_stream_amplitude] stores is the binary64
    zero once it meets an amplitude. *)

Module Binary64.

Record amplitude : Type := mkAmplitude {
  sampleFrameAmplitudes : list float;
  nSampleFrameAmplitudes : Z;
  sumSampleFrameAmplitudes : float
}.

(** [__reset_stream_amplitude] *)
Definition reset_stream_amplitude : amplitude :=
  {| sampleFrameAmplitudes := [];
     nSampleFrameAmplitudes := 0;
     sumSampleFrameAmplitudes := 0%float |}.

(** The eviction loop of [__add_stream_amplitude]. *)
Fixpoint evict_while (meanSampleFrames : Z) (amps : list float) (n : Z)
    (sum : float) {struct amps} : outcome unit * amplitude :=
  if meanSampleFrames <=? n then
    match amps with
    | [] => (Raise IndexError, mkAmplitude [] n sum)
    | oldest :: rest =>
        evict_while meanSampleFrames rest (n - 1) (PrimFloat.sub sum oldest)
    end
  else (Ret tt, mkAmplitude amps n sum).

(** [__add_stream_amplitude] *)
Definition add_stream_amplitude (meanSampleFrames : Z) (frameAmplitude : float)
  : M amplitude unit :=
  fun a =>
    match evict_while meanSampleFrames (sampleFrameAmplitudes a)
            (nSampleFrameAmplitudes a) (sumSampleFrameAmplitudes a) with
    | (Ret _, a') =>
        (Ret tt,
         {| sampleFrameAmplitudes := sampleFrameAmplitudes a' ++ [frameAmplitude];
            nSampleFrameAmplitudes := nSampleFrameAmplitudes a' + 1;
            sumSampleFrameAmplitudes :=
              PrimFloat.add (sumSampleFrameAmplitudes a') frameAmplitude |})
    | (Raise e, a') => (Raise e, a')
    end.

(** A run of pushes with a fixed cap, stopping at the first exception. *)
Fixpoint push_all (cap : Z) (xs : list float) : M amplitude unit :=
  match xs with
  | [] => ret tt
  | x :: xs' => bind (add_stream_amplitude cap x) (fun _ => push_all cap xs')
  end.

End Binary64.

(** The rational number a finite binary64 value stands for. *)
Definition float_value (x : float) : option Q :=
  match Prim2SF x with
  | S754_zero _ => Some 0%Q
  | S754_finite s m e =>
      Some ((if s then - inject_Z (Zpos m) else inject_Z (Zpos m)) * 2 ^ e)%Q
  | _ => None
  end.

Fixpoint float_values (xs : list float) : option (list Q) :=
  match xs with
  | [] => Some []
  | x :: xs' =>
      match float_value x, float_values xs' with
      | Some q, Some qs => Some (q :: qs)
      | _, _ => None
      end
  end.

(** A binary64 tracker as [current_dB] reads it, when all it holds is
    finite. *)
Definition reading (a : Binary64.amplitude) : option amplitude :=
  match float_values (Binary64.sampleFrameAmplitudes a),
        float_value (Binary64.sumSampleFrameAmplitudes a) with
  | Some amps, Some sum =>
      Some (mkAmplitude (map Q2R amps) (Binary64.nSampleFrameAmplitudes a)
              (Q2R sum))
  | _, _ => None
  end.

(** The newest [n] entries of a list, all of them when there are fewer. *)
Definition newest {A : Type} (n : nat) (l : list A) : list A :=
  skipn (length l - n) l.

(** The amplitudes 20000000/1764 and 3/1764, as binary64 quotients. *)
Definition loud_frame : float := (20000000 / 1764)%float.
Definition faint_frame : float := (3 / 1764)%float.

(** ** Configuration *)

(** Opaque handles of the capture library. *)
Inductive PyAudio : Type := PyAudioInstance.
Inductive Stream : Type := InputStream.

Record device : Type := mkDevice {
  audioDev : option PyAudio;
  stream : option Stream
}.

Record format : Type := mkFormat {
  FORMAT : sample_format;
  sampleLen : Z;
  PEAK : option R;
  CHANNELS : Z;
  SAMPLE_FRAME_LEN : Z
}.

Record timing : Type := mkTiming {
  RATE : Z;
  nyquistRate : Z;
  sampleWindow : Q;
  meanSampleFrames : Z
}.

(** A one-dimensional float64 array. *)
Definition ndarray : Type := list float.

Record framing : Type := mkFraming {
  windowFn : string;
  fnWindow : option ndarray;
  batchFFTDuration : Z
}.

(** Class constants that no method assigns. *)
Definition tFFTUnit : Q := 2.
Definition windowOverlapRatio : Q := 66 # 100.

(** [__audio_open] *)
Definition audio_open (d : device) : bool :=
  match audioDev d, stream d with
  | Some _, Some _ => true
  | _, _ => false
  end.

(** [set_sample_size] *)
Definition set_sample_size (newSize : sample_format) (f : format) : format :=
  {| FORMAT := newSize;
     sampleLen := sample_len_of newSize;
     PEAK := Some (sample_peak_of newSize);
     CHANNELS := CHANNELS f;
     SAMPLE_FRAME_LEN := SAMPLE_FRAME_LEN f |}.

Definition obind {A B : Type} (o : outcome A) (k : A -> outcome B) : outcome B :=
  match o with
  | Ret a => k a
  | Raise e => Raise e
  end.

(** [samples_per_frame] *)
Definition samples_per_frame (f : format) : outcome Q :=
  py_div (inject_Z (SAMPLE_FRAME_LEN f))
         (1 * inject_Z (CHANNELS f) * inject_Z (sampleLen f))%Q.

(** [sample_frame_duration] *)
Definition sample_frame_duration (f : format) (rate : Z) : outcome Q :=
  obind (samples_per_frame f) (fun spf => py_div spf (inject_Z rate)).

(** [mean_sample_frames_in_duration] *)
Definition mean_sample_frames_in_duration (f : format) (rate : Z) (duration : Q)
  : outcome Z :=
  obind (sample_frame_duration f rate) (fun sfd =>
  obind (py_div duration sfd) (fun q => Ret (py_round q))).

Definition with_meanSampleFrames (m : Z) (t : timing) : timing :=
  {| RATE := RATE t; nyquistRate := nyquistRate t;
     sampleWindow := sampleWindow t; meanSampleFrames := m |}.

(** [set_sample_window] *)
Definition set_sample_window (f : format) (newSampleWindow : Q) : M timing unit :=
  fun t =>
    let t1 := {| RATE := RATE t; nyquistRate := nyquistRate t;
                 sampleWindow := newSampleWindow;
                 meanSampleFrames := meanSampleFrames t |} in
    match mean_sample_frames_in_duration f (RATE t1) newSampleWindow with
    | Raise e => (Raise e, t1)
    | Ret m =>
        let t2 := with_meanSampleFrames m t1 in
        if m <? 1 then (Ret tt, with_meanSampleFrames 1 t2)
        else
          match mean_sample_frames_in_duration f (RATE t2) 1 with
          | Raise e => (Raise e, t2)
          | Ret secondOfSampleFrames =>
              if secondOfSampleFrames <? m
              then (Ret tt, with_meanSampleFrames secondOfSampleFrames t2)
              else (Ret tt, t2)
          end
    end.

(** [__fft_frame_size] *)
Definition fft_frame_size (rate : Z) : Z := py_int (tFFTUnit * inject_Z rate).

(** ** The numerical libraries *)

(** Critical frequencies handed to [scipy.signal.butter]. *)
Inductive critical : Type :=
| Scalar (f : Z)
| Band (low high : Z).

(** numpy and scipy, as far as the thread calls them. Every routine may
    raise. [coeffs] is a filter coefficient array, [spectrum] the complex
    output of the real FFT. *)
Class numlib : Type := {
  coeffs : Type;
  spectrum : Type;
  (* scipy.signal.windows.<kernel>(M) *)
  signal_window : string -> Z -> outcome ndarray;
  (* scipy.signal.butter(N, Wn, btype, fs), output 'ba' *)
  butter_ba : Z -> critical -> string -> option Z -> outcome (coeffs * coeffs);
  (* scipy.signal.butter(N, Wn, btype, fs, output='sos') *)
  butter_sos : Z -> critical -> string -> option Z -> outcome coeffs;
  (* scipy.signal.filtfilt(b, a, x) *)
  filtfilt : coeffs -> coeffs -> ndarray -> outcome ndarray;
  (* scipy.signal.sosfilt(sos, x) *)
  sosfilt : coeffs -> ndarray -> outcome ndarray;
  (* numpy.fft.rfft(x, norm="backward") *)
  rfft : ndarray -> outcome spectrum;
  (* numpy.abs on a complex array *)
  np_abs : spectrum -> ndarray;
  (* numpy.fft.rfftfreq(n, 1.0 / rate), the reciprocal already taken *)
  rfftfreq : Z -> Z -> outcome ndarray
}.

Section Thread.

Context {lib : numlib}.

(** [__get_window_function]: the scipy kernel for a name of the settings
    dialog, or no window for a name it does not know. *)
Definition window_kernel_name (windowName : string) : option string :=
  if String.eqb windowName "Boxcar" then Some "boxcar"
  else if String.eqb windowName "Triangular" then Some "triang"
  else if String.eqb windowName "Blackman" then Some "blackman"
  else if String.eqb windowName "Hamming" then Some "hamming"
  else if String.eqb windowName "Hann" then Some "hann"
  else if String.eqb windowName "Bartlett" then Some "bartlett"
  else if String.eqb windowName "Flat top" then Some "flattop"
  else if String.eqb windowName "Parzen" then Some "parzen"
  else if String.eqb windowName "Bohman" then Some "bohman"
  else if String.eqb windowName "Blackman-Harris" then Some "blackmanharris"
  else if String.eqb windowName "Nuttall" then Some "nuttall"
  else if String.eqb windowName "Bartlett-Hann" then Some "barthann"
  else if String.eqb windowName "Cosine" then Some "cosine"
  else if String.eqb windowName "Exponential" then Some "exponential"
  else if String.eqb windowName "Tukey" then Some "tukey"
  else if String.eqb windowName "Taylor" then Some "taylor"
  else if String.eqb windowName "Lanczos" then Some "lanczos"
  else None.

Definition get_window_function (windowName : string) (sampleCount : Z)
  : outcome (option ndarray) :=
  match window_kernel_name windowName with
  | Some kernel => obind (signal_window kernel sampleCount) (fun w => Ret (Some w))
  | None => Ret None
  end.

Definition with_fnWindow (w : option ndarray) (g : framing) : framing :=
  {| windowFn := windowFn g; fnWindow := w;
     batchFFTDuration := batchFFTDuration g |}.

(** [__create_window_function] *)
Definition create_window_function (rate : Z) : M framing unit :=
  fun g =>
    if String.eqb (windowFn g) "" then (Ret tt, with_fnWindow None g)
    else
      match get_window_function (windowFn g) (fft_frame_size rate) with
      | Ret w => (Ret tt, with_fnWindow w g)
      | Raise e => (Raise e, g)
      end.

(** [set_window_type] *)
Definition set_window_type (rate : Z) (newType : string) : M framing unit :=
  fun g =>
    create_window_function rate
      {| windowFn := newType; fnWindow := fnWindow g;
         batchFFTDuration := batchFFTDuration g |}.

(** ** Filter set-up *)

Record filter : Type := mkFilter {
  filtType : string;
  filtLowF : Z;
  filtHighF : Z;
  filtOrder : Z;
  filterA : option coeffs;
  filterB : option coeffs
}.

(** [__get_sp_filter_name] *)
Definition get_sp_filter_name (f : filter) : string :=
  if String.eqb (filtType f) "Low pass" then "lowpass"
  else if String.eqb (filtType f) "High pass" then "hp"
  else if String.eqb (filtType f) "Band pass" then "bandpass"
  else if String.eqb (filtType f) "Band stop" then "bandstop"
  else "".

(** The coefficients [__create_sample_filter] designs: the pair [(a, b)]
    that it is about to store. *)
Definition design_sample_filter (t : timing) (f : filter)
  : outcome (option coeffs * option coeffs) :=
  let filtName := get_sp_filter_name f in
  let ba (r : outcome (coeffs * coeffs)) :=
    obind r (fun p => Ret (Some (fst p), Some (snd p))) in
  if negb (String.eqb (filtType f) "") then
    if String.eqb (filtType f) "Low pass" then
      if (0 <? filtHighF f) && (filtHighF f <? nyquistRate t)
      then ba (butter_ba (filtOrder f) (Scalar (filtHighF f)) filtName None)
      else Ret (None, None)
    else if String.eqb (filtType f) "High pass" then
      if (0 <? filtLowF f) && (filtLowF f <? nyquistRate t)
      then obind (butter_sos (filtOrder f) (Scalar (filtLowF f)) filtName
                    (Some (RATE t)))
                 (fun sos => Ret (Some sos, None))
      else Ret (None, None)
    else if String.eqb (filtType f) "Band pass" then
      if (0 <? filtLowF f) && (filtHighF f <=? nyquistRate t)
         && (filtLowF f <? filtHighF f)
      then ba (butter_ba (filtOrder f) (Band (filtLowF f) (filtHighF f))
                 filtName (Some (RATE t)))
      else Ret (None, None)
    else if String.eqb (filtType f) "Band stop" then
      if (0 <=? filtLowF f) && (filtHighF f <=? nyquistRate t)
         && (filtLowF f <? filtHighF f)
      then ba (butter_ba (filtOrder f) (Band (filtLowF f) (filtHighF f))
                 filtName (Some (RATE t)))
      else Ret (None, None)
    else Ret (None, None)
  else Ret (None, None).

(** [__create_sample_filter]: the coefficients are stored only when the
    design returned; an exception of the design leaves them as they were. *)
Definition create_sample_filter (t : timing) : M filter unit :=
  fun f =>
    match design_sample_filter t f with
    | Ret (a, b) =>
        (Ret tt,
         {| filtType := filtType f; filtLowF := filtLowF f;
            filtHighF := filtHighF f; filtOrder := filtOrder f;
            filterA := a; filterB := b |})
    | Raise e => (Raise e, f)
    end.

(** [set_filter_type], [set_filter_low_f], [set_filter_high_f],
    [set_filter_order] *)
Definition set_filter_type (t : timing) (newType : string) : M filter unit :=
  fun f =>
    if String.eqb newType (filtType f) then (Ret tt, f)
    else create_sample_filter t
           {| filtType := newType; filtLowF := filtLowF f;
              filtHighF := filtHighF f; filtOrder := filtOrder f;
              filterA := filterA f; filterB := filterB f |}.

Definition set_filter_low_f (t : timing) (newLowF : Z) : M filter unit :=
  fun f =>
    if newLowF =? filtLowF f then (Ret tt, f)
    else create_sample_filter t
           {| filtType := filtType f; filtLowF := newLowF;
              filtHighF := filtHighF f; filtOrder := filtOrder f;
              filterA := filterA f; filterB := filterB f |}.

Definition set_filter_high_f (t : timing) (newHighF : Z) : M filter unit :=
  fun f =>
    if newHighF =? filtHighF f then (Ret tt, f)
    else create_sample_filter t
           {| filtType := filtType f; filtLowF := filtLowF f;
              filtHighF := newHighF; filtOrder := filtOrder f;
              filterA := filterA f; filterB := filterB f |}.

Definition set_filter_order (t : timing) (newOrder : Z) : M filter unit :=
  fun f =>
    if newOrder =? filtOrder f then (Ret tt, f)
    else create_sample_filter t
           {| filtType := filtType f; filtLowF := filtLowF f;
              filtHighF := filtHighF f; filtOrder := newOrder;
              filterA := filterA f; filterB := filterB f |}.

(** ** numpy array primitives *)

(** Index of a slice bound in a sequence of length [len]: negative bounds
    count from the end, and all bounds are clamped. *)
Definition slice_index (len i : Z) : Z :=
  if i <? 0 then Z.max 0 (i + len) else Z.min i len.

(** [a[start:stop]] *)
Definition py_slice {A : Type} (a : list A) (start stop : Z) : list A :=
  let n := Z.of_nat (length a) in
  let lo := slice_index n start in
  let hi := slice_index n stop in
  firstn (Z.to_nat (hi - lo)) (skipn (Z.to_nat lo) a).

(** Writing [new] through the view [a[start:stop]], for [new] as long as
    the view. *)
Definition py_slice_store {A : Type} (a : list A) (start stop : Z) (new : list A)
  : list A :=
  let n := Z.of_nat (length a) in
  let lo := slice_index n start in
  let hi := slice_index n stop in
  firstn (Z.to_nat lo) a ++ new
    ++ skipn (Z.to_nat lo + Z.to_nat (hi - lo)) a.

(** [numpy.zeros(n)] *)
Definition np_zeros (n : Z) : outcome ndarray :=
  if n <? 0 then Raise ValueError else Ret (repeat 0%float (Z.to_nat n)).

Fixpoint zip_with (f : float -> float -> float) (x y : ndarray) : ndarray :=
  match x, y with
  | a :: x', b :: y' => f a b :: zip_with f x' y'
  | _, _ => []
  end.

(** An in-place elementwise operation [x op= y]: [y] must have the shape of
    [x] or broadcast to it. *)
Definition np_inplace (f : float -> float -> float) (x y : ndarray)
  : outcome ndarray :=
  if Nat.eqb (length y) (length x) then Ret (zip_with f x y)
  else
    match y with
    | [b] => Ret (map (fun a => f a b) x)
    | _ => Raise ValueError
    end.

Definition np_isnan (x : float) : bool := PrimFloat.is_nan x.

(** [numpy.min] and [numpy.max]: a NaN element makes the result NaN; an
    empty array has no minimum or maximum. *)
Definition nan_min (a b : float) : float :=
  if np_isnan a then a else if np_isnan b then b
  else if PrimFloat.ltb b a then b else a.

Definition nan_max (a b : float) : float :=
  if np_isnan a then a else if np_isnan b then b
  else if PrimFloat.ltb a b then b else a.

Definition np_min (x : ndarray) : outcome float :=
  match x with
  | [] => Raise ValueError
  | a :: r => Ret (fold_left nan_min r a)
  end.

Definition np_max (x : ndarray) : outcome float :=
  match x with
  | [] => Raise ValueError
  | a :: r => Ret (fold_left nan_max r a)
  end.

(** [int(n / d)] on two ints. *)
Definition int_quotient (n d : Z) : outcome Z :=
  if d =? 0 then Raise ZeroDivisionError else Ret (Z.quot n d).

(** ** The FFT pipeline *)

(** What the pipeline did, in order, newest first: the notifications sent
    to the consumer, and, as instrumentation, each frame sliced from the
    stream (with the number of samples the stream held at that moment) and
    each transform performed. *)
Inductive event : Type :=
| Emitted (msg : string)
| FrameTaken (start stop n : Z)
| Transformed.

Record sample_buffer : Type := mkBuffer {
  sampleStream : option ndarray;
  nSampleStream : Z;
  fftFrameCount : Z;
  fftMinimumSampleFrame : Z;
  fftActiveStart : Z;
  fftAciveFrame : Z
}.

Record accumulator : Type := mkAccumulator {
  fftSum : option ndarray;
  accumFFTSums : Z
}.

Record frequency_table : Type := mkFrequencyTable {
  xFreq : option ndarray;
  lastBinCount : Z;
  lastRate : Z
}.

(** The work-in-progress frame. [frameSamples] is a view of the stream,
    kept as its bounds; [filteredSamples] is read before the stream changes
    again, so its contents stand for it. *)
Record workspace : Type := mkWorkspace {
  frameSamples : option (Z * Z);
  nFrameSamples : Z;
  filteredSamples : option ndarray
}.

Record fft : Type := mkFft {
  buf : sample_buffer;
  acc : accumulator;
  frq : frequency_table;
  wrk : workspace;
  events : list event
}.

Definition with_buf (b : sample_buffer) (s : fft) : fft :=
  mkFft b (acc s) (frq s) (wrk s) (events s).
Definition with_acc (a : accumulator) (s : fft) : fft :=
  mkFft (buf s) a (frq s) (wrk s) (events s).
Definition with_frq (q : frequency_table) (s : fft) : fft :=
  mkFft (buf s) (acc s) q (wrk s) (events s).
Definition with_wrk (w : workspace) (s : fft) : fft :=
  mkFft (buf s) (acc s) (frq s) w (events s).
Definition log_event (e : event) (s : fft) : fft :=
  mkFft (buf s) (acc s) (frq s) (wrk s) (e :: events s).

Definition with_sampleStream (x : option ndarray) (b : sample_buffer)
  : sample_buffer :=
  mkBuffer x (nSampleStream b) (fftFrameCount b) (fftMinimumSampleFrame b)
           (fftActiveStart b) (fftAciveFrame b).
Definition with_fftActiveStart (p : Z) (b : sample_buffer) : sample_buffer :=
  mkBuffer (sampleStream b) (nSampleStream b) (fftFrameCount b)
           (fftMinimumSampleFrame b) p (fftAciveFrame b).

Definition bad_filter_message : string :=
  "The filter configured in the Settings dialog cannot be applied, it results in invalid data that cannot be used to obtain a spectrum. The most likely reason is that the filter has a cut-off frequency that is too close to a band edge, e.g. too close to zero or too close to the Nyquist frequency for the sample-rate.".

(** [__get_initial_frame_limits] *)
Definition get_initial_frame_limits (rate overlapLength : Z) (b : sample_buffer)
  : Z * Z * Z :=
  let fftFrameLen := fft_frame_size rate in
  let fftFrameStart := fftActiveStart b - overlapLength in
  let fftFrameStart := if fftFrameStart <? 0 then 0 else fftFrameStart in
  (fftFrameStart, fftFrameStart + fftFrameLen, fftFrameLen).

(** [__get_next_frame_limits] *)
Definition get_next_frame_limits (fftFrameStart fftFrameLen overlapLength : Z)
  : M fft (Z * Z) :=
  fun s =>
    let fftFrameStart := fftFrameStart + (fftFrameLen - overlapLength) in
    let fftFrameEnd := fftFrameStart + fftFrameLen in
    (Ret (fftFrameStart, fftFrameEnd),
     with_buf (with_fftActiveStart fftFrameStart (buf s)) s).

(** The overlap [__do_FFT] uses. *)
Definition overlap_length (window : option ndarray) (fftFrameSize : Z) : Z :=
  match window with
  | None => 0
  | Some _ => py_int (windowOverlapRatio * inject_Z fftFrameSize)
  end.

(** [self.frameSamples = self.sampleStream[start:stop]] *)
Definition take_frame (fftFrameStart fftFrameEnd fftFrameLen : Z) : M fft unit :=
  fun s =>
    match sampleStream (buf s) with
    | None => (Raise TypeError, s)
    | Some x =>
        (Ret tt,
         log_event (FrameTaken fftFrameStart fftFrameEnd (Z.of_nat (length x)))
           (with_wrk (mkWorkspace (Some (fftFrameStart, fftFrameEnd)) fftFrameLen
                        (filteredSamples (wrk s))) s))
    end.

(** The samples seen through [frameSamples]. *)
Definition frame_contents (s : fft) : outcome ndarray :=
  match frameSamples (wrk s), sampleStream (buf s) with
  | Some (start, stop), Some x => Ret (py_slice x start stop)
  | _, _ => Raise TypeError
  end.

(** [__apply_any_window_function]: the product is written through the view,
    into the stream. *)
Definition apply_any_window_function (window : option ndarray) : M fft unit :=
  fun s =>
    match window with
    | None => (Ret tt, s)
    | Some w =>
        match frameSamples (wrk s), sampleStream (buf s) with
        | Some (start, stop), Some x =>
            match np_inplace PrimFloat.mul (py_slice x start stop) w with
            | Ret y =>
                (Ret tt,
                 with_buf (with_sampleStream
                             (Some (py_slice_store x start stop y)) (buf s)) s)
            | Raise e => (Raise e, s)
            end
        | _, _ => (Raise TypeError, s)
        end
    end.

(** [__verify_filtered_data]. Without filtered data at hand (the handler
    of [__apply_any_filter] can get here so) numpy rejects the operand. *)
Definition verify_filtered_data : M fft unit :=
  fun s =>
    match filteredSamples (wrk s) with
    | None => (Raise TypeError, s)
    | Some x =>
        match np_min x, np_max x with
        | Ret filtMin, Ret filtMax =>
            if np_isnan filtMin || np_isnan filtMax
            then (Ret tt, log_event (Emitted bad_filter_message) s)
            else (Ret tt, s)
        | Raise e, _ => (Raise e, s)
        | _, Raise e => (Raise e, s)
        end
    end.

Definition with_filteredSamples (x : option ndarray) (s : fft) : fft :=
  with_wrk (mkWorkspace (frameSamples (wrk s)) (nFrameSamples (wrk s)) x) s.

(** The [try] block of [__apply_any_filter]. *)
Definition apply_any_filter_try (a b : option coeffs) : M fft unit :=
  fun s =>
    match frame_contents s with
    | Raise e => (Raise e, s)
    | Ret x =>
        match a, b with
        | Some fa, Some fb =>
            match filtfilt fa fb x with
            | Ret y => verify_filtered_data (with_filteredSamples (Some y) s)
            | Raise e => (Raise e, s)
            end
        | Some fa, None =>
            match sosfilt fa x with
            | Ret y => verify_filtered_data (with_filteredSamples (Some y) s)
            | Raise e => (Raise e, s)
            end
        | None, _ => (Ret tt, with_filteredSamples (Some x) s)
        end
    end.

(** [__apply_any_filter]: the handler looks at the filtered data once more
    and raises again. *)
Definition apply_any_filter (a b : option coeffs) : M fft unit :=
  fun s =>
    match apply_any_filter_try a b s with
    | (Ret _, s') => (Ret tt, s')
    | (Raise e, s') => bind verify_filtered_data (fun _ => raise e) s'
    end.

Definition clear_workspace (s : fft) : fft :=
  with_wrk (mkWorkspace None 0 None) s.

(** The transform step of [__do_FFT]: the workspace is dropped whether or
    not the transform returns. *)
Definition transform_frame : M fft spectrum :=
  fun s =>
    match filteredSamples (wrk s) with
    | None => (Raise TypeError, clear_workspace s)
    | Some x =>
        match rfft x with
        | Ret tmpFFT => (Ret tmpFFT, log_event Transformed (clear_workspace s))
        | Raise e => (Raise e, clear_workspace s)
        end
    end.

(** [__create_bin_frequency_data_for_FFT] *)
Definition create_bin_frequency_data_for_FFT (rate fftBinCount : Z) : M fft unit :=
  fun s =>
    if negb (fftBinCount =? lastBinCount (frq s))
       || negb (lastRate (frq s) =? rate)
    then
      if rate =? 0 then (Raise ZeroDivisionError, s)
      else
        match rfftfreq fftBinCount rate with
        | Ret x => (Ret tt, with_frq (mkFrequencyTable (Some x) fftBinCount rate) s)
        | Raise e => (Raise e, s)
        end
    else (Ret tt, s).

(** [tmpFFT = np.abs(tmpFFT)] with its minimum and maximum. *)
Definition magnitude (tmpFFT : spectrum) : M fft ndarray :=
  fun s =>
    let m := np_abs tmpFFT in
    match np_min m, np_max m with
    | Ret _, Ret _ => (Ret m, s)
    | Raise e, _ => (Raise e, s)
    | _, Raise e => (Raise e, s)
    end.

(** The summing step of [__do_FFT]: the first spectrum since a drain
    becomes the sum, a later one is added to it in place. *)
Definition accumulate (a : accumulator) (tmpFFT : ndarray) : outcome accumulator :=
  if accumFFTSums a =? 0 then Ret (mkAccumulator (Some tmpFFT) 1)
  else
    match fftSum a with
    | None => Raise TypeError
    | Some total =>
        obind (np_inplace PrimFloat.add total tmpFFT) (fun total' =>
        Ret (mkAccumulator (Some total') (accumFFTSums a + 1)))
    end.

Definition sum_spectrum (tmpFFT : ndarray) : M fft unit :=
  fun s =>
    match accumulate (acc s) tmpFFT with
    | Ret a' => (Ret tt, with_acc a' s)
    | Raise e => (Raise e, s)
    end.

(** One turn of the loop of [__do_FFT]. *)
Definition process_frame (rate : Z) (window : option ndarray)
    (a b : option coeffs) (fftFrameStart fftFrameEnd fftFrameLen overlapLength : Z)
  : M fft (Z * Z) :=
  (take_frame fftFrameStart fftFrameEnd fftFrameLen ;;;
   apply_any_window_function window ;;;
   apply_any_filter a b ;;;
   tmpFFT <- transform_frame ;;
   create_bin_frequency_data_for_FFT rate (Z.quot fftFrameLen 2 + 1) ;;;
   mag <- magnitude tmpFFT ;;
   sum_spectrum mag ;;;
   get_next_frame_limits fftFrameStart fftFrameLen overlapLength)%py.

(** The loop of [__do_FFT]: any exception of a turn ends the loop. [None]
    when the fuel runs out. *)
Fixpoint transform_frames (fuel : nat) (rate : Z) (window : option ndarray)
    (a b : option coeffs) (fftFrameStart fftFrameEnd fftFrameLen overlapLength : Z)
    (transformEnd : Z) (s : fft) : option fft :=
  if fftFrameEnd <? transformEnd then
    match fuel with
    | O => None
    | S fuel' =>
        match process_frame rate window a b fftFrameStart fftFrameEnd
                fftFrameLen overlapLength s with
        | (Ret (start', end'), s') =>
            transform_frames fuel' rate window a b start' end' fftFrameLen
              overlapLength transformEnd s'
        | (Raise _, s') => Some s'
        end
    end
  else Some s.

(** [__drop_redundant_samples] *)
Definition drop_redundant_samples (rate : Z) : M sample_buffer unit :=
  fun b =>
    let fftFrameSize := fft_frame_size rate in
    let minimumSamples := fftMinimumSampleFrame b * fftFrameSize in
    if minimumSamples <? fftActiveStart b then
      let sliceSamples := fftActiveStart b - minimumSamples in
      if fftFrameSize <=? sliceSamples then
        match sampleStream b with
        | None => (Raise TypeError, b)
        | Some x =>
            let b1 := mkBuffer (Some (py_slice x sliceSamples
                                        (Z.of_nat (length x))))
                        (nSampleStream b - sliceSamples) (fftFrameCount b)
                        (fftMinimumSampleFrame b) (fftActiveStart b)
                        (fftAciveFrame b) in
            match int_quotient (nSampleStream b1) fftFrameSize with
            | Raise e => (Raise e, b1)
            | Ret c =>
                (Ret tt,
                 mkBuffer (sampleStream b1) (nSampleStream b1) c
                   (fftMinimumSampleFrame b1) (fftActiveStart b1 - sliceSamples)
                   (fftAciveFrame b1))
            end
        end
      else (Ret tt, b)
    else (Ret tt, b).

(** [__do_FFT] *)
Definition do_FFT (fuel : nat) (rate : Z) (window : option ndarray)
    (a b : option coeffs) (s : fft) : option (outcome unit * fft) :=
  let fftFrameSize := fft_frame_size rate in
  let overlapLength := overlap_length window fftFrameSize in
  let '(fftFrameStart, fftFrameEnd, fftFrameLen) :=
    get_initial_frame_limits rate overlapLength (buf s) in
  let nSamples := nSampleStream (buf s) - fftActiveStart (buf s) in
  let minimumSamples := fftMinimumSampleFrame (buf s) * fftFrameSize in
  let transformEnd := nSamples - minimumSamples in
  match transform_frames fuel rate window a b fftFrameStart fftFrameEnd
          fftFrameLen overlapLength transformEnd s with
  | None => None
  | Some s' =>
      match drop_redundant_samples rate (buf s') with
      | (o, b') => Some (o, with_buf b' s')
      end
  end.

(** The loop of [__do_FFT] alone, as [__do_FFT] enters it: the state it
    leaves for [__drop_redundant_samples]. *)
Definition frames_of_do_FFT (fuel : nat) (rate : Z) (window : option ndarray)
    (a b : option coeffs) (s : fft) : option fft :=
  let fftFrameSize := fft_frame_size rate in
  let overlapLength := overlap_length window fftFrameSize in
  let '(fftFrameStart, fftFrameEnd, fftFrameLen) :=
    get_initial_frame_limits rate overlapLength (buf s) in
  let nSamples := nSampleStream (buf s) - fftActiveStart (buf s) in
  let minimumSamples := fftMinimumSampleFrame (buf s) * fftFrameSize in
  let transformEnd := nSamples - minimumSamples in
  transform_frames fuel rate window a b fftFrameStart fftFrameEnd
    fftFrameLen overlapLength transformEnd s.

(** Where the next call of [__do_FFT] starts its first frame, under the
    window then in place: the cursor less the overlap lead-in, or zero. *)
Definition next_frame_start (rate : Z) (window : option ndarray)
    (b : sample_buffer) : Z :=
  fst (fst (get_initial_frame_limits rate
              (overlap_length window (fft_frame_size rate)) b)).

(** [frames_in_stream] *)
Definition frames_in_stream (rate : Z) (b : sample_buffer) : Z :=
  let fftFrameSize := fft_frame_size rate in
  if negb (fftFrameSize =? 0) then Z.quot (nSampleStream b) fftFrameSize else 0.

(** [__preset_fft_state] *)
Definition preset_fft_state (rate : Z) : M sample_buffer unit :=
  fun b =>
    let fftFrameSize := fft_frame_size rate in
    let n := fftMinimumSampleFrame b * fftFrameSize in
    let b1 := mkBuffer (sampleStream b) n (fftFrameCount b)
                (fftMinimumSampleFrame b) (fftActiveStart b) (fftAciveFrame b) in
    match np_zeros n with
    | Raise e => (Raise e, b1)
    | Ret zeros =>
        (Ret tt,
         mkBuffer (Some zeros) n
           (frames_in_stream rate (with_sampleStream (Some zeros) b1))
           1 (fftActiveStart b) 0)
    end.

(** [__add_fft_stream_samples] *)
Definition add_fft_stream_samples (fuel : nat) (rate : Z) (g : framing)
    (a b : option coeffs) (newSamples : ndarray) (s : fft)
  : option (outcome unit * fft) :=
  match sampleStream (buf s) with
  | None => Some (Raise ValueError, s)
  | Some x =>
      let b1 := mkBuffer (Some (x ++ newSamples))
                  (nSampleStream (buf s) + Z.of_nat (length newSamples))
                  (fftFrameCount (buf s)) (fftMinimumSampleFrame (buf s))
                  (fftActiveStart (buf s)) (fftAciveFrame (buf s)) in
      let s1 := with_buf b1 s in
      if rate =? 0 then Some (Raise ZeroDivisionError, s1)
      else
        let fftFrameSize := fft_frame_size rate in
        match int_quotient (nSampleStream b1) fftFrameSize with
        | Raise e => Some (Raise e, s1)
        | Ret c =>
            let b2 := mkBuffer (sampleStream b1) (nSampleStream b1) c
                        (fftMinimumSampleFrame b1) (fftActiveStart b1)
                        (fftAciveFrame b1) in
            let s2 := with_buf b2 s in
            let newSamples :=
              (inject_Z (nSampleStream b2)
               - tFFTUnit * inject_Z (fftAciveFrame b2))%Q in
            let newFrames := py_int (newSamples / inject_Z fftFrameSize) in
            let tNewFrameSamples :=
              (inject_Z (newFrames * fftFrameSize) / inject_Z rate)%Q in
            let tLimit := inject_Z (batchFFTDuration g) in
            let tStep := (tNewFrameSamples - tLimit)%Q in
            if Qlt_le_dec 0 tStep
            then do_FFT fuel rate (fnWindow g) a b s2
            else Some (Ret tt, s2)
        end
  end.

(** [fft_data]: bring the transforms up to date, hand out the sum, reset
    the accumulator. *)
Definition fft_data (fuel : nat) (rate : Z) (window : option ndarray)
    (a b : option coeffs) (s : fft) : option (outcome (option ndarray) * fft) :=
  match do_FFT fuel rate window a b s with
  | None => None
  | Some (Raise e, s') => Some (Raise e, s')
  | Some (Ret _, s') =>
      Some (Ret (fftSum (acc s')), with_acc (mkAccumulator None 0) s')
  end.

(** [fft_freqs] *)
Definition fft_freqs (s : fft) : option ndarray := xFreq (frq s).

(** ** The thread object *)

Record thread : Type := mkThread {
  dev : device;
  fmt : format;
  tim : timing;
  frm : framing;
  amp : amplitude;
  flt : filter;
  pipeline : fft
}.

(** The class defaults. *)
Definition new_thread : thread :=
  {| dev := mkDevice None None;
     fmt := mkFormat paInt16 2 None 1 1024;
     tim := mkTiming 44100 22050 (1 # 4) 1;
     frm := mkFraming "Blackman-Harris" None 4;
     amp := reset_stream_amplitude;
     flt := mkFilter "" 1 2 3 None None;
     pipeline :=
       mkFft (mkBuffer None 0 0 2 0 0) (mkAccumulator None 0)
             (mkFrequencyTable None 0 0) (mkWorkspace None 0 None) [] |}.

(** [set_sample_rate] *)
Definition set_sample_rate (newRate : Z) : M thread unit :=
  fun st =>
    if negb (audio_open (dev st)) then
      let '(o, t') :=
        if negb (RATE (tim st) =? newRate) then
          set_sample_window (fmt st) (sampleWindow (tim st))
            {| RATE := newRate;
               nyquistRate := py_int (inject_Z newRate / 2);
               sampleWindow := sampleWindow (tim st);
               meanSampleFrames := meanSampleFrames (tim st) |}
        else (Ret tt, tim st) in
      match o with
      | Raise e =>
          (Raise e,
           mkThread (dev st) (fmt st) t' (frm st) (amp st) (flt st) (pipeline st))
      | Ret _ =>
          let '(o', g') := create_window_function (RATE t') (frm st) in
          (o', mkThread (dev st) (fmt st) t' g' (amp st) (flt st) (pipeline st))
      end
    else (Ret tt, st).

(** What the capture library answers when asked for a device and for an
    input stream. *)
Record capture_env : Type := mkCaptureEnv {
  pyaudio_new : outcome PyAudio;
  pyaudio_open : outcome (option Stream)
}.

(** [__start_audio] *)
Definition start_audio (env : capture_env) : M thread unit :=
  fun st =>
    match audioDev (dev st) with
    | Some _ => (Ret tt, st)
    | None =>
        match pyaudio_new env with
        | Raise e => (Raise e, st)
        | Ret pa =>
            let d1 := mkDevice (Some pa) (stream (dev st)) in
            match pyaudio_open env with
            | Raise e =>
                (Raise e,
                 mkThread d1 (fmt st) (tim st) (frm st) (amp st) (flt st)
                   (pipeline st))
            | Ret str =>
                let '(o, b') :=
                  preset_fft_state (RATE (tim st)) (buf (pipeline st)) in
                (o,
                 mkThread (mkDevice (Some pa) str) (fmt st) (tim st) (frm st)
                   reset_stream_amplitude (flt st) (with_buf b' (pipeline st)))
            end
        end
    end.

(** [__stop_audio] *)
Definition stop_audio (st : thread) : thread :=
  mkThread (mkDevice None None) (fmt st) (tim st) (frm st) (amp st) (flt st)
    (pipeline st).

(** The locked part of one turn of the capture loop of [run], for a frame
    read from the device and its mean absolute amplitude. *)
Definition capture_turn (fuel : nat) (sampleFrame : ndarray) (frameAmplitude : R)
    (st : thread) : option (outcome unit * thread) :=
  match add_stream_amplitude (meanSampleFrames (tim st)) frameAmplitude (amp st) with
  | (Raise e, a') =>
      Some (Raise e,
            mkThread (dev st) (fmt st) (tim st) (frm st) a' (flt st) (pipeline st))
  | (Ret _, a') =>
      match add_fft_stream_samples fuel (RATE (tim st)) (frm st)
              (filterA (flt st)) (filterB (flt st)) sampleFrame (pipeline st) with
      | None => None
      | Some (o, p') =>
          Some (o, mkThread (dev st) (fmt st) (tim st) (frm st) a' (flt st) p')
      end
  end.

(** ** Predicates on filters and pipeline states *)

(** What each filter family needs of its cut-offs, as the specification
    words it. *)
Definition cutoffs_acceptable (t : timing) (f : filter) : Prop :=
  (filtType f = "Low pass" ->
   0 < filtHighF f /\ filtHighF f < nyquistRate t) /\
  (filtType f = "High pass" ->
   0 < filtLowF f /\ filtLowF f < nyquistRate t) /\
  (filtType f = "Band pass" \/ filtType f = "Band stop" ->
   0 <= filtLowF f /\ filtLowF f < filtHighF f /\ filtHighF f <= nyquistRate t).

(** No filter in place. *)
Definition passthrough (f : filter) : Prop :=
  filterA f = None /\ filterB f = None.

(** The configured filter, applied to [x], returns [y]. *)
Definition filter_gives (fa : coeffs) (fb : option coeffs) (x y : ndarray) : Prop :=
  match fb with
  | Some b0 => filtfilt fa b0 x = Ret y
  | None => sosfilt fa x = Ret y
  end.

(** Every frame sliced so far lay within the stream it was sliced from. *)
Definition frames_ok (evs : list event) : Prop :=
  forall start stop n, In (FrameTaken start stop n) evs -> 0 <= start /\ stop <= n.

(** The stream is there, the sample count is its length, and the cursor
    lies within it. *)
Definition buffer_ok (b : sample_buffer) : Prop :=
  (exists x, sampleStream b = Some x /\ nSampleStream b = Z.of_nat (length x)) /\
  0 <= fftActiveStart b <= nSampleStream b /\
  1 <= fftMinimumSampleFrame b.

Definition stream_ok (s : fft) : Prop :=
  buffer_ok (buf s) /\ frames_ok (events s).

(** A frequency table is there only after a transform. *)
Definition table_after_transform (s : fft) : Prop :=
  xFreq (frq s) <> None -> In Transformed (events s).

(** Relations between the pipeline states before and after a step, used to
    follow a turn of the loop through its steps. *)

Definition is_frame (e : event) : bool :=
  match e with FrameTaken _ _ _ => true | _ => false end.

Definition stream_length (s : fft) : option nat :=
  option_map (@length float) (sampleStream (buf s)).

(** [tame s s']: from [s] to [s'] the stream kept its length and its
    counters, the cursor did not move, a frequency table that was there is
    still there, and the log grew by notifications and transforms only. *)
Definition tame (s s' : fft) : Prop :=
  nSampleStream (buf s') = nSampleStream (buf s) /\
  fftMinimumSampleFrame (buf s') = fftMinimumSampleFrame (buf s) /\
  fftActiveStart (buf s') = fftActiveStart (buf s) /\
  stream_length s' = stream_length s /\
  (xFreq (frq s) <> None -> xFreq (frq s') <> None) /\
  exists new, events s' = new ++ events s /\ existsb is_frame new = false.

Definition tame_step {A : Type} (m : M fft A) : Prop :=
  forall s, tame s (snd (m s)).

(** Reasoning along a chain of steps that starts in a state tame with
    respect to [s0]. *)
Definition after (s0 : fft) {A : Type} (m : M fft A)
    (Q : outcome A -> fft -> Prop) : Prop :=
  forall s, tame s0 s -> Q (fst (m s)) (snd (m s)).

(** What a turn leaves behind, seen from the state [s0] in which the work
    on the frame began. *)
Definition turn_post (s0 : fft) (start len overlap : Z)
    (o : outcome (Z * Z)) (s' : fft) : Prop :=
  match o with
  | Ret (start', end') =>
      start' = start + (len - overlap) /\ end' = start' + len /\
      exists s1, tame s0 s1 /\
                 s' = with_buf (with_fftActiveStart start' (buf s1)) s1
  | Raise _ => tame s0 s'
  end.

(** [turned start stop s s']: what one turn of the loop may have done
    between [s] and [s'], the cursor apart. *)
Definition turned (start stop : Z) (s s' : fft) : Prop :=
  nSampleStream (buf s') = nSampleStream (buf s) /\
  fftMinimumSampleFrame (buf s') = fftMinimumSampleFrame (buf s) /\
  stream_length s' = stream_length s /\
  (xFreq (frq s) <> None -> xFreq (frq s') <> None) /\
  exists new,
    events s' = new ++ events s /\
    forall a b n, In (FrameTaken a b n) new ->
      a = start /\ b = stop /\
      exists x, sampleStream (buf s) = Some x /\ n = Z.of_nat (length x).

(** The log of [s'] extends the log of [s]. *)
Definition grows (s s' : fft) : Prop :=
  exists new, events s' = new ++ events s.

(** [table_kept s s']: the frequency table and its keys are untouched and
    the log grew. *)
Definition table_kept (s s' : fft) : Prop := frq s' = frq s /\ grows s s'.

(** ** Histories of a pipeline *)

(** The pipeline states of one capture session at a fixed sample rate: the
    state [__start_audio] prepares on a new thread, then samples appended by
    the capture loop, transforms brought up to date, and drains by the
    consumer, in any order and under any window and filter. *)
Inductive accumulating (rate : Z) : fft -> Prop :=
| acc_start (b : sample_buffer) :
    preset_fft_state rate (buf (pipeline new_thread)) = (Ret tt, b) ->
    accumulating rate (with_buf b (pipeline new_thread))
| acc_append (fuel : nat) (g : framing) (fa fb : option coeffs)
    (newSamples : ndarray) (o : outcome unit) (s s' : fft) :
    accumulating rate s ->
    add_fft_stream_samples fuel rate g fa fb newSamples s = Some (o, s') ->
    accumulating rate s'
| acc_process (fuel : nat) (w : option ndarray) (fa fb : option coeffs)
    (o : outcome unit) (s s' : fft) :
    accumulating rate s ->
    do_FFT fuel rate w fa fb s = Some (o, s') ->
    accumulating rate s'
| acc_drain (fuel : nat) (w : option ndarray) (fa fb : option coeffs)
    (o : outcome (option ndarray)) (s s' : fft) :
    accumulating rate s ->
    fft_data fuel rate w fa fb s = Some (o, s') ->
    accumulating rate s'.

(** Every pipeline state a thread can reach from its construction, whatever
    the rates, windows and filters, and however often it is started. *)
Inductive constructed : fft -> Prop :=
| con_new : constructed (pipeline new_thread)
| con_preset (rate : Z) (o : outcome unit) (b : sample_buffer) (s : fft) :
    constructed s ->
    preset_fft_state rate (buf s) = (o, b) ->
    constructed (with_buf b s)
| con_append (fuel : nat) (rate : Z) (g : framing) (fa fb : option coeffs)
    (newSamples : ndarray) (o : outcome unit) (s s' : fft) :
    constructed s ->
    add_fft_stream_samples fuel rate g fa fb newSamples s = Some (o, s') ->
    constructed s'
| con_process (fuel : nat) (rate : Z) (w : option ndarray)
    (fa fb : option coeffs) (o : outcome unit) (s s' : fft) :
    constructed s ->
    do_FFT fuel rate w fa fb s = Some (o, s') ->
    constructed s'
| con_drain (fuel : nat) (rate : Z) (w : option ndarray) (fa fb : option coeffs)
    (o : outcome (option ndarray)) (s s' : fft) :
    constructed s ->
    fft_data fuel rate w fa fb s = Some (o, s') ->
    constructed s'.

End Thread.

(** ** A concrete library instance

    Used to run the model on concrete inputs: arrays stand for themselves,
    every window kernel is all ones, the Butterworth design returns the
    critical frequencies as coefficients, the forward-backward filter is
    numerically unstable (its output is NaN throughout, as scipy's is for a
    cut-off too close to a band edge), the cascaded filter and the transform
    are the identity. *)

Definition float_of_Z (z : Z) : float :=
  match z with
  | Z0 => 0%float
  | Zpos p => PrimFloat.of_uint63 (Uint63.of_Z z)
  | Zneg p => PrimFloat.opp (PrimFloat.of_uint63 (Uint63.of_Z (Zpos p)))
  end.

Definition critical_coeffs (w : critical) : ndarray :=
  match w with
  | Scalar f => [float_of_Z f]
  | Band low high => [float_of_Z low; float_of_Z high]
  end.

Definition unstable_lib : numlib := {|
  coeffs := ndarray;
  spectrum := ndarray;
  signal_window := fun _ m => Ret (repeat 1%float (Z.to_nat m));
  butter_ba := fun _ w _ _ => Ret (critical_coeffs w, critical_coeffs w);
  butter_sos := fun _ w _ _ => Ret (critical_coeffs w);
  filtfilt := fun _ _ x => Ret (map (fun _ => PrimFloat.nan) x);
  sosfilt := fun _ x => Ret x;
  rfft := fun x => Ret x;
  np_abs := fun x => map PrimFloat.abs x;
  rfftfreq := fun n _ => Ret (repeat 0%float (Z.to_nat n))
|}.

(** ** A capture session on concrete samples

    A thread at a rate of 1 Hz (frames of two samples), started by a capture
    library that answers, and the framing of a thread with no window. *)

(** A capture library that hands out a device and a stream. *)
Definition device_answers : capture_env :=
  mkCaptureEnv (Ret PyAudioInstance) (Ret (Some InputStream)).

(** The default thread with its device open. *)
Definition open_thread : thread :=
  mkThread (mkDevice (Some PyAudioInstance) (Some InputStream))
    (fmt (@new_thread unstable_lib)) (tim (@new_thread unstable_lib))
    (frm (@new_thread unstable_lib)) (amp (@new_thread unstable_lib))
    (flt (@new_thread unstable_lib)) (pipeline (@new_thread unstable_lib)).

Definition started_pipeline : fft :=
  pipeline (snd (start_audio device_answers
                   (mkThread (dev (@new_thread unstable_lib))
                      (fmt (@new_thread unstable_lib))
                      (mkTiming 1 0 (1 # 4) 1)
                      (frm (@new_thread unstable_lib))
                      (amp (@new_thread unstable_lib))
                      (flt (@new_thread unstable_lib))
                      (pipeline (@new_thread unstable_lib))))).

Definition no_window : framing := mkFraming "" None 4.

Definition is_emitted (e : event) : bool :=
  match e with Emitted _ => true | _ => false end.

(** ** Further methods of the thread *)

(** The names [__get_window_function] knows. *)
Definition window_names : list string :=
  ["Boxcar"; "Triangular"; "Blackman"; "Hamming"; "Hann"; "Bartlett";
   "Flat top"; "Parzen"; "Bohman"; "Blackman-Harris"; "Nuttall";
   "Bartlett-Hann"; "Cosine"; "Exponential"; "Tukey"; "Taylor"; "Lanczos"].

(** The divisors of [set_sample_window]: the frame length in bytes, the
    bytes per sample over all channels, the rate. *)
Definition zero_config (f : format) (rate : Z) : Prop :=
  SAMPLE_FRAME_LEN f = 0 \/ CHANNELS f * sampleLen f = 0 \/ rate = 0.

(** [__get_frame_limits], which nothing calls. The message of its first
    guard has five fields for four arguments, so that formatting it raises
    before the [ValueError] is reached. *)
Definition get_frame_limits (rate overlapLength : Z) (b : sample_buffer)
  : outcome (Z * Z * Z) :=
  let fftFrameSize := fft_frame_size rate in
  let fftFrameStart := fftActiveStart b - overlapLength in
  let fftFrameStart := if fftFrameStart <? 0 then 0 else fftFrameStart in
  let fftFrameEnd := fftFrameStart + fftFrameSize in
  let fftFrameLen := fftFrameEnd - fftFrameStart in
  if fftFrameLen <? fftFrameSize then Raise IndexError
  else if fftFrameStart <? 0 then Raise ValueError
  else Ret (fftFrameStart, fftFrameEnd, fftFrameLen).

(** [set_fft_view_duration]. [fftViewElementDuration], which no other
    method reads, is returned beside the framing that holds the batch
    duration. *)
Definition set_fft_view_duration (newDuration : Q) (g : framing) : Z * framing :=
  let fftViewElementDuration := py_int newDuration in
  let iMinDuration := py_int (2 * tFFTUnit) in
  let batch := py_int (inject_Z fftViewElementDuration / 8) in
  if batch <? iMinDuration then
    (iMinDuration,
     mkFraming (windowFn g) (fnWindow g)
       (if 1 <? iMinDuration then iMinDuration - 1 else iMinDuration))
  else
    (fftViewElementDuration, mkFraming (windowFn g) (fnWindow g) batch).

Section ThreadMore.

Context {lib : numlib}.

(** The [except IOError] clause of the capture loop of [run]: an [IOError]
    ends the turn quietly, with the state as the exception left it; any
    other exception leaves the loop. *)
Definition except_IOError (r : option (outcome unit * thread))
  : option (outcome unit * thread) :=
  match r with
  | Some (Raise IOError, st) => Some (Ret tt, st)
  | _ => r
  end.

(** The [try] statement of one turn of the capture loop of [run], for what
    [__capture_audio_sample_frame] answered: a frame and its mean absolute
    amplitude, or an exception. *)
Definition capture_iteration (fuel : nat)
    (captured : outcome (ndarray * R)) (st : thread)
  : option (outcome unit * thread) :=
  except_IOError
    match captured with
    | Ret (sampleFrame, frameAmplitude) =>
        capture_turn fuel sampleFrame frameAmplitude st
    | Raise e => Some (Raise e, st)
    end.

End ThreadMore.

(** ** A library instance that checks critical frequencies

    As [unstable_lib], but with a Butterworth design that, like scipy's,
    turns down critical frequencies outside the open interval from zero to
    half the sampling frequency, which is 1 when no sampling frequency is
    given. *)

Definition critical_in_band (w : critical) (fs : option Z) : bool :=
  let inside (f : Z) :=
    match fs with
    | Some rate => (0 <? f) && (2 * f <? rate)
    | None => (0 <? f) && (f <? 1)
    end in
  match w with
  | Scalar f => inside f
  | Band low high => inside low && inside high
  end.

Definition checked_lib : numlib := {|
  coeffs := ndarray;
  spectrum := ndarray;
  signal_window := fun _ m => Ret (repeat 1%float (Z.to_nat m));
  butter_ba := fun _ w _ fs =>
    if critical_in_band w fs then Ret (critical_coeffs w, critical_coeffs w)
    else Raise ValueError;
  butter_sos := fun _ w _ fs =>
    if critical_in_band w fs then Ret (critical_coeffs w) else Raise ValueError;
  filtfilt := fun _ _ x => Ret (map (fun _ => PrimFloat.nan) x);
  sosfilt := fun _ x => Ret x;
  rfft := fun x => Ret x;
  np_abs := fun x => map PrimFloat.abs x;
  rfftfreq := fun n _ => Ret (repeat 0%float (Z.to_nat n))
|}.

(** * Properties *)

Section AmplitudeTracker.

Local Open Scope R_scope.

(** What the eviction loop does, when it returns: it removes a prefix of the
    window and takes exactly the removed values off the running sum. *)
Lemma evict_while_ret (cap : Z) (amps : list R) :
  forall (n : Z) (sum : R) (a' : amplitude),
    evict_while cap amps n sum = (Ret tt, a') ->
    exists evicted,
      amps = evicted ++ sampleFrameAmplitudes a' /\
      nSampleFrameAmplitudes a' = (n - Z.of_nat (length evicted))%Z /\
      sumSampleFrameAmplitudes a' = sum - window_sum evicted /\
      (nSampleFrameAmplitudes a' < cap)%Z.
Proof.
  induction amps as [|x rest IH]; intros n sum a'; simpl.
  - destruct (Z.leb_spec cap n) as [Hc|Hc]; intros H; inversion H; subst; clear H.
    exists []; simpl. repeat split; try lia; lra.
  - destruct (Z.leb_spec cap n) as [Hc|Hc]; intros H.
    + destruct (IH _ _ _ H) as (ev & Hl & Hn & Hs & Hlt).
      exists (x :: ev); simpl length; simpl window_sum. repeat split.
      * simpl. now rewrite <- Hl.
      * lia.
      * lra.
      * exact Hlt.
    + inversion H; subst; clear H. exists []; simpl.
      repeat split; try lia; lra.
Qed.

(** The loop returns whenever the count is the list length and the cap is
    positive. *)
Lemma evict_while_total (cap : Z) (amps : list R) :
  forall (n : Z) (sum : R),
    (1 <= cap)%Z -> n = Z.of_nat (length amps) ->
    exists a', evict_while cap amps n sum = (Ret tt, a').
Proof.
  induction amps as [|x rest IH]; intros n sum Hcap Hn; simpl in *.
  - destruct (Z.leb_spec cap n) as [Hc|Hc]; [lia|]. eauto.
  - destruct (Z.leb_spec cap n) as [Hc|Hc]; [|eauto].
    apply IH; [assumption | lia].
Qed.

(** Under a cap of at least one, a push on a window whose count is its
    length returns and leaves a window of at most [cap] entries, however
    long the window was. *)
Lemma add_stream_amplitude_window (cap : Z) (x : R) (a : amplitude) :
  (1 <= cap)%Z ->
  nSampleFrameAmplitudes a = Z.of_nat (length (sampleFrameAmplitudes a)) ->
  exists a', add_stream_amplitude cap x a = (Ret tt, a') /\ window_ok cap a'.
Proof.
  intros Hcap Hn. unfold add_stream_amplitude.
  destruct (evict_while_total cap (sampleFrameAmplitudes a)
              (nSampleFrameAmplitudes a) (sumSampleFrameAmplitudes a) Hcap Hn)
    as [a1 E].
  rewrite E. eexists; split; [reflexivity|].
  destruct (evict_while_ret _ _ _ _ _ E) as (ev & Hl & Hn1 & _ & Hlt).
  unfold window_ok; simpl.
  assert (Hlen : nSampleFrameAmplitudes a1
                 = Z.of_nat (length (sampleFrameAmplitudes a1))).
  { rewrite Hn1, Hn, Hl at 1. rewrite length_app. lia. }
  rewrite length_app; simpl length. split; lia.
Qed.

End AmplitudeTracker.

Section AmplitudeTrackerBinary64.

(** The eviction loop in closed form: with a count that is the length of
    the window, it removes the oldest [n - cap + 1] entries, none when that
    is not positive, and subtracts them from the running sum in turn. *)
Lemma evict_while_closed (cap : Z) (amps : list float) :
  forall (n : Z) (sum : float),
    1 <= cap -> n = Z.of_nat (length amps) ->
    Binary64.evict_while cap amps n sum
    = (Ret tt,
       Binary64.mkAmplitude (skipn (Z.to_nat (n - cap + 1)) amps)
         (n - Z.of_nat (Z.to_nat (n - cap + 1)))
         (fold_left PrimFloat.sub (firstn (Z.to_nat (n - cap + 1)) amps) sum)).
Proof.
  induction amps as [|x rest IH]; intros n sum Hcap Hn;
    cbn [length] in Hn; rewrite ?Nat2Z.inj_succ in Hn; cbn [Binary64.evict_while].
  - destruct (Z.leb_spec cap n) as [Hc|Hc]; [lia|].
    replace (Z.to_nat (n - cap + 1)) with 0%nat by lia.
    simpl. now rewrite Z.sub_0_r.
  - destruct (Z.leb_spec cap n) as [Hc|Hc].
    + rewrite IH by lia.
      replace (Z.to_nat (n - cap + 1)) with (S (Z.to_nat (n - 1 - cap + 1)))
        by lia.
      cbn [skipn firstn fold_left]. f_equal. f_equal. lia.
    + replace (Z.to_nat (n - cap + 1)) with 0%nat by lia.
      simpl. now rewrite Z.sub_0_r.
Qed.

Lemma add_stream_amplitude_closed (cap : Z) (x : float) (a : Binary64.amplitude) :
  1 <= cap ->
  Binary64.nSampleFrameAmplitudes a = Z.of_nat (length (Binary64.sampleFrameAmplitudes a)) ->
  Binary64.add_stream_amplitude cap x a
  = (Ret tt,
     Binary64.mkAmplitude
       (skipn (Z.to_nat (Binary64.nSampleFrameAmplitudes a - cap + 1))
          (Binary64.sampleFrameAmplitudes a) ++ [x])
       (Binary64.nSampleFrameAmplitudes a
        - Z.of_nat (Z.to_nat (Binary64.nSampleFrameAmplitudes a - cap + 1)) + 1)
       (PrimFloat.add
          (fold_left PrimFloat.sub
             (firstn (Z.to_nat (Binary64.nSampleFrameAmplitudes a - cap + 1))
                (Binary64.sampleFrameAmplitudes a))
             (Binary64.sumSampleFrameAmplitudes a)) x)).
Proof.
  intros Hcap Hn. unfold Binary64.add_stream_amplitude.
  now rewrite (evict_while_closed cap _ _ _ Hcap Hn).
Qed.

Lemma newest_app_one {A : Type} (c : nat) (l : list A) (x : A) :
  (1 <= c)%nat ->
  skipn (length l - (c - 1)) l ++ [x] = newest c (l ++ [x]).
Proof.
  intros Hc. unfold newest. rewrite length_app. simpl length.
  replace (length l + 1 - c)%nat with (length l - (c - 1))%nat by lia.
  rewrite skipn_app.
  replace (length l - (c - 1) - length l)%nat with 0%nat by lia.
  reflexivity.
Qed.

Lemma newest_newest_app {A : Type} (c : nat) (l m : list A) :
  newest c (newest c l ++ m) = newest c (l ++ m).
Proof.
  unfold newest. destruct (Nat.le_gt_cases (length l) c) as [Hle|Hgt].
  - replace (length l - c)%nat with 0%nat by lia. reflexivity.
  - assert (E : skipn (length l - c) l ++ m = skipn (length l - c) (l ++ m)).
    { rewrite skipn_app.
      replace (length l - c - length l)%nat with 0%nat by lia. reflexivity. }
    rewrite E, skipn_skipn. f_equal.
    rewrite length_skipn, !length_app. lia.
Qed.

(** A run of pushes, in closed form: the window is the newest [cap] of the
    old window followed by the pushed amplitudes. *)
Lemma push_all_window (cap : Z) (xs : list float) :
  forall (x : float) (a : Binary64.amplitude),
    1 <= cap ->
    Binary64.nSampleFrameAmplitudes a = Z.of_nat (length (Binary64.sampleFrameAmplitudes a)) ->
    exists a',
      Binary64.push_all cap (x :: xs) a = (Ret tt, a') /\
      Binary64.sampleFrameAmplitudes a'
      = newest (Z.to_nat cap) (Binary64.sampleFrameAmplitudes a ++ x :: xs) /\
      Binary64.nSampleFrameAmplitudes a' = Z.of_nat (length (Binary64.sampleFrameAmplitudes a')).
Proof.
  induction xs as [|y ys IH]; intros x a Hcap Hn.
  - cbn [Binary64.push_all]. unfold bind.
    rewrite (add_stream_amplitude_closed cap x a Hcap Hn). unfold ret.
    eexists. split; [reflexivity|].
    cbn [Binary64.sampleFrameAmplitudes Binary64.nSampleFrameAmplitudes].
    rewrite Hn.
    replace (Z.to_nat (Z.of_nat (length (Binary64.sampleFrameAmplitudes a)) - cap + 1))
      with (length (Binary64.sampleFrameAmplitudes a) - (Z.to_nat cap - 1))%nat by lia.
    split; [apply newest_app_one; lia|].
    rewrite length_app, length_skipn. simpl length. lia.
  - change (Binary64.push_all cap (x :: y :: ys) a)
      with (bind (Binary64.add_stream_amplitude cap x) (fun _ => Binary64.push_all cap (y :: ys)) a).
    unfold bind at 1.
    rewrite (add_stream_amplitude_closed cap x a Hcap Hn).
    set (a1 := Binary64.mkAmplitude _ _ _).
    assert (Hw : Binary64.sampleFrameAmplitudes a1
                 = newest (Z.to_nat cap) (Binary64.sampleFrameAmplitudes a ++ [x])).
    { unfold a1. cbn [Binary64.sampleFrameAmplitudes]. rewrite Hn.
      replace (Z.to_nat (Z.of_nat (length (Binary64.sampleFrameAmplitudes a)) - cap + 1))
        with (length (Binary64.sampleFrameAmplitudes a) - (Z.to_nat cap - 1))%nat by lia.
      apply newest_app_one. lia. }
    assert (Hn1 : Binary64.nSampleFrameAmplitudes a1
                  = Z.of_nat (length (Binary64.sampleFrameAmplitudes a1))).
    { unfold a1. cbn [Binary64.sampleFrameAmplitudes Binary64.nSampleFrameAmplitudes].
      rewrite length_app, length_skipn. simpl length. lia. }
    destruct (IH y a1 Hcap Hn1) as (a' & E & Hw' & Hn').
    exists a'. split; [exact E|]. split; [|exact Hn'].
    rewrite Hw', Hw, newest_newest_app, <- app_assoc. reflexivity.
Qed.

Lemma newest_length {A : Type} (c : nat) (l : list A) :
  (length (newest c l) <= c)%nat.
Proof. unfold newest. rewrite length_skipn. lia. Qed.

(** C4, amended. In the arithmetic of the code, a push under a cap of at
    least one, on a tracker whose count is the length of its window,
    returns: it has evicted the oldest [count - cap + 1] amplitudes (none
    when that is not positive, all but [cap - 1] of a window that a lowered
    cap has left too long), subtracting each from the running sum with a
    binary64 subtraction, appended the new amplitude and added it with a
    binary64 addition. So after any run of one or more pushes the window
    is the newest [cap] of all amplitudes it has held or been given, in
    order, the count is its length, and it holds at most [cap] entries. *)
Theorem amplitude_tracker_pushes (cap : Z) (x : float) (xs : list float)
    (a : Binary64.amplitude) :
  1 <= cap ->
  Binary64.nSampleFrameAmplitudes a = Z.of_nat (length (Binary64.sampleFrameAmplitudes a)) ->
  let evicted := Z.to_nat (Binary64.nSampleFrameAmplitudes a - cap + 1) in
  Binary64.add_stream_amplitude cap x a
  = (Ret tt,
     Binary64.mkAmplitude
       (skipn evicted (Binary64.sampleFrameAmplitudes a) ++ [x])
       (Binary64.nSampleFrameAmplitudes a - Z.of_nat evicted + 1)
       (PrimFloat.add
          (fold_left PrimFloat.sub (firstn evicted (Binary64.sampleFrameAmplitudes a))
             (Binary64.sumSampleFrameAmplitudes a))
          x)) /\
  exists a',
    Binary64.push_all cap (x :: xs) a = (Ret tt, a') /\
    Binary64.sampleFrameAmplitudes a'
    = newest (Z.to_nat cap) (Binary64.sampleFrameAmplitudes a ++ x :: xs) /\
    Binary64.nSampleFrameAmplitudes a' = Z.of_nat (length (Binary64.sampleFrameAmplitudes a')) /\
    Z.of_nat (length (Binary64.sampleFrameAmplitudes a')) <= cap.
Proof.
  intros Hcap Hn evicted. split.
  - apply add_stream_amplitude_closed; assumption.
  - destruct (push_all_window cap xs x a Hcap Hn) as (a' & E & Hw & Hn').
    exists a'. split; [exact E|]. split; [exact Hw|]. split; [exact Hn'|].
    rewrite Hw. pose proof (newest_length (Z.to_nat cap)
                              (Binary64.sampleFrameAmplitudes a ++ x :: xs)). lia.
Qed.

End AmplitudeTrackerBinary64.

(** C4, as stated, fails in the arithmetic of the code. Under a cap of two,
    pushing 20000000/1764, 3/1764, 0 and 0 leaves a window of two zeros,
    whose recomputed mean is zero, with a running sum that is negative; and
    the eviction of 3/1764 from the running sum of the window
    [3/1764; 20000000/1764] takes off another value than 3/1764. *)
Lemma running_sum_drifts :
  (exists a,
     Binary64.push_all 2 [loud_frame; faint_frame; 0%float; 0%float]
       Binary64.reset_stream_amplitude = (Ret tt, a) /\
     Binary64.sampleFrameAmplitudes a = [0%float; 0%float] /\
     fold_left PrimFloat.add (Binary64.sampleFrameAmplitudes a) 0%float
     = 0%float /\
     PrimFloat.ltb (Binary64.sumSampleFrameAmplitudes a) 0 = true) /\
  (exists a before after old evicted,
     Binary64.push_all 2 [faint_frame; loud_frame]
       Binary64.reset_stream_amplitude = (Ret tt, a) /\
     Binary64.sampleFrameAmplitudes a = [faint_frame; loud_frame] /\
     Binary64.evict_while 2 (Binary64.sampleFrameAmplitudes a)
       (Binary64.nSampleFrameAmplitudes a)
       (Binary64.sumSampleFrameAmplitudes a)
     = (Ret tt, Binary64.mkAmplitude [loud_frame] 1 after) /\
     float_value (Binary64.sumSampleFrameAmplitudes a) = Some before /\
     float_value after = Some old /\
     float_value faint_frame = Some evicted /\
     ~ (old == before - evicted)%Q).
Proof.
  split.
  - eexists. split; [vm_compute; reflexivity|].
    split; [reflexivity|]. split; reflexivity.
  - do 5 eexists. split; [vm_compute; reflexivity|].
    split; [reflexivity|]. split; [vm_compute; reflexivity|].
    split; [vm_compute; reflexivity|]. split; [vm_compute; reflexivity|].
    split; [vm_compute; reflexivity|].
    intros H. apply Qeq_bool_iff in H. vm_compute in H. discriminate.
Qed.

Lemma amplitude_tracker_pushes_witness :
  exists a',
    Binary64.push_all 2 [loud_frame; faint_frame; 0%float; 0%float]
      Binary64.reset_stream_amplitude = (Ret tt, a') /\
    Binary64.sampleFrameAmplitudes a' = [0%float; 0%float] /\
    Binary64.nSampleFrameAmplitudes a' = 2.
Proof.
  destruct (amplitude_tracker_pushes 2 loud_frame
              [faint_frame; 0%float; 0%float] Binary64.reset_stream_amplitude
              ltac:(lia) eq_refl) as (_ & a' & E & Hw & Hn & _).
  exists a'. split; [exact E|]. split; [exact Hw|].
  rewrite Hn, Hw. reflexivity.
Defined.

Section DecibelLevel.

Local Open Scope R_scope.

Lemma ln_10_pos : 0 < ln 10.
Proof. rewrite <- ln_1. apply ln_increasing; lra. Qed.

Lemma log10_le (x y : R) : 0 < x -> x <= y -> log10 x <= log10 y.
Proof.
  intros Hx [Hlt | ->]; [|apply Rle_refl].
  unfold log10, Rdiv. apply Rmult_le_compat_r.
  - left. apply Rinv_0_lt_compat, ln_10_pos.
  - left. apply ln_increasing; assumption.
Qed.

Lemma log10_lt_neg (x : R) (k : nat) :
  0 < x -> x < / 10 ^ k -> log10 x < - INR k.
Proof.
  intros Hx Hlt.
  assert (Hp : 0 < 10 ^ k) by (apply pow_lt; lra).
  assert (Hln : ln x < - (INR k * ln 10)).
  { rewrite <- ln_pow by lra. rewrite <- ln_Rinv by exact Hp.
    apply ln_increasing; assumption. }
  unfold log10. pose proof ln_10_pos as H10.
  apply Rmult_lt_reg_r with (ln 10); [exact H10|].
  unfold Rdiv. rewrite Rmult_assoc, Rinv_l by lra. lra.
Qed.

Lemma current_dB_pos (peak : R) (a : amplitude) :
  0 < peak -> 0 < current_mean_amplitude a ->
  current_dB (Some peak) a
  = Ret (20 * log10 (current_mean_amplitude a / peak)).
Proof.
  intros Hp Hm. unfold current_dB.
  destruct (Req_dec_T (current_mean_amplitude a) 0) as [E|_]; [lra|].
  destruct (Req_dec_T peak 0) as [E|_]; [lra|].
  unfold math_log10.
  destruct (Rle_lt_dec (current_mean_amplitude a / peak) 0) as [Hle|_];
    [|reflexivity].
  exfalso. apply (Rlt_irrefl 0). apply Rlt_le_trans with (2 := Hle).
  apply Rdiv_lt_0_compat; assumption.
Qed.

Lemma current_dB_floor (peak : R) (a : amplitude) :
  current_mean_amplitude a = 0 \/ peak = 0 ->
  current_dB (Some peak) a = Ret (-90).
Proof.
  intros Hz. unfold current_dB.
  destruct (Req_dec_T (current_mean_amplitude a) 0) as [_|Hm]; [reflexivity|].
  destruct (Req_dec_T peak 0) as [_|Hp]; [reflexivity|].
  destruct Hz; contradiction.
Qed.

Lemma current_dB_neg (peak : R) (a : amplitude) :
  current_mean_amplitude a <> 0 -> peak <> 0 ->
  current_mean_amplitude a / peak < 0 ->
  current_dB (Some peak) a = Raise ValueError.
Proof.
  intros Hm Hp Hr. unfold current_dB.
  destruct (Req_dec_T (current_mean_amplitude a) 0) as [E|_]; [contradiction|].
  destruct (Req_dec_T peak 0) as [E|_]; [contradiction|].
  unfold math_log10.
  destruct (Rle_lt_dec (current_mean_amplitude a / peak) 0) as [_|Hlt];
    [reflexivity | lra].
Qed.

(** C5, as stated, fails: the running sum that the pushes 20000000/1764,
    3/1764, 0 and 0 leave under a cap of two is negative, so the mean is
    negative and not zero, and [current_dB] does not return
    20 log10 (mean / peak) but raises [ValueError]. *)
Lemma current_dB_raises_on_residue :
  exists a r,
    Binary64.push_all 2 [loud_frame; faint_frame; 0%float; 0%float]
      Binary64.reset_stream_amplitude = (Ret tt, a) /\
    reading a = Some r /\
    sampleFrameAmplitudes r = [Q2R 0; Q2R 0] /\
    current_mean_amplitude r < 0 /\
    current_dB (Some (sample_peak_of paInt16)) r = Raise ValueError.
Proof.
  eexists. eexists. split; [vm_compute; reflexivity|].
  split.
  { unfold reading.
    cbn [Binary64.sampleFrameAmplitudes Binary64.sumSampleFrameAmplitudes
         Binary64.nSampleFrameAmplitudes].
    replace (float_values [0%float; 0%float]) with (Some [0%Q; 0%Q])
      by (vm_compute; reflexivity).
    match goal with
    | |- context [float_value ?f] =>
        let v := eval vm_compute in (float_value f) in
        replace (float_value f) with v by (vm_compute; reflexivity)
    end.
    reflexivity. }
  split; [reflexivity|].
  match goal with
  | |- current_mean_amplitude ?r < 0 /\ _ =>
      assert (Hm : current_mean_amplitude r < 0)
  end.
  { unfold current_mean_amplitude.
    cbn [nSampleFrameAmplitudes sumSampleFrameAmplitudes Z.ltb Z.compare].
    match goal with
    | |- Q2R ?q / _ < 0 =>
        assert (Hq : Q2R q < 0)
          by (rewrite <- RMicromega.Q2R_0; apply Qlt_Rlt; reflexivity)
    end.
    apply Rmult_lt_reg_r with (1 * 2); [lra|].
    unfold Rdiv. rewrite Rmult_assoc, Rinv_l by lra. lra. }
  split; [exact Hm|].
  apply current_dB_neg.
  - lra.
  - simpl. lra.
  - apply Rmult_lt_reg_r with (sample_peak_of paInt16); [simpl; lra|].
    unfold Rdiv. rewrite Rmult_assoc, Rinv_l by (simpl; lra). lra.
Qed.

(** C5, amended. The mean is the running sum over the count, or exactly 1
    when the count is not positive; [current_dB] is the floor -90 whenever
    the mean or the peak is zero; otherwise it is 20 log10 (mean / peak)
    when that ratio is positive, and it raises [ValueError] when the ratio
    is negative. *)
Theorem current_dB_spec (peak : R) (a : amplitude) :
  ((nSampleFrameAmplitudes a <= 0)%Z -> current_mean_amplitude a = 1) /\
  ((0 < nSampleFrameAmplitudes a)%Z ->
   current_mean_amplitude a
   = sumSampleFrameAmplitudes a / IZR (nSampleFrameAmplitudes a)) /\
  (current_mean_amplitude a = 0 \/ peak = 0 ->
   current_dB (Some peak) a = Ret (-90)) /\
  (current_mean_amplitude a <> 0 -> peak <> 0 ->
   0 < current_mean_amplitude a / peak ->
   current_dB (Some peak) a
   = Ret (20 * log10 (current_mean_amplitude a / peak))) /\
  (current_mean_amplitude a <> 0 -> peak <> 0 ->
   current_mean_amplitude a / peak < 0 ->
   current_dB (Some peak) a = Raise ValueError).
Proof.
  split; [|split; [|split; [|split]]].
  - intros Hn. unfold current_mean_amplitude.
    destruct (Z.ltb_spec 0 (nSampleFrameAmplitudes a)); [lia | reflexivity].
  - intros Hn. unfold current_mean_amplitude.
    destruct (Z.ltb_spec 0 (nSampleFrameAmplitudes a)); [|lia].
    now rewrite Rmult_1_l.
  - apply current_dB_floor.
  - intros Hm Hp Hr. unfold current_dB.
    destruct (Req_dec_T (current_mean_amplitude a) 0) as [E|_]; [contradiction|].
    destruct (Req_dec_T peak 0) as [E|_]; [contradiction|].
    unfold math_log10.
    destruct (Rle_lt_dec (current_mean_amplitude a / peak) 0) as [Hle|_];
      [lra | reflexivity].
  - apply current_dB_neg.
Qed.

Lemma current_dB_spec_witness :
  let a := mkAmplitude [100] 1 100 in
  let b := mkAmplitude [0; 0] 2 (-1) in
  current_mean_amplitude a = 100 / 1 /\
  current_dB (Some 32767) a
  = Ret (20 * log10 (current_mean_amplitude a / 32767)) /\
  current_dB (Some 32767) b = Raise ValueError.
Proof.
  intros a b.
  destruct (current_dB_spec 32767 a) as (_ & Hmean & _ & Hdb & _).
  destruct (current_dB_spec 32767 b) as (_ & Hmeanb & _ & _ & Hraise).
  assert (Hm : current_mean_amplitude a = 100 / 1) by (apply Hmean; simpl; lia).
  assert (Hb : current_mean_amplitude b = -1 / 2)
    by (rewrite Hmeanb by (simpl; lia); reflexivity).
  split; [exact Hm|]. split.
  - apply Hdb; rewrite ?Hm; lra.
  - apply Hraise; rewrite ?Hb; lra.
Defined.

(** C6, as stated, fails: a window holding one silent frame sits on the
    floor of -90 dB, while a window holding one frame of mean amplitude
    1/1024 (a single count in a 1024-sample frame), whose mean is larger,
    reads below -100 dB against the 16-bit peak. *)
Lemma current_dB_floor_above_small_mean :
  exists a b da db,
    push_all 1 [0] reset_stream_amplitude = (Ret tt, a) /\
    push_all 1 [/ 1024] reset_stream_amplitude = (Ret tt, b) /\
    current_mean_amplitude a <= current_mean_amplitude b /\
    current_dB (Some (sample_peak_of paInt16)) a = Ret da /\
    current_dB (Some (sample_peak_of paInt16)) b = Ret db /\
    db < da.
Proof.
  exists (mkAmplitude [0] 1 (0 + 0)), (mkAmplitude [/ 1024] 1 (0 + / 1024)).
  exists (-90), (20 * log10 ((0 + / 1024) / (1 * 1) / (2 ^ 15 - 1))).
  split; [reflexivity|]. split; [reflexivity|].
  assert (Ha : current_mean_amplitude (mkAmplitude [0] 1 (0 + 0))
               = (0 + 0) / (1 * 1))
    by reflexivity.
  assert (Hb : current_mean_amplitude (mkAmplitude [/ 1024] 1 (0 + / 1024))
               = (0 + / 1024) / (1 * 1))
    by reflexivity.
  split; [rewrite Ha, Hb; lra|].
  split.
  - apply current_dB_floor. left. rewrite Ha. lra.
  - split.
    + rewrite <- Hb. apply current_dB_pos; [simpl; lra | rewrite Hb; lra].
    + assert (H : log10 ((0 + / 1024) / (1 * 1) / (2 ^ 15 - 1)) < - INR 5).
      { apply log10_lt_neg.
        - apply Rdiv_lt_0_compat; lra.
        - lra. }
      simpl INR in H. lra.
Qed.

(** C6, amended. For a fixed positive peak, [current_dB] is non-decreasing
    over trackers whose mean amplitude is strictly positive (the empty
    window, of mean 1, included); a zero mean reads the floor of -90 dB. *)
Theorem current_dB_monotone_positive (peak : R) (a b : amplitude) :
  0 < peak ->
  0 <= current_mean_amplitude a ->
  current_mean_amplitude a <= current_mean_amplitude b ->
  (current_mean_amplitude a = 0 -> current_dB (Some peak) a = Ret (-90)) /\
  (0 < current_mean_amplitude a ->
   exists da db,
     current_dB (Some peak) a = Ret da /\
     current_dB (Some peak) b = Ret db /\
     da <= db).
Proof.
  intros Hp Ha Hab. split.
  - intros Hz. apply current_dB_floor. now left.
  - intros Hpos. do 2 eexists.
    split; [apply current_dB_pos; assumption|].
    split; [apply current_dB_pos; [assumption | lra]|].
    apply Rmult_le_compat_l; [lra|].
    apply log10_le; [apply Rdiv_lt_0_compat; assumption|].
    unfold Rdiv. apply Rmult_le_compat_r; [|exact Hab].
    left. now apply Rinv_0_lt_compat.
Qed.

Lemma current_dB_monotone_positive_witness :
  let a := mkAmplitude [100] 1 100 in
  let b := mkAmplitude [200] 1 200 in
  exists da db,
    current_dB (Some 32767) a = Ret da /\
    current_dB (Some 32767) b = Ret db /\
    da <= db.
Proof.
  intros a b.
  assert (Ha : current_mean_amplitude a = 100 / (1 * 1)) by reflexivity.
  assert (Hb : current_mean_amplitude b = 200 / (1 * 1)) by reflexivity.
  apply (current_dB_monotone_positive 32767 a b);
    rewrite ?Ha, ?Hb; lra.
Defined.

End DecibelLevel.

Section FilterSetup.

Context {lib : numlib}.

Lemma design_without_library (t : timing) (f : filter) :
  design_sample_filter t f = Ret (None, None) \/
  (filtType f = "Low pass" /\ 0 < filtHighF f < nyquistRate t) \/
  (filtType f = "High pass" /\ 0 < filtLowF f < nyquistRate t) \/
  (filtType f = "Band pass" /\
   0 < filtLowF f /\ filtHighF f <= nyquistRate t /\ filtLowF f < filtHighF f) \/
  (filtType f = "Band stop" /\
   0 <= filtLowF f /\ filtHighF f <= nyquistRate t /\ filtLowF f < filtHighF f).
Proof.
  unfold design_sample_filter.
  destruct (String.eqb_spec (filtType f) "") as [E|_]; simpl; [now left|].
  destruct (String.eqb_spec (filtType f) "Low pass") as [E|_].
  { destruct (Z.ltb_spec 0 (filtHighF f)); simpl; [|now left].
    destruct (Z.ltb_spec (filtHighF f) (nyquistRate t)); [|now left].
    right; left. split; [assumption | lia]. }
  destruct (String.eqb_spec (filtType f) "High pass") as [E|_].
  { destruct (Z.ltb_spec 0 (filtLowF f)); simpl; [|now left].
    destruct (Z.ltb_spec (filtLowF f) (nyquistRate t)); [|now left].
    right; right; left. split; [assumption | lia]. }
  destruct (String.eqb_spec (filtType f) "Band pass") as [E|_].
  { destruct (Z.ltb_spec 0 (filtLowF f)); simpl; [|now left].
    destruct (Z.leb_spec (filtHighF f) (nyquistRate t)); simpl; [|now left].
    destruct (Z.ltb_spec (filtLowF f) (filtHighF f)); [|now left].
    right; right; right; left. repeat split; assumption. }
  destruct (String.eqb_spec (filtType f) "Band stop") as [E|_].
  { destruct (Z.leb_spec 0 (filtLowF f)); simpl; [|now left].
    destruct (Z.leb_spec (filtHighF f) (nyquistRate t)); simpl; [|now left].
    destruct (Z.ltb_spec (filtLowF f) (filtHighF f)); [|now left].
    right; right; right; right. repeat split; assumption. }
  now left.
Qed.

(** C7. A filter configuration that violates what its family needs of the
    cut-offs (low-pass: 0 < high < Nyquist; high-pass: 0 < low < Nyquist;
    band-pass and band-stop: 0 <= low < high <= Nyquist) makes
    [__create_sample_filter] return without raising and leaves both
    coefficient vectors absent; so a filter is in place only when the
    cut-offs are acceptable. *)
Theorem filter_violation_disables (t : timing) (f : filter) :
  ~ cutoffs_acceptable t f ->
  exists f',
    create_sample_filter t f = (Ret tt, f') /\ passthrough f'.
Proof.
  intros Hbad. unfold create_sample_filter.
  destruct (design_without_library t f)
    as [E | [[E H] | [[E H] | [[E H] | [E H]]]]].
  - rewrite E. eexists; split; [reflexivity|]. split; reflexivity.
  - exfalso. apply Hbad. unfold cutoffs_acceptable. rewrite E.
    split; [intros _; lia|].
    split; [intros D; discriminate | intros [D|D]; discriminate].
  - exfalso. apply Hbad. unfold cutoffs_acceptable. rewrite E.
    split; [intros D; discriminate|].
    split; [intros _; lia | intros [D|D]; discriminate].
  - exfalso. apply Hbad. unfold cutoffs_acceptable. rewrite E.
    split; [intros D; discriminate|].
    split; [intros D; discriminate | intros _; lia].
  - exfalso. apply Hbad. unfold cutoffs_acceptable. rewrite E.
    split; [intros D; discriminate|].
    split; [intros D; discriminate | intros _; lia].
Qed.

(** The band-pass test of the code is stricter than the wording: a low
    cut-off of zero is turned down as well. *)
Lemma band_pass_zero_low_disabled (t : timing) (f : filter) :
  filtType f = "Band pass" -> filtLowF f = 0 ->
  design_sample_filter t f = Ret (None, None).
Proof.
  intros E H0. unfold design_sample_filter. rewrite E, H0. reflexivity.
Qed.

End FilterSetup.

Lemma filter_violation_disables_witness :
  let t := mkTiming 44100 22050 (1 # 4) 1 in
  let f := @mkFilter unstable_lib "Low pass" 1 30000 3 None None in
  ~ cutoffs_acceptable t f /\
  exists f',
    create_sample_filter t f = (Ret tt, f') /\ passthrough f'.
Proof.
  intros t f.
  assert (Hbad : ~ cutoffs_acceptable t f).
  { intros (H & _). specialize (H eq_refl). simpl in H. lia. }
  split; [exact Hbad|].
  exact (filter_violation_disables t f Hbad).
Defined.

Section SampleRate.

Context {lib : numlib}.

Lemma py_int_half (r : Z) : py_int (inject_Z r / 2) = Z.quot r 2.
Proof. unfold py_int; simpl. now rewrite Z.mul_1_r. Qed.

Lemma set_sample_window_keeps_rate (f : format) (w : Q) (t : timing) :
  RATE (snd (set_sample_window f w t)) = RATE t /\
  nyquistRate (snd (set_sample_window f w t)) = nyquistRate t.
Proof.
  unfold set_sample_window; simpl.
  destruct (mean_sample_frames_in_duration f (RATE t) w) as [m|e]; simpl;
    [|split; reflexivity].
  destruct (m <? 1); simpl; [split; reflexivity|].
  destruct (mean_sample_frames_in_duration f (RATE t) 1) as [m1|e]; simpl;
    [|split; reflexivity].
  destruct (m1 <? m); simpl; split; reflexivity.
Qed.

(** The timing record [set_sample_rate] leaves behind when the device is
    closed. *)
Lemma set_sample_rate_closed_timing (newRate : Z) (st : thread) :
  audio_open (dev st) = false ->
  tim (snd (set_sample_rate newRate st))
  = if RATE (tim st) =? newRate then tim st
    else snd (set_sample_window (fmt st) (sampleWindow (tim st))
                (mkTiming newRate (py_int (inject_Z newRate / 2))
                   (sampleWindow (tim st)) (meanSampleFrames (tim st)))).
Proof.
  intros Hc. unfold set_sample_rate. rewrite Hc; simpl.
  destruct (RATE (tim st) =? newRate); simpl.
  - destruct (create_window_function (RATE (tim st)) (frm st)); reflexivity.
  - destruct (set_sample_window _ _ _) as [[u|e] t']; simpl; [|reflexivity].
    destruct (create_window_function (RATE t') (frm st)); reflexivity.
Qed.

(** C8, amended. While the device is open, [set_sample_rate] changes
    nothing; while it is closed, the rate becomes the new rate and the
    cached Nyquist frequency becomes int(rate / 2), half the rate truncated
    to an integer, whether or not the recomputation of the amplitude window
    or of the window kernel raises afterwards. The cache is recomputed only
    when the rate differs, and is current otherwise. *)
Theorem set_sample_rate_open_closed (newRate : Z) (st : thread) :
  nyquistRate (tim st) = Z.quot (RATE (tim st)) 2 ->
  (audio_open (dev st) = true ->
   set_sample_rate newRate st = (Ret tt, st)) /\
  (audio_open (dev st) = false ->
   RATE (tim (snd (set_sample_rate newRate st))) = newRate /\
   nyquistRate (tim (snd (set_sample_rate newRate st))) = Z.quot newRate 2).
Proof.
  intros Hinv. split; intros Ho.
  - unfold set_sample_rate. rewrite Ho. reflexivity.
  - rewrite (set_sample_rate_closed_timing _ _ Ho).
    destruct (Z.eqb_spec (RATE (tim st)) newRate) as [E|_].
    + subst newRate. split; [reflexivity | exact Hinv].
    + destruct (set_sample_window_keeps_rate (fmt st) (sampleWindow (tim st))
                  (mkTiming newRate (py_int (inject_Z newRate / 2))
                     (sampleWindow (tim st)) (meanSampleFrames (tim st))))
        as [Hr Hn].
      rewrite Hr, Hn; simpl. split; [reflexivity | apply py_int_half].
Qed.

End SampleRate.

(** C8, as stated, fails at an odd rate: with the device closed, a rate of
    11025 Hz leaves 5512 in the cache, which is not half the rate. *)
Lemma nyquist_cache_truncated :
  audio_open (dev (@new_thread unstable_lib)) = false /\
  RATE (tim (snd (set_sample_rate 11025 (@new_thread unstable_lib)))) = 11025 /\
  nyquistRate (tim (snd (set_sample_rate 11025 (@new_thread unstable_lib))))
  = 5512 /\
  ~ (inject_Z 5512 == inject_Z 11025 / 2)%Q.
Proof.
  split; [reflexivity|]. split; [reflexivity|]. split; [reflexivity|].
  intros H. apply Qeq_bool_iff in H. discriminate H.
Qed.

Lemma set_sample_rate_open_closed_witness :
  set_sample_rate 48000 open_thread = (Ret tt, open_thread) /\
  RATE (tim (snd (set_sample_rate 48000 (@new_thread unstable_lib)))) = 48000 /\
  nyquistRate (tim (snd (set_sample_rate 48000 (@new_thread unstable_lib))))
  = 24000.
Proof.
  split.
  - apply (set_sample_rate_open_closed 48000 open_thread); reflexivity.
  - apply (set_sample_rate_open_closed 48000 (@new_thread unstable_lib));
      reflexivity.
Defined.

Section Overlap.

Context {lib : numlib}.

(** The binary64 value nearest to 0.66 is 0x1.51eb851eb851fp-1. Its product
    with 88200 is 58212, as the exact product is; its product with 1024
    lies strictly between 675 and 676, as the exact 675.84 does. *)
Lemma overlap_product_binary64 :
  PrimFloat.eqb (0x1.51eb851eb851fp-1 * 88200) 58212 = true /\
  PrimFloat.ltb 675 (0x1.51eb851eb851fp-1 * 1024) = true /\
  PrimFloat.ltb (0x1.51eb851eb851fp-1 * 1024) 676 = true.
Proof. repeat split. Qed.




End Overlap.



Section StartOfCapture.

Context {lib : numlib}.

(** C9, amended. When [__start_audio] returns with the device open from a
    thread whose device was not open, so that the capture loop is entered,
    the amplitude window is empty (no entries, zero count, zero sum), and the
    sample stream holds [fftMinimumSampleFrame] frames of zero-valued
    samples, with the sample count saying so. *)
Theorem start_audio_resets (env : capture_env) (st st' : thread) :
  audio_open (dev st) = false ->
  start_audio env st = (Ret tt, st') ->
  audio_open (dev st') = true ->
  sampleFrameAmplitudes (amp st') = [] /\
  nSampleFrameAmplitudes (amp st') = 0 /\
  sumSampleFrameAmplitudes (amp st') = 0%R /\
  nSampleStream (buf (pipeline st'))
  = fftMinimumSampleFrame (buf (pipeline st)) * fft_frame_size (RATE (tim st)) /\
  sampleStream (buf (pipeline st'))
  = Some (repeat 0%float (Z.to_nat (nSampleStream (buf (pipeline st'))))).
Proof.
  intros Hclosed Hstart Hopen. unfold start_audio in Hstart.
  destruct (audioDev (dev st)) as [d|] eqn:Hd.
  { inversion Hstart; subst st'. congruence. }
  destruct (pyaudio_new env) as [pa|e]; [|discriminate].
  destruct (pyaudio_open env) as [str|e]; [|discriminate].
  unfold preset_fft_state, np_zeros in Hstart.
  destruct (_ <? 0); inversion Hstart; subst st'; simpl.
  repeat split.
Qed.

End StartOfCapture.

(** C9, as stated, fails: the first start of a thread with the default
    44100 Hz rate enters the capture loop with 176400 samples of silence in
    the stream, not with an empty one. *)
Lemma start_prefills_stream :
  exists st',
    start_audio device_answers (@new_thread unstable_lib) = (Ret tt, st') /\
    audio_open (dev st') = true /\
    nSampleStream (buf (pipeline st')) = 176400 /\
    sampleStream (buf (pipeline st'))
    = Some (repeat 0%float (Z.to_nat 176400)) /\
    sampleStream (buf (pipeline st')) <> Some [].
Proof.
  eexists. split; [reflexivity|]. split; [reflexivity|].
  split; [reflexivity|]. split; [reflexivity|].
  change (Z.to_nat 176400) with (S (Z.to_nat 176399)). discriminate.
Qed.

Lemma start_audio_resets_witness :
  exists st',
    start_audio device_answers (@new_thread unstable_lib) = (Ret tt, st') /\
    sampleFrameAmplitudes (amp st') = [] /\
    nSampleStream (buf (pipeline st')) = 2 * 88200.
Proof.
  eexists. split; [reflexivity|].
  destruct (start_audio_resets device_answers (@new_thread unstable_lib) _
              eq_refl eq_refl eq_refl) as (H1 & _ & _ & H4 & _).
  split; [exact H1 | exact H4].
Defined.

Section Pipeline.

Context {lib : numlib}.

(** *** Frame size, overlap and slices *)

Lemma fft_frame_size_double (rate : Z) : fft_frame_size rate = 2 * rate.
Proof.
  unfold fft_frame_size, py_int, tFFTUnit; simpl.
  now rewrite Z.quot_1_r.
Qed.

Lemma overlap_length_bounds (w : option ndarray) (F : Z) :
  0 < F -> 0 <= overlap_length w F < F.
Proof.
  intros HF. destruct w as [k|]; [|simpl; lia].
  unfold overlap_length, py_int, windowOverlapRatio, Qmult, inject_Z.
  cbn [Qnum Qden]. change (Z.pos (100 * 1)) with 100.
  rewrite Z.quot_div_nonneg by lia.
  split.
  - apply Z.div_pos; lia.
  - apply Z.div_lt_upper_bound; lia.
Qed.

Lemma slice_index_inside (n i : Z) : 0 <= i <= n -> slice_index n i = i.
Proof.
  intros H. unfold slice_index.
  destruct (Z.ltb_spec i 0); lia.
Qed.

Lemma slice_index_range (n i : Z) : 0 <= n -> 0 <= slice_index n i <= n.
Proof.
  intros H. unfold slice_index.
  destruct (Z.ltb_spec i 0); lia.
Qed.

Lemma py_slice_length {A : Type} (a : list A) (start stop : Z) :
  length (py_slice a start stop)
  = Z.to_nat (slice_index (Z.of_nat (length a)) stop
              - slice_index (Z.of_nat (length a)) start).
Proof.
  unfold py_slice.
  pose proof (slice_index_range (Z.of_nat (length a)) start) as H1.
  pose proof (slice_index_range (Z.of_nat (length a)) stop) as H2.
  rewrite length_firstn, length_skipn. lia.
Qed.

Lemma py_slice_store_length {A : Type} (a : list A) (start stop : Z)
    (new : list A) :
  length new = length (py_slice a start stop) ->
  length (py_slice_store a start stop new) = length a.
Proof.
  intros Hn. rewrite py_slice_length in Hn. unfold py_slice_store.
  pose proof (slice_index_range (Z.of_nat (length a)) start) as H1.
  pose proof (slice_index_range (Z.of_nat (length a)) stop) as H2.
  rewrite !length_app, length_firstn, length_skipn, Hn. lia.
Qed.

Lemma py_slice_tail {A : Type} (a : list A) (k : Z) :
  0 <= k <= Z.of_nat (length a) ->
  py_slice a k (Z.of_nat (length a)) = skipn (Z.to_nat k) a.
Proof.
  intros Hk. unfold py_slice.
  rewrite !slice_index_inside by lia.
  apply firstn_all2. rewrite length_skipn. lia.
Qed.

Lemma zip_with_length (f : float -> float -> float) (x y : ndarray) :
  length y = length x -> length (zip_with f x y) = length x.
Proof.
  revert y. induction x as [|a x IH]; intros [|b y] H; simpl in *;
    try reflexivity; try discriminate.
  f_equal. apply IH. now injection H.
Qed.

Lemma np_inplace_length (f : float -> float -> float) (x y r : ndarray) :
  np_inplace f x y = Ret r -> length r = length x.
Proof.
  unfold np_inplace. destruct (Nat.eqb_spec (length y) (length x)) as [E|_].
  - intros H; inversion H; subst. now apply zip_with_length.
  - destruct y as [|b [|c y]]; intros H; inversion H; subst.
    apply length_map.
Qed.

(** *** Steps of a frame that leave the cursor and the stream length alone *)

Lemma tame_refl (s : fft) : tame s s.
Proof.
  unfold tame. repeat split; auto. exists []. split; reflexivity.
Qed.

Lemma tame_trans (s1 s2 s3 : fft) : tame s1 s2 -> tame s2 s3 -> tame s1 s3.
Proof.
  intros (A1 & A2 & A3 & A4 & A5 & n1 & A6 & A7)
         (B1 & B2 & B3 & B4 & B5 & n2 & B6 & B7).
  unfold tame. repeat split; try congruence; auto.
  exists (n2 ++ n1). split.
  - rewrite B6, A6. apply app_assoc.
  - rewrite existsb_app, A7, B7. reflexivity.
Qed.

Lemma tame_bind {A B : Type} (m : M fft A) (k : A -> M fft B) :
  tame_step m -> (forall a, tame_step (k a)) -> tame_step (bind m k).
Proof.
  intros Hm Hk s. unfold bind. specialize (Hm s).
  destruct (m s) as [[a|e] s1]; simpl in *; [|exact Hm].
  eapply tame_trans; [exact Hm | apply Hk].
Qed.

Lemma tame_log (e : event) (s : fft) : is_frame e = false -> tame s (log_event e s).
Proof.
  intros He. unfold tame; simpl. repeat split; auto.
  exists [e]. split; [reflexivity|]. simpl. now rewrite He.
Qed.

Ltac tame_same :=
  first [ apply tame_refl
        | unfold tame, stream_length; simpl;
          repeat split; auto; exists []; split; reflexivity ].

Ltac tame_cases :=
  repeat match goal with
         | |- context [match ?x with _ => _ end] => destruct x eqn:?
         end;
  simpl; try tame_same.

Lemma tame_apply_any_window_function (w : option ndarray) :
  tame_step (apply_any_window_function w).
Proof.
  intros s. unfold apply_any_window_function.
  destruct w as [k|]; [|tame_same].
  destruct (frameSamples (wrk s)) as [[start stop]|]; [|tame_same].
  destruct (sampleStream (buf s)) as [x|] eqn:Hx; [|tame_same].
  destruct (np_inplace PrimFloat.mul (py_slice x start stop) k) as [y|e] eqn:Hy;
    [|tame_same].
  unfold tame, stream_length; simpl. rewrite Hx; simpl.
  repeat split; auto.
  - f_equal. apply py_slice_store_length.
    eapply np_inplace_length; exact Hy.
  - exists []. split; reflexivity.
Qed.

Lemma tame_verify_filtered_data : tame_step verify_filtered_data.
Proof.
  intros s. unfold verify_filtered_data. tame_cases.
  now apply tame_log.
Qed.

Lemma tame_apply_any_filter_try (a b : option coeffs) :
  tame_step (apply_any_filter_try a b).
Proof.
  intros s. unfold apply_any_filter_try.
  destruct (frame_contents s) as [x|e]; [|tame_same].
  destruct a as [fa|]; [|tame_same].
  destruct b as [fb|].
  - destruct (filtfilt fa fb x) as [y|e]; [|tame_same].
    eapply tame_trans; [|apply tame_verify_filtered_data]. tame_same.
  - destruct (sosfilt fa x) as [y|e]; [|tame_same].
    eapply tame_trans; [|apply tame_verify_filtered_data]. tame_same.
Qed.

Lemma tame_apply_any_filter (a b : option coeffs) :
  tame_step (apply_any_filter a b).
Proof.
  intros s. unfold apply_any_filter.
  pose proof (tame_apply_any_filter_try a b s) as H.
  destruct (apply_any_filter_try a b s) as [[u|e] s1]; simpl in *; [exact H|].
  eapply tame_trans; [exact H|].
  apply (tame_bind verify_filtered_data (fun _ => raise e)).
  - apply tame_verify_filtered_data.
  - intros _ s2. tame_same.
Qed.

Lemma tame_transform_frame : tame_step transform_frame.
Proof.
  intros s. unfold transform_frame.
  destruct (filteredSamples (wrk s)) as [x|]; [|tame_same].
  destruct (rfft x) as [sp|e]; [|tame_same].
  simpl. eapply tame_trans; [|apply tame_log; reflexivity]. tame_same.
Qed.

Lemma tame_create_bin_frequency_data_for_FFT (rate n : Z) :
  tame_step (create_bin_frequency_data_for_FFT rate n).
Proof.
  intros s. unfold create_bin_frequency_data_for_FFT.
  destruct (_ || _); [|tame_same].
  destruct (rate =? 0); [tame_same|].
  destruct (rfftfreq n rate) as [x|e]; [|tame_same].
  unfold tame; simpl. repeat split; auto.
  - intros _ H; discriminate.
  - exists []. split; reflexivity.
Qed.

Lemma tame_magnitude (sp : spectrum) : tame_step (magnitude sp).
Proof. intros s. unfold magnitude. tame_cases. Qed.

Lemma tame_sum_spectrum (m : ndarray) : tame_step (sum_spectrum m).
Proof. intros s. unfold sum_spectrum. tame_cases. Qed.

Lemma after_bind_tame (s0 : fft) {A B : Type} (m : M fft A) (k : A -> M fft B)
    (Q : outcome B -> fft -> Prop) :
  tame_step m ->
  (forall a, after s0 (k a) Q) ->
  (forall e s, tame s0 s -> Q (Raise e) s) ->
  after s0 (bind m k) Q.
Proof.
  intros Hm Hk He s Hs. unfold bind. specialize (Hm s).
  assert (H1 : tame s0 (snd (m s))) by (eapply tame_trans; eassumption).
  destruct (m s) as [[a|e] s1]; simpl in *.
  - apply Hk; assumption.
  - apply He; assumption.
Qed.

Lemma frame_work_post (s0 : fft) (rate : Z) (w : option ndarray)
    (a b : option coeffs) (start len overlap : Z) :
  after s0
    (apply_any_window_function w ;;;
     apply_any_filter a b ;;;
     tmpFFT <- transform_frame ;;
     create_bin_frequency_data_for_FFT rate (Z.quot len 2 + 1) ;;;
     mag <- magnitude tmpFFT ;;
     sum_spectrum mag ;;;
     get_next_frame_limits start len overlap)%py
    (turn_post s0 start len overlap).
Proof.
  apply after_bind_tame;
    [apply tame_apply_any_window_function | intros _ | intros e s H; exact H].
  apply after_bind_tame;
    [apply tame_apply_any_filter | intros _ | intros e s H; exact H].
  apply after_bind_tame;
    [apply tame_transform_frame | intros sp | intros e s H; exact H].
  apply after_bind_tame;
    [apply tame_create_bin_frequency_data_for_FFT | intros _
    | intros e s H; exact H].
  apply after_bind_tame;
    [apply tame_magnitude | intros m | intros e s H; exact H].
  apply after_bind_tame;
    [apply tame_sum_spectrum | intros _ | intros e s H; exact H].
  intros s Hs. unfold get_next_frame_limits, turn_post; simpl.
  repeat split. exists s. split; [exact Hs | reflexivity].
Qed.

Lemma no_frame_in (new : list event) (a b n : Z) :
  existsb is_frame new = false -> ~ In (FrameTaken a b n) new.
Proof.
  intros H Hin.
  assert (E : existsb is_frame new = true)
    by (apply existsb_exists; eexists; split; [exact Hin | reflexivity]).
  congruence.
Qed.

Lemma process_frame_effect (rate : Z) (w : option ndarray) (a b : option coeffs)
    (start stop len overlap : Z) (s s' : fft) (o : outcome (Z * Z)) :
  process_frame rate w a b start stop len overlap s = (o, s') ->
  turned start stop s s' /\
  match o with
  | Ret (start', end') =>
      start' = start + (len - overlap) /\ end' = start' + len /\
      fftActiveStart (buf s') = start'
  | Raise _ => fftActiveStart (buf s') = fftActiveStart (buf s)
  end.
Proof.
  unfold process_frame. unfold bind at 1. unfold take_frame at 1.
  destruct (sampleStream (buf s)) as [x|] eqn:Hx.
  2:{ intros H; inversion H; subst. split; [|reflexivity].
      unfold turned. repeat split; auto. exists []. split; [reflexivity|].
      intros ? ? ? []. }
  set (s0 := log_event _ _).
  intros H.
  pose proof (frame_work_post s0 rate w a b start len overlap s0 (tame_refl s0))
    as Hpost.
  rewrite H in Hpost; simpl in Hpost.
  assert (Hturn : forall s1, tame s0 s1 -> turned start stop s s1 /\
                    fftActiveStart (buf s1) = fftActiveStart (buf s)).
  { intros s1 (T1 & T2 & T3 & T4 & T5 & new & T6 & T7). split; [|exact T3].
    unfold turned. repeat split; auto.
    exists (new ++ [FrameTaken start stop (Z.of_nat (length x))]). split.
    - rewrite T6. unfold s0; simpl. now rewrite <- app_assoc.
    - intros a' b' n' Hin. apply in_app_or in Hin. destruct Hin as [Hin|Hin].
      + exfalso. eapply no_frame_in; eassumption.
      + destruct Hin as [E|[]]. inversion E; subst.
        repeat split. exists x. split; [exact Hx | reflexivity]. }
  destruct o as [[start' end']|e].
  - destruct Hpost as (E1 & E2 & s1 & Ht & E3).
    destruct (Hturn s1 Ht) as [(U1 & U2 & U3 & U4 & U5) _]. subst s'.
    split; [|auto].
    unfold turned, stream_length in *; simpl. repeat split; auto.
  - destruct (Hturn s' Hpost) as [U V]. split; assumption.
Qed.

(** *** The loop of [__do_FFT] *)

Lemma transform_frames_invariant (rate : Z) (w : option ndarray)
    (a b : option coeffs) (len overlap limit : Z)
    (I : Z -> Z -> fft -> Prop) (Post : fft -> Prop) :
  (forall start stop s, I start stop s -> Post s) ->
  (forall start stop s o s',
     I start stop s -> stop < limit ->
     process_frame rate w a b start stop len overlap s = (o, s') ->
     match o with
     | Ret (start', stop') => I start' stop' s'
     | Raise _ => Post s'
     end) ->
  forall fuel start stop s s',
    I start stop s ->
    transform_frames fuel rate w a b start stop len overlap limit s = Some s' ->
    Post s'.
Proof.
  intros Hpost Hstep fuel.
  induction fuel as [|fuel IH]; intros start stop s s' HI; simpl;
    destruct (Z.ltb_spec stop limit) as [Hlt|Hge];
    try discriminate;
    try (intros H; inversion H; subst; eapply Hpost; eassumption).
  destruct (process_frame rate w a b start stop len overlap s)
    as [[[start' stop']|e] s1] eqn:E; intros H.
  - eapply IH; [|exact H]. exact (Hstep _ _ _ _ _ HI Hlt E).
  - inversion H; subst. exact (Hstep _ _ _ _ _ HI Hlt E).
Qed.

(** The loop returns once the fuel exceeds the distance to the limit,
    provided every turn moves the frame forward. *)
Lemma transform_frames_returns (rate : Z) (w : option ndarray)
    (a b : option coeffs) (len overlap limit : Z) :
  0 < len - overlap ->
  forall fuel start s,
    limit - (start + len) < Z.of_nat fuel ->
    exists s',
      transform_frames fuel rate w a b start (start + len) len overlap limit s
      = Some s'.
Proof.
  intros Hstep fuel.
  induction fuel as [|fuel IH]; intros start s Hfuel; simpl;
    destruct (Z.ltb_spec (start + len) limit) as [Hlt|Hge];
    try lia; try (eexists; reflexivity).
  destruct (process_frame rate w a b start (start + len) len overlap s)
    as [[[start' stop']|e] s1] eqn:E; [|eexists; reflexivity].
  destruct (process_frame_effect _ _ _ _ _ _ _ _ _ _ _ E) as [_ (E1 & E2 & _)].
  subst stop'. apply IH. lia.
Qed.

(** *** The stream invariant *)

Lemma transform_frames_safe (rate : Z) (w : option ndarray)
    (a b : option coeffs) (len overlap limit : Z) (fuel : nat)
    (start : Z) (s s' : fft) :
  0 <= overlap <= len ->
  stream_ok s -> 0 <= start -> limit <= nSampleStream (buf s) ->
  transform_frames fuel rate w a b start (start + len) len overlap limit s
  = Some s' ->
  stream_ok s'.
Proof.
  intros Ho Hok Hs Hlim.
  apply (transform_frames_invariant rate w a b len overlap limit
           (fun start stop s1 =>
              stream_ok s1 /\ 0 <= start /\ stop = start + len /\
              nSampleStream (buf s1) = nSampleStream (buf s))
           stream_ok).
  - intros ? ? ? (H & _); exact H.
  - intros start1 stop1 s1 o s2
      [[[[x [Hx Hn]] [Hact Hmin]] Hfr] [Hs1 [Hstop Hsame]]] Hlt E.
    destruct (process_frame_effect _ _ _ _ _ _ _ _ _ _ _ E)
      as [(T1 & T2 & T3 & _ & new & T4 & T5) Hcur].
    assert (Hbuf : exists x', sampleStream (buf s2) = Some x' /\
                              nSampleStream (buf s2) = Z.of_nat (length x')).
    { unfold stream_length in T3. rewrite Hx in T3.
      destruct (sampleStream (buf s2)) as [x'|]; [|discriminate].
      exists x'. split; [reflexivity|]. simpl in T3. injection T3 as T3.
      rewrite T1, Hn, T3. reflexivity. }
    assert (Hfr2 : frames_ok (events s2)).
    { intros f1 f2 n Hin. rewrite T4 in Hin. apply in_app_or in Hin.
      destruct Hin as [Hin|Hin]; [|eapply Hfr; exact Hin].
      destruct (T5 _ _ _ Hin) as (-> & -> & x0 & Hx0 & ->).
      rewrite Hx in Hx0. injection Hx0 as <-. lia. }
    destruct o as [[start' stop']|e].
    + destruct Hcur as (-> & -> & Hcur).
      split; [|lia]. split; [|exact Hfr2]. split; [exact Hbuf | lia].
    + split; [|exact Hfr2]. split; [exact Hbuf | lia].
  - split; [exact Hok | lia].
Qed.

(** *** Compaction, processing, appending, draining *)

Lemma drop_redundant_samples_effect (rate : Z) (b b' : sample_buffer)
    (o : outcome unit) :
  0 < rate -> buffer_ok b ->
  drop_redundant_samples rate b = (o, b') ->
  o = Ret tt /\ buffer_ok b' /\
  exists removed x,
    (removed = 0 \/
     removed = fftActiveStart b - fftMinimumSampleFrame b * fft_frame_size rate) /\
    0 <= removed /\
    nSampleStream b' = nSampleStream b - removed /\
    fftActiveStart b' = fftActiveStart b - removed /\
    sampleStream b = Some x /\
    sampleStream b' = Some (skipn (Z.to_nat removed) x).
Proof.
  intros Hrate [[x [Hx Hn]] [Hact Hmin]]. unfold drop_redundant_samples.
  rewrite fft_frame_size_double.
  assert (HF : 0 < 2 * rate) by lia.
  set (F := 2 * rate) in *. clearbody F.
  assert (Hkeep : o = Ret tt /\ b' = b ->
                  o = Ret tt /\ buffer_ok b' /\
                  exists removed x0,
                    (removed = 0 \/
                     removed = fftActiveStart b - fftMinimumSampleFrame b * F) /\
                    0 <= removed /\
                    nSampleStream b' = nSampleStream b - removed /\
                    fftActiveStart b' = fftActiveStart b - removed /\
                    sampleStream b = Some x0 /\
                    sampleStream b' = Some (skipn (Z.to_nat removed) x0)).
  { intros [-> ->]. split; [reflexivity|]. split.
    - split; [exists x; auto | auto].
    - exists 0, x. repeat split; auto; lia. }
  destruct (Z.ltb_spec (fftMinimumSampleFrame b * F) (fftActiveStart b))
    as [Hlt|Hge];
    [|intros H; inversion H; subst; apply Hkeep; split; reflexivity].
  destruct (Z.leb_spec F (fftActiveStart b - fftMinimumSampleFrame b * F))
    as [Hle|Hgt];
    [|intros H; inversion H; subst; apply Hkeep; split; reflexivity].
  rewrite Hx. unfold int_quotient.
  destruct (Z.eqb_spec F 0) as [E|_]; [lia|].
  intros H; injection H as <- <-; clear Hkeep.
  set (removed := fftActiveStart b - fftMinimumSampleFrame b * F) in *.
  assert (Hr : 0 <= removed <= Z.of_nat (length x)) by nia.
  split; [reflexivity|]. split.
  - split; [|cbn [fftActiveStart nSampleStream fftMinimumSampleFrame]; nia].
    eexists. split; [reflexivity|]. cbn [nSampleStream].
    rewrite py_slice_tail by exact Hr. rewrite length_skipn. lia.
  - exists removed, x. cbn [fftActiveStart nSampleStream sampleStream].
    rewrite py_slice_tail by exact Hr.
    split; [now right|]. split; [lia|]. auto.
Qed.

Lemma do_FFT_safe (fuel : nat) (rate : Z) (w : option ndarray)
    (a b : option coeffs) (s s' : fft) (o : outcome unit) :
  0 < rate -> stream_ok s ->
  do_FFT fuel rate w a b s = Some (o, s') ->
  o = Ret tt /\ stream_ok s'.
Proof.
  intros Hrate Hok. unfold do_FFT, get_initial_frame_limits.
  pose proof (overlap_length_bounds w (fft_frame_size rate)) as Hov.
  rewrite fft_frame_size_double in *.
  set (overlap := overlap_length w (2 * rate)) in *.
  set (start := if fftActiveStart (buf s) - overlap <? 0 then 0
                else fftActiveStart (buf s) - overlap).
  destruct (transform_frames _ _ _ _ _ _ _ _ _ _ s) as [s1|] eqn:E;
    [|discriminate].
  assert (Hstart : 0 <= start).
  { unfold start. destruct (Z.ltb_spec (fftActiveStart (buf s) - overlap) 0); lia. }
  destruct Hok as [Hb Hf]. pose proof Hb as [_ [Hact Hmin]].
  assert (Hok1 : stream_ok s1).
  { eapply transform_frames_safe; [| |exact Hstart| |exact E].
    - lia.
    - split; assumption.
    - nia. }
  destruct (drop_redundant_samples rate (buf s1)) as [o1 b1] eqn:D.
  intros H; inversion H; subst o s'; clear H.
  destruct (drop_redundant_samples_effect _ _ _ _ Hrate (proj1 Hok1) D)
    as (-> & Hb1 & _).
  split; [reflexivity|]. split; [exact Hb1 | exact (proj2 Hok1)].
Qed.

Lemma do_FFT_returns (rate : Z) (w : option ndarray) (a b : option coeffs)
    (s : fft) :
  0 < rate ->
  exists fuel o s', do_FFT fuel rate w a b s = Some (o, s').
Proof.
  intros Hrate. unfold do_FFT, get_initial_frame_limits.
  pose proof (overlap_length_bounds w (fft_frame_size rate)) as Hov.
  rewrite fft_frame_size_double in *.
  set (overlap := overlap_length w (2 * rate)) in *.
  set (start := if fftActiveStart (buf s) - overlap <? 0 then 0
                else fftActiveStart (buf s) - overlap).
  set (limit := nSampleStream (buf s) - fftActiveStart (buf s)
                - fftMinimumSampleFrame (buf s) * (2 * rate)).
  destruct (transform_frames_returns rate w a b (2 * rate) overlap limit
              ltac:(lia) (S (Z.to_nat (limit - (start + 2 * rate)))) start s
              ltac:(lia)) as [s1 E].
  exists (S (Z.to_nat (limit - (start + 2 * rate)))).
  rewrite E.
  destruct (drop_redundant_samples rate (buf s1)) as [o1 b1].
  eauto.
Qed.

Lemma add_fft_stream_samples_safe (fuel : nat) (rate : Z) (g : framing)
    (a b : option coeffs) (newSamples : ndarray) (s s' : fft)
    (o : outcome unit) :
  0 < rate -> stream_ok s ->
  add_fft_stream_samples fuel rate g a b newSamples s = Some (o, s') ->
  o = Ret tt /\ stream_ok s'.
Proof.
  intros Hrate [[[x [Hx Hn]] [Hact Hmin]] Hf]. unfold add_fft_stream_samples.
  rewrite Hx. destruct (Z.eqb_spec rate 0) as [E|_]; [lia|].
  unfold int_quotient. rewrite fft_frame_size_double.
  destruct (Z.eqb_spec (2 * rate) 0) as [E|_]; [lia|].
  cbn [nSampleStream sampleStream fftMinimumSampleFrame fftActiveStart
       fftAciveFrame].
  match goal with
  | |- context [with_buf ?b2 s] =>
      assert (Hok2 : stream_ok (with_buf b2 s))
  end.
  { split; [|exact Hf]. split; [|simpl; lia].
    eexists. split; [reflexivity|]. simpl. rewrite length_app. lia. }
  destruct (Qlt_le_dec 0 _).
  - intros H. eapply do_FFT_safe; [exact Hrate | exact Hok2 | exact H].
  - intros H; inversion H; subst. split; [reflexivity | exact Hok2].
Qed.

Lemma fft_data_safe (fuel : nat) (rate : Z) (w : option ndarray)
    (a b : option coeffs) (s s' : fft) (o : outcome (option ndarray)) :
  0 < rate -> stream_ok s ->
  fft_data fuel rate w a b s = Some (o, s') ->
  stream_ok s'.
Proof.
  intros Hrate Hok. unfold fft_data.
  destruct (do_FFT fuel rate w a b s) as [[o1 s1]|] eqn:E; [|discriminate].
  destruct (do_FFT_safe _ _ _ _ _ _ _ _ Hrate Hok E) as [-> Hok1].
  intros H; inversion H; subst. exact Hok1.
Qed.

Lemma preset_fft_state_ok (rate : Z) (b b' : sample_buffer) (o : outcome unit) :
  0 < rate -> 1 <= fftMinimumSampleFrame b ->
  0 <= fftActiveStart b <= fftMinimumSampleFrame b * fft_frame_size rate ->
  preset_fft_state rate b = (o, b') ->
  o = Ret tt /\ buffer_ok b'.
Proof.
  intros Hrate Hmin. unfold preset_fft_state, np_zeros.
  rewrite fft_frame_size_double.
  assert (HF : 0 < 2 * rate) by lia.
  set (F := 2 * rate) in *. clearbody F. intros Hact.
  destruct (Z.ltb_spec (fftMinimumSampleFrame b * F) 0) as [Hneg|_]; [nia|].
  intros H; injection H as <- <-. split; [reflexivity|].
  split; [|cbn [fftActiveStart nSampleStream fftMinimumSampleFrame]; lia].
  eexists. split; [reflexivity|]. cbn [nSampleStream].
  rewrite repeat_length. nia.
Qed.

Lemma accumulating_stream_ok (rate : Z) (s : fft) :
  0 < rate -> accumulating rate s -> stream_ok s.
Proof.
  intros Hrate Hacc. induction Hacc as
    [b Hp | fuel g fa fb x o s s' _ IH H | fuel w fa fb o s s' _ IH H
    | fuel w fa fb o s s' _ IH H].
  - split; [|intros ? ? ? []].
    refine (proj2 (preset_fft_state_ok rate _ _ _ Hrate _ _ Hp));
      cbn [new_thread pipeline buf fftMinimumSampleFrame fftActiveStart];
      rewrite ?fft_frame_size_double; lia.
  - eapply add_fft_stream_samples_safe; eassumption.
  - eapply do_FFT_safe; eassumption.
  - eapply fft_data_safe; eassumption.
Qed.

Lemma do_FFT_by_parts (fuel : nat) (rate : Z) (w : option ndarray)
    (a b : option coeffs) (s : fft) :
  do_FFT fuel rate w a b s
  = match frames_of_do_FFT fuel rate w a b s with
    | None => None
    | Some s1 =>
        match drop_redundant_samples rate (buf s1) with
        | (o, b') => Some (o, with_buf b' s1)
        end
    end.
Proof. reflexivity. Qed.

Lemma frames_of_do_FFT_safe (fuel : nat) (rate : Z) (w : option ndarray)
    (a b : option coeffs) (s s1 : fft) :
  0 < rate -> stream_ok s ->
  frames_of_do_FFT fuel rate w a b s = Some s1 ->
  stream_ok s1.
Proof.
  intros Hrate Hok. unfold frames_of_do_FFT, get_initial_frame_limits.
  pose proof (overlap_length_bounds w (fft_frame_size rate)) as Hov.
  rewrite fft_frame_size_double in *.
  set (overlap := overlap_length w (2 * rate)) in *.
  set (start := if fftActiveStart (buf s) - overlap <? 0 then 0
                else fftActiveStart (buf s) - overlap).
  assert (Hstart : 0 <= start).
  { unfold start. destruct (Z.ltb_spec (fftActiveStart (buf s) - overlap) 0); lia. }
  destruct Hok as [Hb Hf]. pose proof Hb as [_ [Hact Hmin]].
  intros E.
  eapply transform_frames_safe; [| |exact Hstart| |exact E].
  - lia.
  - split; assumption.
  - nia.
Qed.

(** What the compaction at the end of [__do_FFT] removes, against the
    frame the next call starts with. *)
Lemma compaction_keeps_lead_in (rate : Z) (b b' : sample_buffer)
    (o : outcome unit) :
  0 < rate -> buffer_ok b ->
  drop_redundant_samples rate b = (o, b') ->
  exists removed x,
    sampleStream b = Some x /\
    0 <= removed /\
    sampleStream b' = Some (skipn (Z.to_nat removed) x) /\
    nSampleStream b' = nSampleStream b - removed /\
    fftActiveStart b' = fftActiveStart b - removed /\
    forall w,
      removed <= next_frame_start rate w b /\
      next_frame_start rate w b' = next_frame_start rate w b - removed.
Proof.
  intros Hrate Hb D.
  destruct (drop_redundant_samples_effect _ _ _ _ Hrate Hb D)
    as (_ & _ & removed & x & Hr & H0 & Hn & Hc & Hs & Hs').
  destruct Hb as [_ [Hact Hmin]].
  exists removed, x. split; [exact Hs|]. split; [exact H0|].
  split; [exact Hs'|]. split; [exact Hn|]. split; [exact Hc|].
  intros w.
  unfold next_frame_start, get_initial_frame_limits. cbn [fst].
  pose proof (overlap_length_bounds w (fft_frame_size rate)) as Hov.
  rewrite fft_frame_size_double in *.
  set (overlap := overlap_length w (2 * rate)) in *.
  rewrite Hc.
  assert (Hle : removed = 0 \/
                (removed = fftActiveStart b - fftMinimumSampleFrame b * (2 * rate)
                 /\ overlap <= fftMinimumSampleFrame b * (2 * rate)))
    by (destruct Hr as [->| ->]; [left; reflexivity | right; split; nia]).
  clear Hr.
  destruct (Z.ltb_spec (fftActiveStart b - overlap) 0);
    destruct (Z.ltb_spec (fftActiveStart b - removed - overlap) 0);
    split; lia.
Qed.

(** C2. In every state of a capture session at a positive sample rate:
    each frame sliced so far started at a non-negative index and ended
    within the samples the stream held; the cursor lies between zero and the
    sample count, which is the length of the stream; bringing the
    transforms up to date returns; and whenever it does, the compaction
    that ends it has removed, from the stream that the loop over the frames
    left, a prefix that ends at or before the start of the next frame,
    overlap lead-in included and whatever window is then in place, so that
    every sample from there on is kept, the cursor and the start of the
    next frame moving down by the number of samples removed. *)
Theorem spectrum_stream_safe (rate : Z) (s : fft) :
  0 < rate -> accumulating rate s ->
  (forall start stop n,
     In (FrameTaken start stop n) (events s) -> 0 <= start /\ stop <= n) /\
  0 <= fftActiveStart (buf s) <= nSampleStream (buf s) /\
  (exists x, sampleStream (buf s) = Some x /\
             nSampleStream (buf s) = Z.of_nat (length x)) /\
  (forall w a b, exists fuel s', do_FFT fuel rate w a b s = Some (Ret tt, s')) /\
  (forall fuel w a b o s',
     do_FFT fuel rate w a b s = Some (o, s') ->
     exists s1 x removed,
       frames_of_do_FFT fuel rate w a b s = Some s1 /\
       sampleStream (buf s1) = Some x /\
       0 <= removed /\
       sampleStream (buf s') = Some (skipn (Z.to_nat removed) x) /\
       nSampleStream (buf s') = nSampleStream (buf s1) - removed /\
       fftActiveStart (buf s') = fftActiveStart (buf s1) - removed /\
       forall w',
         removed <= next_frame_start rate w' (buf s1) /\
         next_frame_start rate w' (buf s')
         = next_frame_start rate w' (buf s1) - removed).
Proof.
  intros Hrate Hacc.
  pose proof (accumulating_stream_ok rate s Hrate Hacc) as [Hb Hf].
  pose proof Hb as [Hx [Hact Hmin]].
  split; [exact Hf|]. split; [exact Hact|]. split; [exact Hx|]. split.
  - intros w a b.
    destruct (do_FFT_returns rate w a b s Hrate) as (fuel & o & s' & E).
    destruct (do_FFT_safe _ _ _ _ _ _ _ _ Hrate (conj Hb Hf) E) as [-> _].
    eauto.
  - intros fuel w a b o s'. rewrite do_FFT_by_parts.
    destruct (frames_of_do_FFT fuel rate w a b s) as [s1|] eqn:E;
      [|discriminate].
    pose proof (frames_of_do_FFT_safe _ _ _ _ _ _ _ Hrate (conj Hb Hf) E)
      as [Hb1 _].
    destruct (drop_redundant_samples rate (buf s1)) as [o1 b1] eqn:D.
    intros H; injection H as <- <-.
    destruct (compaction_keeps_lead_in rate _ _ _ Hrate Hb1 D)
      as (removed & x & Hs & H0 & Hs' & Hn' & Hc' & Hnext).
    exists s1, x, removed. cbn [buf with_buf].
    split; [reflexivity|]. split; [exact Hs|]. split; [exact H0|].
    split; [exact Hs'|]. split; [exact Hn'|]. split; [exact Hc'|].
    exact Hnext.
Qed.

(** *** Properties kept by every turn *)

Section Preservation.

Variable I : fft -> Prop.

Hypothesis I_turn :
  forall rate w a b start stop len overlap s o s',
    I s -> process_frame rate w a b start stop len overlap s = (o, s') -> I s'.
Hypothesis I_buf : forall b s, I s -> I (with_buf b s).
Hypothesis I_acc : forall a s, I s -> I (with_acc a s).

Lemma do_FFT_preserves (fuel : nat) (rate : Z) (w : option ndarray)
    (a b : option coeffs) (s s' : fft) (o : outcome unit) :
  I s -> do_FFT fuel rate w a b s = Some (o, s') -> I s'.
Proof.
  intros HI. unfold do_FFT, get_initial_frame_limits.
  destruct (transform_frames _ _ _ _ _ _ _ _ _ _ s) as [s1|] eqn:E;
    [|discriminate].
  assert (H1 : I s1).
  { revert E. apply (transform_frames_invariant _ _ _ _ _ _ _ (fun _ _ => I) I).
    - auto.
    - intros start stop s2 o2 s3 H2 _ E2.
      pose proof (I_turn _ _ _ _ _ _ _ _ _ _ _ H2 E2) as H3.
      destruct o2 as [[? ?]|?]; exact H3.
    - exact HI. }
  destruct (drop_redundant_samples rate (buf s1)) as [o1 b1].
  intros H; injection H as <- <-. now apply I_buf.
Qed.

Lemma add_fft_stream_samples_preserves (fuel : nat) (rate : Z) (g : framing)
    (a b : option coeffs) (newSamples : ndarray) (s s' : fft)
    (o : outcome unit) :
  I s -> add_fft_stream_samples fuel rate g a b newSamples s = Some (o, s') ->
  I s'.
Proof.
  intros HI. unfold add_fft_stream_samples.
  destruct (sampleStream (buf s)) as [x|];
    [|intros H; injection H as <- <-; exact HI].
  destruct (rate =? 0);
    [intros H; injection H as <- <-; now apply I_buf|].
  destruct (int_quotient _ _) as [c|e];
    [|intros H; injection H as <- <-; now apply I_buf].
  destruct (Qlt_le_dec 0 _).
  - apply do_FFT_preserves. now apply I_buf.
  - intros H; injection H as <- <-. now apply I_buf.
Qed.

Lemma fft_data_preserves (fuel : nat) (rate : Z) (w : option ndarray)
    (a b : option coeffs) (s s' : fft) (o : outcome (option ndarray)) :
  I s -> fft_data fuel rate w a b s = Some (o, s') -> I s'.
Proof.
  intros HI. unfold fft_data.
  destruct (do_FFT fuel rate w a b s) as [[[u|e] s1]|] eqn:E; [| |discriminate];
    pose proof (do_FFT_preserves _ _ _ _ _ _ _ _ HI E) as H1;
    intros H; injection H as <- <-; [now apply I_acc | exact H1].
Qed.

Lemma constructed_preserves (s : fft) :
  I (pipeline new_thread) -> constructed s -> I s.
Proof.
  intros H0 Hc. induction Hc as
    [ | rate o b s _ IH H | fuel rate g fa fb x o s s' _ IH H
    | fuel rate w fa fb o s s' _ IH H | fuel rate w fa fb o s s' _ IH H ].
  - exact H0.
  - now apply I_buf.
  - eapply add_fft_stream_samples_preserves; eassumption.
  - eapply do_FFT_preserves; eassumption.
  - eapply fft_data_preserves; eassumption.
Qed.

End Preservation.

(** *** The frequency table *)

Lemma grows_refl (s : fft) : grows s s.
Proof. exists []. reflexivity. Qed.

Lemma grows_trans (s1 s2 s3 : fft) : grows s1 s2 -> grows s2 s3 -> grows s1 s3.
Proof.
  intros [n1 E1] [n2 E2]. exists (n2 ++ n1). rewrite E2, E1. apply app_assoc.
Qed.

Lemma grows_in (e : event) (s s' : fft) :
  grows s s' -> In e (events s) -> In e (events s').
Proof. intros [new E] H. rewrite E. apply in_or_app. now right. Qed.

Lemma tame_grows (s s' : fft) : tame s s' -> grows s s'.
Proof. intros (_ & _ & _ & _ & _ & new & E & _). now exists new. Qed.

Lemma turned_grows (start stop : Z) (s s' : fft) :
  turned start stop s s' -> grows s s'.
Proof. intros (_ & _ & _ & _ & new & E & _). now exists new. Qed.

Lemma table_kept_trans (s1 s2 s3 : fft) :
  table_kept s1 s2 -> table_kept s2 s3 -> table_kept s1 s3.
Proof.
  intros [A1 A2] [B1 B2]. split; [congruence | eapply grows_trans; eassumption].
Qed.

Lemma table_kept_tame (s s' : fft) : frq s' = frq s -> tame s s' -> table_kept s s'.
Proof. intros E H. split; [exact E | now apply tame_grows]. Qed.

Lemma take_frame_table (start stop len : Z) (s : fft) :
  table_kept s (snd (take_frame start stop len s)).
Proof.
  unfold take_frame. destruct (sampleStream (buf s)) as [x|]; simpl.
  - split; [reflexivity|]. now exists [FrameTaken start stop (Z.of_nat (length x))].
  - split; [reflexivity | apply grows_refl].
Qed.

Lemma apply_any_window_function_table (w : option ndarray) (s : fft) :
  table_kept s (snd (apply_any_window_function w s)).
Proof.
  apply table_kept_tame; [|apply tame_apply_any_window_function].
  unfold apply_any_window_function.
  repeat match goal with
         | |- context [match ?x with _ => _ end] => destruct x
         end; reflexivity.
Qed.

Lemma verify_filtered_data_table (s : fft) :
  table_kept s (snd (verify_filtered_data s)).
Proof.
  apply table_kept_tame; [|apply tame_verify_filtered_data].
  unfold verify_filtered_data.
  repeat match goal with
         | |- context [match ?x with _ => _ end] => destruct x
         end; reflexivity.
Qed.

Lemma apply_any_filter_table (a b : option coeffs) (s : fft) :
  table_kept s (snd (apply_any_filter a b s)).
Proof.
  apply table_kept_tame; [|apply tame_apply_any_filter].
  unfold apply_any_filter, apply_any_filter_try, bind, raise.
  destruct (frame_contents s) as [x|e]; simpl.
  - destruct a as [fa|]; [|reflexivity].
    destruct b as [fb|].
    + destruct (filtfilt fa fb x) as [y|e]; simpl.
      * pose proof (verify_filtered_data_table (with_filteredSamples (Some y) s))
          as [E _].
        destruct (verify_filtered_data _) as [[u|e] s1]; simpl in *; [exact E|].
        pose proof (verify_filtered_data_table s1) as [E1 _].
        destruct (verify_filtered_data s1) as [[u|e1] s2]; simpl in *; congruence.
      * pose proof (verify_filtered_data_table s) as [E _].
        destruct (verify_filtered_data s) as [[u|e1] s1]; simpl in *; exact E.
    + destruct (sosfilt fa x) as [y|e]; simpl.
      * pose proof (verify_filtered_data_table (with_filteredSamples (Some y) s))
          as [E _].
        destruct (verify_filtered_data _) as [[u|e] s1]; simpl in *; [exact E|].
        pose proof (verify_filtered_data_table s1) as [E1 _].
        destruct (verify_filtered_data s1) as [[u|e1] s2]; simpl in *; congruence.
      * pose proof (verify_filtered_data_table s) as [E _].
        destruct (verify_filtered_data s) as [[u|e1] s1]; simpl in *; exact E.
  - pose proof (verify_filtered_data_table s) as [E _].
    destruct (verify_filtered_data s) as [[u|e1] s1]; simpl in *; exact E.
Qed.

Lemma transform_frame_table (s : fft) :
  table_kept s (snd (transform_frame s)) /\
  (forall sp, fst (transform_frame s) = Ret sp ->
              In Transformed (events (snd (transform_frame s)))).
Proof.
  split.
  - apply table_kept_tame; [|apply tame_transform_frame].
    unfold transform_frame.
    repeat match goal with
           | |- context [match ?x with _ => _ end] => destruct x
           end; reflexivity.
  - unfold transform_frame.
    destruct (filteredSamples (wrk s)) as [x|]; [|discriminate].
    destruct (rfft x) as [sp0|e]; [|discriminate].
    intros _ _. simpl. now left.
Qed.

(** The part of a turn after the transform only adds to the log. *)
Lemma spectrum_work_grows (rate : Z) (sp : spectrum) (start len overlap : Z)
    (s : fft) :
  grows s
    (snd ((create_bin_frequency_data_for_FFT rate (Z.quot len 2 + 1) ;;;
           mag <- magnitude sp ;;
           sum_spectrum mag ;;;
           get_next_frame_limits start len overlap)%py s)).
Proof.
  pose proof (tame_create_bin_frequency_data_for_FFT rate (Z.quot len 2 + 1) s)
    as H1.
  unfold bind at 1.
  destruct (create_bin_frequency_data_for_FFT _ _ s) as [[u|e] s1]; simpl in *;
    [|now apply tame_grows].
  pose proof (tame_magnitude sp s1) as H2. unfold bind at 1.
  destruct (magnitude sp s1) as [[m|e] s2]; simpl in *;
    [|apply tame_grows; eapply tame_trans; eassumption].
  pose proof (tame_sum_spectrum m s2) as H3. unfold bind at 1.
  assert (H13 : tame s s2 -> forall s3, tame s2 s3 -> grows s s3).
  { intros A s3 B. apply tame_grows. eapply tame_trans; eassumption. }
  specialize (H13 (tame_trans _ _ _ H1 H2)).
  destruct (sum_spectrum m s2) as [[u1|e] s3]; simpl in *;
    [|now apply H13].
  apply grows_trans with s3; [now apply H13 | exists []; reflexivity].
Qed.

Lemma table_kept_after_transform (s s' : fft) :
  table_kept s s' -> table_after_transform s -> table_after_transform s'.
Proof.
  intros [E G] H Hx. rewrite E in Hx. eapply grows_in; [exact G | now apply H].
Qed.

Lemma process_frame_table (rate : Z) (w : option ndarray) (a b : option coeffs)
    (start stop len overlap : Z) (s s' : fft) (o : outcome (Z * Z)) :
  table_after_transform s ->
  process_frame rate w a b start stop len overlap s = (o, s') ->
  table_after_transform s'.
Proof.
  intros HJ. unfold process_frame.
  unfold bind at 1. pose proof (take_frame_table start stop len s) as K1.
  destruct (take_frame start stop len s) as [[u|e] s1]; simpl in K1;
    [|intros H; injection H as <- <-;
      eapply table_kept_after_transform; eassumption].
  unfold bind at 1. pose proof (apply_any_window_function_table w s1) as K2.
  pose proof (table_kept_trans _ _ _ K1 K2) as K12. clear K1 K2.
  destruct (apply_any_window_function w s1) as [[u2|e] s2]; simpl in K12;
    [|intros H; injection H as <- <-;
      eapply table_kept_after_transform; eassumption].
  unfold bind at 1. pose proof (apply_any_filter_table a b s2) as K3.
  pose proof (table_kept_trans _ _ _ K12 K3) as K13. clear K12 K3.
  destruct (apply_any_filter a b s2) as [[u3|e] s3]; simpl in K13;
    [|intros H; injection H as <- <-;
      eapply table_kept_after_transform; eassumption].
  unfold bind at 1. pose proof (transform_frame_table s3) as [K4 L4].
  pose proof (table_kept_trans _ _ _ K13 K4) as K14. clear K13 K4.
  destruct (transform_frame s3) as [[sp|e] s4]; simpl in K14, L4;
    [|intros H; injection H as <- <-;
      eapply table_kept_after_transform; eassumption].
  intros H.
  pose proof (spectrum_work_grows rate sp start len overlap s4) as G.
  rewrite H in G; simpl in G.
  intros _. eapply grows_in; [exact G|]. now apply (L4 sp).
Qed.

Lemma constructed_table_after_transform (s : fft) :
  constructed s -> table_after_transform s.
Proof.
  apply constructed_preserves.
  - intros; eapply process_frame_table; eassumption.
  - intros b s0 H. exact H.
  - intros a s0 H. exact H.
  - intros H. exfalso. apply H. reflexivity.
Qed.

Lemma do_FFT_keeps_table (fuel : nat) (rate : Z) (w : option ndarray)
    (a b : option coeffs) (s s' : fft) (o : outcome unit) :
  xFreq (frq s) <> None ->
  do_FFT fuel rate w a b s = Some (o, s') ->
  xFreq (frq s') <> None.
Proof.
  apply (do_FFT_preserves (fun s => xFreq (frq s) <> None)).
  - intros ? ? ? ? ? ? ? ? s0 o0 s1 H E.
    destruct (process_frame_effect _ _ _ _ _ _ _ _ _ _ _ E)
      as [(_ & _ & _ & Hx & _) _].
    now apply Hx.
  - intros b0 s0 H. exact H.
Qed.

(** C10. On a thread's pipeline, however it got there since construction,
    [fft_freqs] holds no table as long as no transform has been performed;
    and a drain by [fft_data] that returns hands out the sum of the
    processing it did first, leaves the sum absent and the count zero, and
    leaves the frequency table as that processing left it, so that a table
    that was there before the drain is still there after it. *)
Theorem frequency_table_lifetime (s : fft) :
  constructed s ->
  (~ In Transformed (events s) -> fft_freqs s = None) /\
  (forall fuel rate w a b r s',
     fft_data fuel rate w a b s = Some (Ret r, s') ->
     fftSum (acc s') = None /\ accumFFTSums (acc s') = 0 /\
     (fft_freqs s <> None -> fft_freqs s' <> None) /\
     exists s1,
       do_FFT fuel rate w a b s = Some (Ret tt, s1) /\
       r = fftSum (acc s1) /\ fft_freqs s' = fft_freqs s1).
Proof.
  intros Hc. split.
  - intros Hno. pose proof (constructed_table_after_transform s Hc) as HJ.
    unfold fft_freqs. destruct (xFreq (frq s)) as [t|] eqn:E; [|reflexivity].
    exfalso. apply Hno. apply HJ. rewrite E. discriminate.
  - intros fuel rate w a b r s'. unfold fft_data.
    destruct (do_FFT fuel rate w a b s) as [[[[]|e] s1]|] eqn:E;
      try discriminate.
    intros H; injection H as <- <-. simpl.
    split; [reflexivity|]. split; [reflexivity|]. split.
    + intros Hx. exact (do_FFT_keeps_table _ _ _ _ _ _ _ _ Hx E).
    + exists s1. repeat split.
Qed.

(** *** Non-finite filter output *)

Lemma nan_min_isnan (a b : float) :
  np_isnan (nan_min a b) = np_isnan a || np_isnan b.
Proof.
  unfold nan_min.
  destruct (np_isnan a) eqn:Ha; simpl; [exact Ha|].
  destruct (np_isnan b) eqn:Hb; [exact Hb|].
  destruct (PrimFloat.ltb b a); assumption.
Qed.

Lemma nan_max_isnan (a b : float) :
  np_isnan (nan_max a b) = np_isnan a || np_isnan b.
Proof.
  unfold nan_max.
  destruct (np_isnan a) eqn:Ha; simpl; [exact Ha|].
  destruct (np_isnan b) eqn:Hb; [exact Hb|].
  destruct (PrimFloat.ltb a b); assumption.
Qed.

Lemma fold_nan_min_isnan (r : ndarray) (a : float) :
  np_isnan (fold_left nan_min r a) = np_isnan a || existsb np_isnan r.
Proof.
  revert a. induction r as [|b r IH]; intros a; simpl.
  - now rewrite orb_false_r.
  - rewrite IH, nan_min_isnan. now rewrite orb_assoc.
Qed.

Lemma fold_nan_max_isnan (r : ndarray) (a : float) :
  np_isnan (fold_left nan_max r a) = np_isnan a || existsb np_isnan r.
Proof.
  revert a. induction r as [|b r IH]; intros a; simpl.
  - now rewrite orb_false_r.
  - rewrite IH, nan_max_isnan. now rewrite orb_assoc.
Qed.

(** On a non-empty array, [__verify_filtered_data] notifies exactly when
    an element is NaN; infinities do not count. *)
Lemma verify_filtered_data_spec (y : ndarray) (s : fft) :
  filteredSamples (wrk s) = Some y -> y <> [] ->
  verify_filtered_data s
  = (Ret tt,
     if existsb np_isnan y then log_event (Emitted bad_filter_message) s else s).
Proof.
  intros Hy Hne. unfold verify_filtered_data. rewrite Hy.
  destruct y as [|a r]; [contradiction|]. unfold np_min, np_max.
  rewrite fold_nan_min_isnan, fold_nan_max_isnan. simpl existsb.
  rewrite orb_diag.
  destruct (np_isnan a || existsb np_isnan r); reflexivity.
Qed.

Lemma apply_any_filter_nan (fa : coeffs) (fb : option coeffs) (x y : ndarray)
    (s : fft) :
  frame_contents s = Ret x -> filter_gives fa fb x y ->
  existsb np_isnan y = true ->
  apply_any_filter (Some fa) fb s
  = (Ret tt,
     log_event (Emitted bad_filter_message) (with_filteredSamples (Some y) s)).
Proof.
  intros Hx Hf Hnan.
  assert (Hne : y <> []) by (intros ->; discriminate).
  unfold apply_any_filter, apply_any_filter_try. rewrite Hx.
  destruct fb as [b0|]; simpl in Hf; rewrite Hf;
    rewrite (verify_filtered_data_spec y) by (try reflexivity; exact Hne);
    now rewrite Hnan.
Qed.

Lemma accumulate_counts (a a' : accumulator) (m : ndarray) :
  accumulate a m = Ret a' ->
  accumFFTSums a' = (if accumFFTSums a =? 0 then 1 else accumFFTSums a + 1) /\
  (accumFFTSums a = 0 -> fftSum a' = Some m).
Proof.
  unfold accumulate. destruct (accumFFTSums a =? 0) eqn:E.
  - intros H; injection H as <-. split; reflexivity.
  - destruct (fftSum a) as [t|]; [|discriminate].
    destruct (np_inplace PrimFloat.add t m) as [t'|e]; [|discriminate].
    simpl. intros H; injection H as <-. split; [reflexivity|].
    intros H0. rewrite H0 in E. discriminate.
Qed.

Lemma take_frame_acc (start stop len : Z) (s : fft) :
  acc (snd (take_frame start stop len s)) = acc s.
Proof.
  unfold take_frame. destruct (sampleStream (buf s)); reflexivity.
Qed.

Lemma apply_any_window_function_acc (w : option ndarray) (s : fft) :
  acc (snd (apply_any_window_function w s)) = acc s.
Proof.
  unfold apply_any_window_function.
  repeat match goal with
         | |- context [match ?x with _ => _ end] => destruct x
         end; reflexivity.
Qed.

Lemma transform_frame_ret (y : ndarray) (sp : spectrum) (s : fft) :
  filteredSamples (wrk s) = Some y -> rfft y = Ret sp ->
  transform_frame s = (Ret sp, log_event Transformed (clear_workspace s)).
Proof. intros Hy Hf. unfold transform_frame. now rewrite Hy, Hf. Qed.

Lemma frame_prepared_events (start stop len : Z) (w : option ndarray)
    (s s2 : fft) :
  (take_frame start stop len ;;; apply_any_window_function w)%py s
  = (Ret tt, s2) ->
  exists n, events s2 = FrameTaken start stop n :: events s.
Proof.
  unfold bind, take_frame.
  destruct (sampleStream (buf s)) as [x|]; [|discriminate].
  unfold apply_any_window_function.
  destruct w as [k|]; [|intros H; injection H as <-; eexists; reflexivity].
  cbn [wrk with_wrk log_event frameSamples buf sampleStream].
  destruct (sampleStream (buf s)) as [x0|]; [|discriminate].
  destruct (np_inplace PrimFloat.mul (py_slice x0 start stop) k) as [y|e];
    [|discriminate].
  intros H; injection H as <-. eexists. reflexivity.
Qed.

(** C1, amended. When the configured filter returns a frame with a NaN in
    it and the library calls of the turn return, the turn completes, so the
    loop goes on to the next frame; the turn has added to the log the
    slicing of the frame, one notification and the transform, in this
    order and nothing else, so that there is exactly one notification more
    than before; and the magnitude spectrum of the frame has been added to
    the accumulator like any other (it is the sum when the count was
    zero), the count going up by one. *)
Theorem nan_frame_notified_and_summed (rate : Z) (w : option ndarray)
    (fa : coeffs) (fb : option coeffs) (start stop len overlap : Z)
    (s s2 : fft) (x y table : ndarray) (sp : spectrum) (acc' : accumulator) :
  (take_frame start stop len ;;; apply_any_window_function w)%py s
  = (Ret tt, s2) ->
  frame_contents s2 = Ret x ->
  filter_gives fa fb x y ->
  existsb np_isnan y = true ->
  rfft y = Ret sp ->
  rate <> 0 ->
  rfftfreq (Z.quot len 2 + 1) rate = Ret table ->
  np_abs sp <> [] ->
  accumulate (acc s) (np_abs sp) = Ret acc' ->
  exists s' n,
    process_frame rate w (Some fa) fb start stop len overlap s
    = (Ret (start + (len - overlap), start + (len - overlap) + len), s') /\
    events s'
    = Transformed :: Emitted bad_filter_message :: FrameTaken start stop n
        :: events s /\
    length (List.filter is_emitted (events s'))
    = S (length (List.filter is_emitted (events s))) /\
    acc s' = acc' /\
    accumFFTSums acc'
    = (if accumFFTSums (acc s) =? 0 then 1 else accumFFTSums (acc s) + 1) /\
    (accumFFTSums (acc s) = 0 -> fftSum acc' = Some (np_abs sp)).
Proof.
  intros Hprep Hx Hf Hnan Hfft Hrate Hfreq Hne Hacc.
  destruct (frame_prepared_events _ _ _ _ _ _ Hprep) as [n Hev2].
  unfold process_frame. unfold bind at 1. unfold bind in Hprep.
  pose proof (take_frame_acc start stop len s) as A1.
  destruct (take_frame start stop len s) as [[[]|e] s1]; [|discriminate].
  unfold bind at 1.
  pose proof (apply_any_window_function_acc w s1) as A2.
  destruct (apply_any_window_function w s1) as [[[]|e] s2']; [|discriminate].
  injection Hprep as ->. simpl in A1, A2.
  assert (Hacc2 : acc s2 = acc s) by congruence.
  unfold bind at 1.
  rewrite (apply_any_filter_nan fa fb x y s2 Hx Hf Hnan).
  unfold bind at 1.
  rewrite (transform_frame_ret y sp) by (try reflexivity; exact Hfft).
  set (s4 := log_event Transformed _).
  assert (Hbin : exists s5,
            create_bin_frequency_data_for_FFT rate (Z.quot len 2 + 1) s4
            = (Ret tt, s5) /\ acc s5 = acc s /\
            events s5
            = Transformed :: Emitted bad_filter_message :: events s2).
  { unfold create_bin_frequency_data_for_FFT.
    destruct (_ || _).
    - destruct (Z.eqb_spec rate 0) as [E|_]; [contradiction|].
      rewrite Hfreq. eexists. split; [reflexivity|].
      split; [exact Hacc2 | reflexivity].
    - eexists. split; [reflexivity|].
      split; [exact Hacc2 | reflexivity]. }
  destruct Hbin as (s5 & E5 & A5 & N5).
  unfold bind at 1. rewrite E5.
  unfold bind at 1. unfold magnitude at 1.
  destruct (np_abs sp) as [|m0 mr] eqn:Em; [contradiction|].
  unfold np_min, np_max.
  unfold bind at 1. unfold sum_spectrum at 1. rewrite A5, Hacc.
  unfold get_next_frame_limits. exists (with_buf
    (with_fftActiveStart (start + (len - overlap)) (buf (with_acc acc' s5)))
    (with_acc acc' s5)), n.
  split; [reflexivity|].
  assert (Hev : events (with_buf
                          (with_fftActiveStart (start + (len - overlap))
                             (buf (with_acc acc' s5)))
                          (with_acc acc' s5))
                = Transformed :: Emitted bad_filter_message
                    :: FrameTaken start stop n :: events s).
  { cbn [events with_buf with_acc]. rewrite N5, Hev2. reflexivity. }
  split; [exact Hev|]. split; [rewrite Hev; reflexivity|].
  split; [reflexivity|].
  exact (accumulate_counts _ _ _ Hacc).
Qed.

End Pipeline.

(** *** The concrete session, run

    The started 1 Hz thread is fed eight samples in one append, which brings
    the transforms up to date: four frames are taken, at 0, 2, 4 and 6. *)

(** C1, as stated, fails. With a forward-backward filter whose output is
    NaN, each of the four frames raises a notification (four, not one) and
    each of the four spectra is added to the accumulator, whose sum is NaN
    throughout. With a cascaded filter that lets infinite samples through,
    the two frames that hold them raise no notification at all. *)
Lemma nan_spectrum_accumulated :
  (exists s' total,
     @add_fft_stream_samples unstable_lib 10 1 no_window
       (Some [1%float]) (Some [1%float]) (repeat 1%float 8) started_pipeline
     = Some (Ret tt, s') /\
     length (List.filter is_emitted (events s')) = 4%nat /\
     accumFFTSums (acc s') = 4 /\
     fftSum (acc s') = Some total /\
     forallb np_isnan total = true) /\
  (exists s',
     @add_fft_stream_samples unstable_lib 10 1 no_window
       (Some [1%float]) None (repeat PrimFloat.infinity 8) started_pipeline
     = Some (Ret tt, s') /\
     In (FrameTaken 4 6 12) (events s') /\
     existsb PrimFloat.is_infinity
       (py_slice (repeat 0%float 4 ++ repeat PrimFloat.infinity 8) 4 6) = true /\
     List.filter is_emitted (events s') = []).
Proof.
  split.
  - do 2 eexists. split; [vm_compute; reflexivity|].
    repeat split; vm_compute; reflexivity.
  - eexists. split; [vm_compute; reflexivity|].
    split; [vm_compute; tauto|]. split; vm_compute; reflexivity.
Qed.

Lemma nan_frame_notified_and_summed_witness :
  exists s',
    @process_frame unstable_lib 1 None (Some [1%float]) (Some [1%float])
      0 2 2 0 started_pipeline
    = (Ret (2, 4), s') /\
    List.filter is_emitted (events s') = [Emitted bad_filter_message] /\
    accumFFTSums (acc s') = 1.
Proof.
  destruct (@nan_frame_notified_and_summed unstable_lib 1 None
              [1%float] (Some [1%float]) 0 2 2 0 started_pipeline
              (snd (take_frame 0 2 2 started_pipeline))
              [0%float; 0%float] [PrimFloat.nan; PrimFloat.nan]
              [0%float; 0%float] [PrimFloat.nan; PrimFloat.nan]
              (mkAccumulator (Some [PrimFloat.nan; PrimFloat.nan]) 1))
    as (s' & n & E & Hev & _ & Hacc & _).
  - reflexivity.
  - reflexivity.
  - reflexivity.
  - reflexivity.
  - reflexivity.
  - discriminate.
  - reflexivity.
  - discriminate.
  - reflexivity.
  - exists s'. split; [exact E|]. split; [now rewrite Hev | now rewrite Hacc].
Defined.

Lemma spectrum_stream_safe_witness :
  exists s s1 s',
    @add_fft_stream_samples unstable_lib 10 1 (mkFraming "" None 100) None None
      (repeat 1%float 8) started_pipeline
    = Some (Ret tt, s) /\
    @frames_of_do_FFT unstable_lib 10 1 None None None s = Some s1 /\
    @do_FFT unstable_lib 10 1 None None None s = Some (Ret tt, s') /\
    nSampleStream (buf s1) = 12 /\ fftActiveStart (buf s1) = 8 /\
    nSampleStream (buf s') = 6 /\ fftActiveStart (buf s') = 2 /\
    exists x removed,
      sampleStream (buf s1) = Some x /\
      removed = 6 /\ removed <= next_frame_start 1 None (buf s1) /\
      sampleStream (buf s') = Some (skipn (Z.to_nat removed) x).
Proof.
  assert (Hstart : @accumulating unstable_lib 1 started_pipeline)
    by (apply (@acc_start unstable_lib 1); reflexivity).
  do 3 eexists. split; [vm_compute; reflexivity|].
  split; [vm_compute; reflexivity|]. split; [vm_compute; reflexivity|].
  split; [reflexivity|]. split; [reflexivity|].
  split; [reflexivity|]. split; [reflexivity|].
  match goal with
  | |- exists x removed, sampleStream (buf ?s1) = _ /\ _ /\ _ /\
                         sampleStream (buf ?s') = _ =>
      destruct (proj2 (proj2 (proj2 (proj2
                 (@spectrum_stream_safe unstable_lib 1
                    (with_buf (mkBuffer
                                 (Some (repeat 0%float 4 ++ repeat 1%float 8))
                                 12 6 1 0 0) started_pipeline)
                    ltac:(lia)
                    (@acc_append unstable_lib 1 10 (mkFraming "" None 100)
                       None None (repeat 1%float 8) (Ret tt) _ _ Hstart
                       ltac:(vm_compute; reflexivity)))))) 10%nat None None None
                 (Ret tt) s' ltac:(vm_compute; reflexivity))
        as (s1' & x & removed & E1 & Hx & _ & Hs' & Hn' & _ & Hnext)
  end.
  vm_compute in E1. injection E1 as <-.
  exists x, removed. split; [exact Hx|].
  split; [change (6 = 12 - removed) in Hn'; lia|].
  split; [exact (proj1 (Hnext None)) | exact Hs'].
Defined.

Lemma frequency_table_lifetime_witness :
  fft_freqs (pipeline (@new_thread unstable_lib)) = None /\
  exists s',
    @fft_data unstable_lib 1 44100 None None None
      (pipeline (@new_thread unstable_lib))
    = Some (Ret None, s') /\
    fftSum (acc s') = None /\ accumFFTSums (acc s') = 0.
Proof.
  destruct (@frequency_table_lifetime unstable_lib
              (pipeline (@new_thread unstable_lib)) (@con_new unstable_lib))
    as [Hnone Hdrain].
  split; [apply Hnone; intros []|].
  eexists. split; [vm_compute; reflexivity|].
  destruct (Hdrain 1%nat 44100 None None None None _ eq_refl)
    as (H1 & H2 & _).
  split; assumption.
Defined.

(** * Further properties of the thread *)

Section TrackerEdges.

Local Open Scope R_scope.

Lemma evict_while_without_room (cap : Z) (amps : list R) :
  forall (n : Z) (sum : R),
    (cap <= 0)%Z -> n = Z.of_nat (length amps) ->
    evict_while cap amps n sum
    = (Raise IndexError, mkAmplitude [] 0 (sum - window_sum amps)).
Proof.
  induction amps as [|x rest IH]; intros n sum Hcap Hn; simpl in *.
  - destruct (Z.leb_spec cap n) as [_|Hlt]; [|lia].
    subst n. f_equal. f_equal. lra.
  - destruct (Z.leb_spec cap n) as [_|Hlt]; [|lia].
    rewrite IH by lia. f_equal. f_equal. lra.
Qed.

(** With a cap of zero or less, a push on a tracker whose count is the
    length of its window raises [IndexError]: the eviction loop empties the
    window, taking every value off the running sum, and then reaches for the
    head of the empty list; the new amplitude is not stored. *)
Theorem push_raises_without_room (cap : Z) (x : R) (a : amplitude) :
  (cap <= 0)%Z ->
  nSampleFrameAmplitudes a = Z.of_nat (length (sampleFrameAmplitudes a)) ->
  add_stream_amplitude cap x a
  = (Raise IndexError,
     mkAmplitude [] 0
       (sumSampleFrameAmplitudes a - window_sum (sampleFrameAmplitudes a))).
Proof.
  intros Hcap Hn. unfold add_stream_amplitude.
  now rewrite (evict_while_without_room cap _ _ _ Hcap Hn).
Qed.

Lemma push_raises_without_room_witness :
  add_stream_amplitude 0 5 (mkAmplitude [1; 2] 2 3)
  = (Raise IndexError, mkAmplitude [] 0 (3 - window_sum [1; 2])).
Proof.
  apply (push_raises_without_room 0 5 (mkAmplitude [1; 2] 2 3));
    [lia | reflexivity].
Defined.

Lemma sample_peak_at_least_one (f : sample_format) : 1 <= sample_peak_of f.
Proof. destruct f; simpl; lra. Qed.

Lemma log10_nonpos (x : R) : 0 < x -> x <= 1 -> log10 x <= 0.
Proof.
  intros H0 H1. pose proof (log10_le x 1 H0 H1) as H.
  unfold log10 in H at 2. rewrite ln_1 in H. unfold Rdiv in H.
  now rewrite Rmult_0_l in H.
Qed.

Lemma log10_pos (x : R) : 1 < x -> 0 < log10 x.
Proof.
  intros H1. unfold log10. apply Rdiv_lt_0_compat; [|apply ln_10_pos].
  rewrite <- ln_1. apply ln_increasing; lra.
Qed.

(** Once [set_sample_size] has set the peak for a sample format, the level
    is returned without an exception and is at most 0 dB whenever the mean
    of the tracker lies between zero and that peak (the floor of -90 for a
    mean of zero, 20 log10 of a ratio of at most one otherwise); and it is
    returned and is above 0 dB whenever the mean is above the peak. *)
Theorem current_dB_at_most_zero (f0 : format) (newSize : sample_format)
    (a : amplitude) :
  (0 <= current_mean_amplitude a <= sample_peak_of newSize ->
   exists v,
     current_dB (PEAK (set_sample_size newSize f0)) a = Ret v /\ v <= 0) /\
  (sample_peak_of newSize < current_mean_amplitude a ->
   exists v,
     current_dB (PEAK (set_sample_size newSize f0)) a = Ret v /\ 0 < v).
Proof.
  simpl PEAK. pose proof (sample_peak_at_least_one newSize) as Hp.
  split; intros Hmean.
  - destruct (Req_dec_T (current_mean_amplitude a) 0) as [Hz|Hnz].
    + exists (-90). split; [apply current_dB_floor; now left | lra].
    + eexists. split; [apply current_dB_pos; lra|].
      assert (Hr : log10 (current_mean_amplitude a / sample_peak_of newSize)
                   <= 0).
      { apply log10_nonpos.
        - apply Rdiv_lt_0_compat; lra.
        - apply Rmult_le_reg_r with (sample_peak_of newSize); [lra|].
          unfold Rdiv. rewrite Rmult_assoc, Rinv_l by lra. lra. }
      lra.
  - eexists. split; [apply current_dB_pos; lra|].
    assert (Hr : 0 < log10 (current_mean_amplitude a / sample_peak_of newSize)).
    { apply log10_pos.
      apply Rmult_lt_reg_r with (sample_peak_of newSize); [lra|].
      unfold Rdiv. rewrite Rmult_assoc, Rinv_l by lra. lra. }
    lra.
Qed.

Lemma current_dB_at_most_zero_witness :
  exists v,
    current_dB (PEAK (set_sample_size paInt8 (mkFormat paInt16 2 None 1 1024)))
      (mkAmplitude [100; 50] 2 150) = Ret v /\ v <= 0.
Proof.
  apply (current_dB_at_most_zero (mkFormat paInt16 2 None 1 1024) paInt8
           (mkAmplitude [100; 50] 2 150)).
  assert (Hm : current_mean_amplitude (mkAmplitude [100; 50] 2 150)
               = 150 / (1 * 2)) by reflexivity.
  rewrite Hm. simpl. lra.
Defined.

End TrackerEdges.

Section SampleWindow.

Lemma py_div_ret (a b : Q) : ~ (b == 0)%Q -> py_div a b = Ret (a / b)%Q.
Proof.
  intros H. unfold py_div. destruct (Qeq_bool b 0) eqn:E; [|reflexivity].
  apply Qeq_bool_iff in E. contradiction.
Qed.

Lemma py_div_raise (a b : Q) : (b == 0)%Q -> py_div a b = Raise ZeroDivisionError.
Proof.
  intros H. unfold py_div. apply Qeq_bool_iff in H. now rewrite H.
Qed.

Lemma Qdiv_zero_iff (a b : Q) : ~ (b == 0)%Q -> ((a / b == 0)%Q <-> (a == 0)%Q).
Proof.
  intros Hb. split.
  - intros H. unfold Qdiv in H.
    destruct (Qmult_integral _ _ H) as [Ha|Hi]; [exact Ha|].
    exfalso. apply Hb. rewrite <- (Qinv_involutive b), Hi. reflexivity.
  - intros Ha. rewrite Ha. unfold Qdiv. apply Qmult_0_l.
Qed.

Lemma inject_Z_zero_iff (z : Z) : (inject_Z z == 0)%Q <-> z = 0.
Proof. unfold Qeq, inject_Z; cbn [Qnum Qden]. lia. Qed.

Lemma bytes_per_sample_zero_iff (f : format) :
  (1 * inject_Z (CHANNELS f) * inject_Z (sampleLen f) == 0)%Q
  <-> CHANNELS f * sampleLen f = 0.
Proof.
  rewrite <- inject_Z_zero_iff, inject_Z_mult, Qmult_1_l. reflexivity.
Qed.

(** What [mean_sample_frames_in_duration] answers. *)
Lemma mean_sample_frames_outcome (f : format) (rate : Z) (duration : Q) :
  (zero_config f rate ->
   mean_sample_frames_in_duration f rate duration = Raise ZeroDivisionError) /\
  (~ zero_config f rate ->
   exists m, mean_sample_frames_in_duration f rate duration = Ret m).
Proof.
  unfold zero_config, mean_sample_frames_in_duration, sample_frame_duration,
    samples_per_frame.
  destruct (Z.eq_dec (CHANNELS f * sampleLen f) 0) as [Hb|Hb].
  { split; [|tauto]. intros _.
    rewrite py_div_raise by (now apply bytes_per_sample_zero_iff).
    reflexivity. }
  rewrite py_div_ret by (now rewrite bytes_per_sample_zero_iff). simpl obind.
  destruct (Z.eq_dec rate 0) as [Hr|Hr].
  { split; [|tauto]. intros _.
    rewrite py_div_raise by (now apply inject_Z_zero_iff). reflexivity. }
  rewrite py_div_ret by (now rewrite inject_Z_zero_iff). simpl obind.
  assert (Hd : ~ (1 * inject_Z (CHANNELS f) * inject_Z (sampleLen f) == 0)%Q)
    by (now rewrite bytes_per_sample_zero_iff).
  assert (Hq : ~ (inject_Z rate == 0)%Q) by (now rewrite inject_Z_zero_iff).
  destruct (Z.eq_dec (SAMPLE_FRAME_LEN f) 0) as [Hl|Hl].
  { split; [|tauto]. intros _.
    rewrite py_div_raise; [reflexivity|].
    apply Qdiv_zero_iff; [exact Hq|]. apply Qdiv_zero_iff; [exact Hd|].
    now apply inject_Z_zero_iff. }
  split; [intros [H|[H|H]]; contradiction|]. intros _.
  rewrite py_div_ret; [simpl; eauto|].
  rewrite Qdiv_zero_iff by exact Hq. rewrite Qdiv_zero_iff by exact Hd.
  now rewrite inject_Z_zero_iff.
Qed.

(** [set_sample_window] raises exactly when the frame length, the bytes per
    sample over all channels, or the rate is zero, and the exception is
    [ZeroDivisionError]; the new duration has been stored by then, the
    number of frames of the rolling mean has not changed. Otherwise it
    returns, with the new duration stored and the rate as it was. *)
Theorem set_sample_window_raises_iff (f : format) (newSampleWindow : Q)
    (t : timing) :
  (zero_config f (RATE t) ->
   set_sample_window f newSampleWindow t
   = (Raise ZeroDivisionError,
      mkTiming (RATE t) (nyquistRate t) newSampleWindow (meanSampleFrames t))) /\
  (~ zero_config f (RATE t) ->
   exists t',
     set_sample_window f newSampleWindow t = (Ret tt, t') /\
     sampleWindow t' = newSampleWindow /\ RATE t' = RATE t).
Proof.
  split; intros Hz; unfold set_sample_window; cbn [RATE].
  - now rewrite (proj1 (mean_sample_frames_outcome f (RATE t) newSampleWindow) Hz).
  - destruct (proj2 (mean_sample_frames_outcome f (RATE t) newSampleWindow) Hz)
      as [m ->].
    destruct (m <? 1); [eexists; repeat split|].
    cbn [RATE with_meanSampleFrames].
    destruct (proj2 (mean_sample_frames_outcome f (RATE t) 1) Hz) as [sec ->].
    destruct (sec <? m); eexists; repeat split.
Qed.

Lemma set_sample_window_raises_iff_witness :
  set_sample_window (mkFormat paInt16 2 None 0 1024) (1 # 2)
    (mkTiming 44100 22050 (1 # 4) 7)
  = (Raise ZeroDivisionError, mkTiming 44100 22050 (1 # 2) 7) /\
  exists t',
    set_sample_window (mkFormat paInt16 2 None 1 1024) (1 # 2)
      (mkTiming 44100 22050 (1 # 4) 7) = (Ret tt, t') /\
    sampleWindow t' = 1 # 2 /\ RATE t' = 44100.
Proof.
  split.
  - apply (set_sample_window_raises_iff (mkFormat paInt16 2 None 0 1024) (1 # 2)
             (mkTiming 44100 22050 (1 # 4) 7)).
    right; left. reflexivity.
  - apply (set_sample_window_raises_iff (mkFormat paInt16 2 None 1 1024) (1 # 2)
             (mkTiming 44100 22050 (1 # 4) 7)).
    unfold zero_config; simpl. lia.
Defined.

(** When [set_sample_window] returns, the number of frames of the rolling
    mean lies between one and the number of frames in a second, whichever
    way round these two are: at least one frame and at most a second's
    worth when a second holds a frame, and at least a second's worth and at
    most one frame otherwise. *)
Theorem set_sample_window_clamps (f : format) (newSampleWindow : Q)
    (t t' : timing) (secondOfSampleFrames : Z) :
  set_sample_window f newSampleWindow t = (Ret tt, t') ->
  mean_sample_frames_in_duration f (RATE t) 1 = Ret secondOfSampleFrames ->
  Z.min 1 secondOfSampleFrames <= meanSampleFrames t'
  <= Z.max 1 secondOfSampleFrames.
Proof.
  unfold set_sample_window; cbn [RATE]. intros H Hsec.
  destruct (mean_sample_frames_in_duration f (RATE t) newSampleWindow) as [m|e];
    [|discriminate].
  destruct (Z.ltb_spec m 1).
  - injection H as <-. cbn [meanSampleFrames with_meanSampleFrames]. lia.
  - cbn [RATE with_meanSampleFrames] in H. rewrite Hsec in H.
    destruct (Z.ltb_spec secondOfSampleFrames m);
      injection H as <-; cbn [meanSampleFrames with_meanSampleFrames]; lia.
Qed.

Lemma set_sample_window_clamps_witness :
  exists t',
    set_sample_window (mkFormat paInt16 2 None 1 1024) (1 # 4)
      (mkTiming 44100 22050 (1 # 4) 1) = (Ret tt, t') /\
    meanSampleFrames t' = 22 /\
    Z.min 1 86 <= meanSampleFrames t' <= Z.max 1 86.
Proof.
  eexists. split; [reflexivity|]. split; [reflexivity|].
  apply (set_sample_window_clamps (mkFormat paInt16 2 None 1 1024) (1 # 4)
           (mkTiming 44100 22050 (1 # 4) 1)); reflexivity.
Defined.

End SampleWindow.

Section WindowNames.

Context {lib : numlib}.

Lemma window_kernel_name_known (name : string) :
  window_kernel_name name = None <-> ~ In name window_names.
Proof.
  split.
  - intros Hnone Hin. unfold window_names in Hin. simpl in Hin.
    repeat (destruct Hin as [<-|Hin]; [discriminate Hnone|]).
    exact Hin.
  - intros Hout. unfold window_kernel_name.
    repeat match goal with
           | |- context [String.eqb name ?k] =>
               destruct (String.eqb_spec name k) as [E|_];
               [exfalso; apply Hout; rewrite E; simpl; tauto|]
           end.
    reflexivity.
Qed.

(** A window name that [__get_window_function] does not know (the empty
    name included) never raises and never reaches the library:
    [set_window_type] stores the name and leaves the thread without a
    window, so that frames do not overlap; and the names it does know are
    exactly the seventeen of the settings dialog. *)
Theorem unknown_window_is_passthrough (rate : Z) (newType : string) (g : framing) :
  (window_kernel_name newType = None <-> ~ In newType window_names) /\
  (~ In newType window_names ->
   set_window_type rate newType g
   = (Ret tt, mkFraming newType None (batchFFTDuration g)) /\
   forall F,
     overlap_length (fnWindow (snd (set_window_type rate newType g))) F = 0).
Proof.
  split; [apply window_kernel_name_known|]. intros Hout.
  assert (E : set_window_type rate newType g
              = (Ret tt, mkFraming newType None (batchFFTDuration g))).
  { unfold set_window_type, create_window_function; cbn [windowFn].
    destruct (String.eqb newType ""); [reflexivity|].
    unfold get_window_function.
    now rewrite (proj2 (window_kernel_name_known newType) Hout). }
  split; [exact E|]. intros F. now rewrite E.
Qed.

End WindowNames.

Lemma unknown_window_is_passthrough_witness :
  @set_window_type unstable_lib 44100 "Gaussian" (mkFraming "Hann" (Some []) 4)
  = (Ret tt, mkFraming "Gaussian" None 4).
Proof.
  apply (@unknown_window_is_passthrough unstable_lib 44100 "Gaussian"
           (mkFraming "Hann" (Some []) 4)).
  simpl. intros H.
  repeat (destruct H as [H|H]; [discriminate H|]). exact H.
Defined.

Section FilterEdges.

Context {lib : numlib}.



(** When the design of a filter raises inside a setter, the exception
    leaves the setter, the new cut-off is stored but the coefficients are
    those of the filter before; and calling the setter again with the same
    cut-off does nothing, so the stale coefficients stay in use. *)
Theorem failed_design_keeps_coefficients (t : timing) (newLowF : Z)
    (f f' : filter) (e : exn) :
  set_filter_low_f t newLowF f = (Raise e, f') ->
  filtLowF f' = newLowF /\
  filterA f' = filterA f /\ filterB f' = filterB f /\
  set_filter_low_f t newLowF f' = (Ret tt, f').
Proof.
  unfold set_filter_low_f.
  destruct (Z.eqb_spec newLowF (filtLowF f)) as [_|Hne]; [discriminate|].
  unfold create_sample_filter at 1.
  destruct (design_sample_filter t _) as [[a b]|e0]; [discriminate|].
  intros H; injection H as _ <-. cbn.
  rewrite Z.eqb_refl. repeat split.
Qed.

End FilterEdges.


(** A low-pass cut-off of 1000 Hz passes the test of the thread, but the
    design is asked for it without the sampling frequency. *)
Lemma failed_design_keeps_coefficients_witness :
  exists f',
    @set_filter_low_f checked_lib (mkTiming 44100 22050 (1 # 4) 1) 5
      (@mkFilter checked_lib "Low pass" 1 1000 3 (Some [7%float]) None)
    = (Raise ValueError, f') /\
    filtLowF f' = 5 /\ filterA f' = Some [7%float] /\
    @set_filter_low_f checked_lib (mkTiming 44100 22050 (1 # 4) 1) 5 f'
    = (Ret tt, f').
Proof.
  eexists. split; [reflexivity|].
  destruct (@failed_design_keeps_coefficients checked_lib
              (mkTiming 44100 22050 (1 # 4) 1) 5
              (@mkFilter checked_lib "Low pass" 1 1000 3 (Some [7%float]) None)
              _ ValueError eq_refl) as (H1 & H2 & _ & H4).
  split; [exact H1|]. split; [exact H2 | exact H4].
Defined.

Section FrameLimits.

(** [__get_frame_limits] never raises: the frame it computes is a whole
    frame that starts at or after the origin of the stream, so neither of
    its guards can fire, and it answers as [__get_initial_frame_limits]
    does. *)
Theorem get_frame_limits_never_raises (rate overlapLength : Z)
    (b : sample_buffer) :
  get_frame_limits rate overlapLength b
  = Ret (get_initial_frame_limits rate overlapLength b) /\
  0 <= fst (fst (get_initial_frame_limits rate overlapLength b)) /\
  snd (fst (get_initial_frame_limits rate overlapLength b))
  = fst (fst (get_initial_frame_limits rate overlapLength b))
    + fft_frame_size rate.
Proof.
  unfold get_frame_limits, get_initial_frame_limits.
  set (F := fft_frame_size rate).
  set (start := if fftActiveStart b - overlapLength <? 0 then 0
                else fftActiveStart b - overlapLength).
  assert (Hs : 0 <= start)
    by (unfold start;
        destruct (Z.ltb_spec (fftActiveStart b - overlapLength) 0); lia).
  cbn [fst snd]. split; [|split; [exact Hs | reflexivity]].
  destruct (Z.ltb_spec (start + F - start) F) as [H|_]; [lia|].
  destruct (Z.ltb_spec start 0) as [H|_]; [lia|].
  repeat f_equal. lia.
Qed.

(** After [set_fft_view_duration] the batch duration is at least three
    seconds: it is an eighth of the view duration when that is at least
    four, and otherwise three, with the view duration set to four. *)
Theorem set_fft_view_duration_floor (newDuration : Q) (g : framing) :
  let '(view, g') := set_fft_view_duration newDuration g in
  3 <= batchFFTDuration g' /\
  (batchFFTDuration g' = 3 /\ view = 4 \/
   4 <= batchFFTDuration g' /\ view = py_int newDuration /\
   8 * batchFFTDuration g' <= view < 8 * batchFFTDuration g' + 8) /\
  windowFn g' = windowFn g /\ fnWindow g' = fnWindow g.
Proof.
  unfold set_fft_view_duration.
  change (py_int (2 * tFFTUnit)) with 4.
  set (view := py_int newDuration).
  assert (E : py_int (inject_Z view / 8) = Z.quot view 8).
  { unfold py_int, Qdiv, Qmult, Qinv, inject_Z. cbn [Qnum Qden].
    now rewrite Z.mul_1_r. }
  rewrite E.
  destruct (Z.ltb_spec (Z.quot view 8) 4) as [Hlt|Hge];
    cbn [batchFFTDuration windowFn fnWindow].
  - change (if 1 <? 4 then 4 - 1 else 4) with 3.
    split; [lia|]. split; [|split; reflexivity]. left. split; reflexivity.
  - split; [lia|]. split; [|split; reflexivity]. right.
    assert (Hv : 0 <= view).
    { destruct (Z.le_gt_cases 0 view) as [H|H]; [exact H|].
      pose proof (Z.quot_opp_l view 8 ltac:(lia)) as Ho.
      assert (0 <= Z.quot (- view) 8) by (apply Z.quot_pos; lia). lia. }
    rewrite Z.quot_div_nonneg in * by lia.
    pose proof (Z.div_mod view 8 ltac:(lia)) as Hd.
    pose proof (Z.mod_pos_bound view 8 ltac:(lia)) as Hm.
    repeat split; lia.
Qed.

End FrameLimits.

Section StreamViews.

Context {lib : numlib}.

(** Storing through a view and slicing the same view again gives back what
    was stored, and the stream keeps its length. *)
Lemma py_slice_store_round_trip {A : Type} (a new : list A) (start stop : Z) :
  length new = length (py_slice a start stop) ->
  py_slice (py_slice_store a start stop new) start stop = new.
Proof.
  intros Hn. unfold py_slice.
  rewrite (py_slice_store_length a start stop new Hn).
  rewrite py_slice_length in Hn. unfold py_slice_store.
  pose proof (slice_index_range (Z.of_nat (length a)) start) as H1.
  pose proof (slice_index_range (Z.of_nat (length a)) stop) as H2.
  set (lo := slice_index (Z.of_nat (length a)) start) in *.
  set (hi := slice_index (Z.of_nat (length a)) stop) in *.
  assert (Hlo : length (firstn (Z.to_nat lo) a) = Z.to_nat lo)
    by (rewrite length_firstn; lia).
  rewrite skipn_app, Hlo, Nat.sub_diag.
  rewrite skipn_all2 by lia. cbn [app skipn].
  rewrite firstn_app, <- Hn, Nat.sub_diag, firstn_all. cbn [firstn].
  apply app_nil_r.
Qed.

(** Windowing is done in place, on the stream: with a window as long as the
    frame, [__apply_any_window_function] returns, the stream keeps its
    length, the samples of the frame in the stream are now the products
    with the window, and these are what the frame, being a view of the
    stream, holds from then on. *)
Theorem window_written_into_stream (w x : ndarray) (start stop : Z) (s : fft) :
  frameSamples (wrk s) = Some (start, stop) ->
  sampleStream (buf s) = Some x ->
  length w = length (py_slice x start stop) ->
  exists s' x',
    apply_any_window_function (Some w) s = (Ret tt, s') /\
    sampleStream (buf s') = Some x' /\
    length x' = length x /\
    py_slice x' start stop = zip_with PrimFloat.mul (py_slice x start stop) w /\
    frame_contents s'
    = Ret (zip_with PrimFloat.mul (py_slice x start stop) w).
Proof.
  intros Hf Hx Hw. unfold apply_any_window_function. rewrite Hf, Hx.
  unfold np_inplace. rewrite Hw, Nat.eqb_refl.
  set (y := zip_with PrimFloat.mul (py_slice x start stop) w).
  assert (Hy : length y = length (py_slice x start stop))
    by (apply zip_with_length; exact Hw).
  do 2 eexists. split; [reflexivity|]. cbn [buf with_buf sampleStream
                                            with_sampleStream].
  split; [reflexivity|].
  split; [now apply py_slice_store_length|].
  split; [now apply py_slice_store_round_trip|].
  unfold frame_contents. cbn [wrk with_buf buf sampleStream with_sampleStream].
  rewrite Hf. now rewrite (py_slice_store_round_trip x y start stop Hy).
Qed.

(** The overlap is the whole part of 0.66 times the frame length when a
    window is in place and zero otherwise, so that a frame of positive
    length always leaves a positive advance. *)
Theorem overlap_is_floor (w : ndarray) (F : Z) :
  0 <= F ->
  100 * overlap_length (Some w) F <= 66 * F
  < 100 * (overlap_length (Some w) F + 1) /\
  overlap_length None F = 0 /\
  (0 < F -> 0 < F - overlap_length (Some w) F).
Proof.
  intros HF.
  assert (E : overlap_length (Some w) F = (66 * F) / 100).
  { unfold overlap_length, py_int, windowOverlapRatio, Qmult, inject_Z.
    cbn [Qnum Qden]. change (Z.pos (100 * 1)) with 100.
    apply Z.quot_div_nonneg; lia. }
  rewrite E.
  pose proof (Z.div_mod (66 * F) 100 ltac:(lia)) as Hd.
  pose proof (Z.mod_pos_bound (66 * F) 100 ltac:(lia)) as Hm.
  repeat split; try lia.
Qed.

(** A notification is a matter of NaN only: when the configured filter
    returns a frame without a NaN in it, whatever else the frame holds,
    infinities included, [__apply_any_filter] records the frame and returns
    without emitting anything. *)
Theorem infinities_not_reported (fa : coeffs) (fb : option coeffs)
    (x y : ndarray) (s : fft) :
  frame_contents s = Ret x -> filter_gives fa fb x y ->
  y <> [] -> existsb np_isnan y = false ->
  apply_any_filter (Some fa) fb s
  = (Ret tt, with_filteredSamples (Some y) s).
Proof.
  intros Hx Hf Hne Hnan.
  unfold apply_any_filter, apply_any_filter_try. rewrite Hx.
  destruct fb as [b0|]; simpl in Hf; rewrite Hf;
    rewrite (verify_filtered_data_spec y) by (try reflexivity; exact Hne);
    now rewrite Hnan.
Qed.

(** Compaction never touches what is still to be read: it returns, the
    samples from the cursor on are the same after it as before, as is their
    number, and it leaves the cursor less than one frame beyond the frames
    that are always retained. *)
Theorem compaction_keeps_unread (rate : Z) (b b' : sample_buffer)
    (o : outcome unit) :
  0 < rate -> buffer_ok b ->
  drop_redundant_samples rate b = (o, b') ->
  o = Ret tt /\
  nSampleStream b' - fftActiveStart b' = nSampleStream b - fftActiveStart b /\
  (exists x x',
     sampleStream b = Some x /\ sampleStream b' = Some x' /\
     skipn (Z.to_nat (fftActiveStart b')) x'
     = skipn (Z.to_nat (fftActiveStart b)) x) /\
  fftActiveStart b' < (fftMinimumSampleFrame b + 1) * fft_frame_size rate.
Proof.
  intros Hrate Hb D.
  destruct (drop_redundant_samples_effect _ _ _ _ Hrate Hb D)
    as (-> & _ & removed & x & Hr & H0 & Hn & Hc & Hs & Hs').
  destruct Hb as [[x0 [Hx0 Hlen]] [Hact Hmin]].
  split; [reflexivity|]. split; [lia|]. split.
  - exists x, (skipn (Z.to_nat removed) x). split; [exact Hs|].
    split; [exact Hs'|]. rewrite skipn_skipn. f_equal.
    rewrite fft_frame_size_double in Hr. destruct Hr as [->| ->]; nia.
  - revert D. unfold drop_redundant_samples.
    set (F := fft_frame_size rate) in *.
    assert (HF : 0 < F) by (unfold F; rewrite fft_frame_size_double; lia).
    destruct (Z.ltb_spec (fftMinimumSampleFrame b * F) (fftActiveStart b))
      as [Hlt|Hge]; [|intros D; injection D as <-; nia].
    destruct (Z.leb_spec F (fftActiveStart b - fftMinimumSampleFrame b * F))
      as [Hle|Hgt]; [|intros D; injection D as <-; nia].
    rewrite Hx0. unfold int_quotient.
    destruct (Z.eqb_spec F 0) as [E|_]; [lia|].
    intros D; injection D as <-. cbn [fftActiveStart]. nia.
Qed.

End StreamViews.

Lemma window_written_into_stream_witness :
  exists s' x',
    apply_any_window_function (Some [2%float; 3%float])
      (mkFft (mkBuffer (Some [1%float; 5%float; 7%float; 9%float]) 4 2 1 0 0)
         (mkAccumulator None 0) (mkFrequencyTable None 0 0)
         (mkWorkspace (Some (1, 3)) 2 None) [])
    = (Ret tt, s') /\
    sampleStream (buf s') = Some x' /\
    x' = [1%float; 10%float; 21%float; 9%float].
Proof.
  destruct (window_written_into_stream [2%float; 3%float]
              [1%float; 5%float; 7%float; 9%float] 1 3
              (mkFft (mkBuffer (Some [1%float; 5%float; 7%float; 9%float])
                        4 2 1 0 0)
                 (mkAccumulator None 0) (mkFrequencyTable None 0 0)
                 (mkWorkspace (Some (1, 3)) 2 None) [])
              eq_refl eq_refl eq_refl)
    as (s' & x' & E & Hx & _).
  exists s', x'. split; [exact E|]. split; [exact Hx|].
  vm_compute in E. injection E as <-. vm_compute in Hx.
  injection Hx as <-. reflexivity.
Defined.

Lemma overlap_is_floor_witness :
  100 * overlap_length (Some []) 88200 <= 66 * 88200
  < 100 * (overlap_length (Some []) 88200 + 1).
Proof. apply (overlap_is_floor [] 88200). lia. Defined.

Lemma infinities_not_reported_witness :
  @apply_any_filter unstable_lib (Some [1%float]) None
    (mkFft (mkBuffer (Some [PrimFloat.infinity; 1%float]) 2 1 1 0 0)
       (mkAccumulator None 0) (mkFrequencyTable None 0 0)
       (mkWorkspace (Some (0, 2)) 2 None) [])
  = (Ret tt,
     with_filteredSamples (Some [PrimFloat.infinity; 1%float])
       (mkFft (mkBuffer (Some [PrimFloat.infinity; 1%float]) 2 1 1 0 0)
          (mkAccumulator None 0) (mkFrequencyTable None 0 0)
          (mkWorkspace (Some (0, 2)) 2 None) [])).
Proof.
  apply (@infinities_not_reported unstable_lib [1%float] None
           [PrimFloat.infinity; 1%float] [PrimFloat.infinity; 1%float]).
  - reflexivity.
  - reflexivity.
  - discriminate.
  - reflexivity.
Defined.

Lemma compaction_keeps_unread_witness :
  exists b',
    drop_redundant_samples 1
      (mkBuffer (Some (repeat 1%float 12)) 12 6 1 8 0) = (Ret tt, b') /\
    nSampleStream b' - fftActiveStart b' = 12 - 8.
Proof.
  assert (Hb : buffer_ok (mkBuffer (Some (repeat 1%float 12)) 12 6 1 8 0)).
  { split; [exists (repeat 1%float 12); split; reflexivity|].
    cbn [fftActiveStart nSampleStream fftMinimumSampleFrame]. lia. }
  eexists. split; [reflexivity|].
  refine (proj1 (proj2 (compaction_keeps_unread 1 _ _ (Ret tt) _ Hb eq_refl))).
  lia.
Defined.

Section Accumulator.

Context {lib : numlib}.

Ltac by_cases :=
  repeat match goal with
         | |- context [match ?x with _ => _ end] => destruct x
         end; reflexivity.

Lemma verify_filtered_data_acc (s : fft) :
  acc (snd (verify_filtered_data s)) = acc s.
Proof. unfold verify_filtered_data. by_cases. Qed.

Lemma apply_any_filter_acc (a b : option coeffs) (s : fft) :
  acc (snd (apply_any_filter a b s)) = acc s.
Proof.
  assert (Hv : forall s0 (e : exn),
             acc (snd (bind verify_filtered_data
                         (fun _ => raise (A := unit) e) s0)) = acc s0).
  { intros s0 e. unfold bind, raise.
    pose proof (verify_filtered_data_acc s0) as H.
    destruct (verify_filtered_data s0) as [[u|e1] s1]; exact H. }
  assert (Hw : forall y s0,
             acc (snd (let r := verify_filtered_data
                                  (with_filteredSamples (Some y) s0) in
                       match r with
                       | (Ret _, s') => (Ret tt, s')
                       | (Raise e, s') =>
                           bind verify_filtered_data
                             (fun _ => raise (A := unit) e) s'
                       end)) = acc s0).
  { intros y s0. cbv zeta.
    pose proof (verify_filtered_data_acc (with_filteredSamples (Some y) s0))
      as H.
    destruct (verify_filtered_data _) as [[u|e1] s1]; [exact H|].
    rewrite Hv. exact H. }
  unfold apply_any_filter, apply_any_filter_try.
  destruct (frame_contents s) as [x|e]; [|apply Hv].
  destruct a as [fa|]; [|reflexivity].
  destruct b as [fb|].
  - destruct (filtfilt fa fb x) as [y|e]; [apply Hw | apply Hv].
  - destruct (sosfilt fa x) as [y|e]; [apply Hw | apply Hv].
Qed.

Lemma transform_frame_acc (s : fft) : acc (snd (transform_frame s)) = acc s.
Proof. unfold transform_frame. by_cases. Qed.

Lemma create_bin_frequency_data_for_FFT_acc (rate n : Z) (s : fft) :
  acc (snd (create_bin_frequency_data_for_FFT rate n s)) = acc s.
Proof. unfold create_bin_frequency_data_for_FFT. by_cases. Qed.

Lemma magnitude_acc (sp : spectrum) (s : fft) :
  acc (snd (magnitude sp s)) = acc s.
Proof. unfold magnitude. by_cases. Qed.

(** What a turn does to the accumulator: nothing when it raises, one
    [accumulate] when it returns. *)
Lemma process_frame_acc (rate : Z) (w : option ndarray) (a b : option coeffs)
    (start stop len overlap : Z) (s s' : fft) (o : outcome (Z * Z)) :
  process_frame rate w a b start stop len overlap s = (o, s') ->
  match o with
  | Ret _ => exists m, accumulate (acc s) m = Ret (acc s')
  | Raise _ => acc s' = acc s
  end.
Proof.
  unfold process_frame.
  unfold bind at 1. pose proof (take_frame_acc start stop len s) as A1.
  destruct (take_frame start stop len s) as [[u|e] s1]; simpl in A1;
    [|intros H; injection H as <- <-; exact A1].
  unfold bind at 1. pose proof (apply_any_window_function_acc w s1) as A2.
  destruct (apply_any_window_function w s1) as [[u2|e] s2]; simpl in A2;
    [|intros H; injection H as <- <-; congruence].
  unfold bind at 1. pose proof (apply_any_filter_acc a b s2) as A3.
  destruct (apply_any_filter a b s2) as [[u3|e] s3]; simpl in A3;
    [|intros H; injection H as <- <-; congruence].
  unfold bind at 1. pose proof (transform_frame_acc s3) as A4.
  destruct (transform_frame s3) as [[sp|e] s4]; simpl in A4;
    [|intros H; injection H as <- <-; congruence].
  unfold bind at 1.
  pose proof (create_bin_frequency_data_for_FFT_acc rate (Z.quot len 2 + 1) s4)
    as A5.
  destruct (create_bin_frequency_data_for_FFT _ _ s4) as [[u5|e] s5];
    simpl in A5; [|intros H; injection H as <- <-; congruence].
  unfold bind at 1. pose proof (magnitude_acc sp s5) as A6.
  destruct (magnitude sp s5) as [[m|e] s6]; simpl in A6;
    [|intros H; injection H as <- <-; congruence].
  assert (E : acc s6 = acc s) by congruence.
  unfold bind at 1. unfold sum_spectrum at 1. rewrite E.
  destruct (accumulate (acc s) m) as [a'|e] eqn:Ea.
  - unfold get_next_frame_limits. intros H; injection H as <- <-.
    exists m. exact Ea.
  - intros H; injection H as <- <-. exact E.
Qed.


(** The accumulator is consistent: the count is not negative and is zero
    exactly when there is no sum. *)
Definition accumulator_ok (s : fft) : Prop :=
  0 <= accumFFTSums (acc s) /\
  (accumFFTSums (acc s) = 0 <-> fftSum (acc s) = None).

Lemma accumulate_ok (a a' : accumulator) (m : ndarray) :
  0 <= accumFFTSums a ->
  accumulate a m = Ret a' ->
  1 <= accumFFTSums a' /\ fftSum a' <> None.
Proof.
  intros H0. unfold accumulate.
  destruct (Z.eqb_spec (accumFFTSums a) 0) as [E|E].
  - intros H; injection H as <-. cbn. split; [lia | discriminate].
  - destruct (fftSum a) as [t|]; [|discriminate].
    destruct (np_inplace PrimFloat.add t m) as [t'|e]; [|discriminate].
    cbn. intros H; injection H as <-. cbn. split; [lia | discriminate].
Qed.

Lemma process_frame_accumulator_ok (rate : Z) (w : option ndarray)
    (a b : option coeffs) (start stop len overlap : Z) (s s' : fft)
    (o : outcome (Z * Z)) :
  accumulator_ok s ->
  process_frame rate w a b start stop len overlap s = (o, s') ->
  accumulator_ok s'.
Proof.
  intros [H0 Hz] H.
  pose proof (process_frame_acc _ _ _ _ _ _ _ _ _ _ _ H) as Ha.
  destruct o as [r|e].
  - destruct Ha as [m Ha].
    destruct (accumulate_ok _ _ _ H0 Ha) as [H1 Hs].
    split; [lia|]. split; [lia | intros; contradiction].
  - unfold accumulator_ok. rewrite Ha. split; assumption.
Qed.

Lemma do_FFT_accumulator_ok (fuel : nat) (rate : Z) (w : option ndarray)
    (a b : option coeffs) (s s' : fft) (o : outcome unit) :
  accumulator_ok s -> do_FFT fuel rate w a b s = Some (o, s') ->
  accumulator_ok s'.
Proof.
  apply (do_FFT_preserves accumulator_ok).
  - intros; eapply process_frame_accumulator_ok; eassumption.
  - intros b0 s0 H. exact H.
Qed.

Lemma constructed_accumulator_ok (s : fft) : constructed s -> accumulator_ok s.
Proof.
  intros Hc. induction Hc as
    [ | rate o b s _ IH H | fuel rate g fa fb x o s s' _ IH H
    | fuel rate w fa fb o s s' _ IH H | fuel rate w fa fb o s s' _ IH H ].
  - split; [cbn; lia|]. cbn. split; reflexivity.
  - exact IH.
  - revert H. apply (add_fft_stream_samples_preserves accumulator_ok).
    + intros; eapply process_frame_accumulator_ok; eassumption.
    + intros b0 s0 H0. exact H0.
    + exact IH.
  - eapply do_FFT_accumulator_ok; eassumption.
  - revert H. unfold fft_data.
    destruct (do_FFT fuel rate w fa fb s) as [[[u|e] s1]|] eqn:E;
      [| |discriminate]; intros H; injection H as <- <-.
    + split; [cbn; lia|]. cbn. split; reflexivity.
    + eapply do_FFT_accumulator_ok; eassumption.
Qed.

(** On every pipeline a thread can reach, the count of summed spectra is
    not negative and is zero exactly when there is no sum; so a drain hands
    out no data exactly when no spectrum has been summed since the drain
    before, the processing of the drain itself included, and the sum it
    hands out otherwise is there. *)
Theorem drain_answers_no_data (s : fft) :
  constructed s ->
  0 <= accumFFTSums (acc s) /\
  (accumFFTSums (acc s) = 0 <-> fftSum (acc s) = None) /\
  (forall fuel rate w a b r s',
     fft_data fuel rate w a b s = Some (Ret r, s') ->
     exists s1,
       do_FFT fuel rate w a b s = Some (Ret tt, s1) /\
       (r = None <-> accumFFTSums (acc s1) = 0)).
Proof.
  intros Hc. destruct (constructed_accumulator_ok s Hc) as [H0 Hz].
  split; [exact H0|]. split; [exact Hz|].
  intros fuel rate w a b r s'. unfold fft_data.
  destruct (do_FFT fuel rate w a b s) as [[[[]|e] s1]|] eqn:E;
    try discriminate.
  intros H; injection H as <- <-. exists s1. split; [reflexivity|].
  destruct (do_FFT_accumulator_ok _ _ _ _ _ _ _ _ (conj H0 Hz) E) as [_ Hz1].
  split; apply Hz1.
Qed.

End Accumulator.


Lemma drain_answers_no_data_witness :
  exists s',
    @fft_data unstable_lib 1 44100 None None None
      (pipeline (@new_thread unstable_lib)) = Some (Ret None, s') /\
    exists s1,
      @do_FFT unstable_lib 1 44100 None None None
        (pipeline (@new_thread unstable_lib)) = Some (Ret tt, s1) /\
      accumFFTSums (acc s1) = 0.
Proof.
  eexists. split; [vm_compute; reflexivity|].
  destruct (@drain_answers_no_data unstable_lib
              (pipeline (@new_thread unstable_lib)) (@con_new unstable_lib))
    as (_ & _ & Hd).
  destruct (Hd 1%nat 44100 None None None None _ eq_refl) as (s1 & E & Hiff).
  exists s1. split; [exact E|]. now apply Hiff.
Defined.

Section Unfiltered.

Context {lib : numlib}.

(** [silent s s']: no notification was emitted between [s] and [s']. *)
Definition silent (s s' : fft) : Prop :=
  List.filter is_emitted (events s') = List.filter is_emitted (events s).

Ltac silent_cases :=
  unfold silent;
  repeat match goal with
         | |- context [match ?x with _ => _ end] => destruct x
         end; reflexivity.

Lemma transform_frame_silent (s : fft) : silent s (snd (transform_frame s)).
Proof. unfold transform_frame. silent_cases. Qed.

Lemma create_bin_frequency_data_for_FFT_silent (rate n : Z) (s : fft) :
  silent s (snd (create_bin_frequency_data_for_FFT rate n s)).
Proof. unfold create_bin_frequency_data_for_FFT. silent_cases. Qed.

Lemma magnitude_silent (sp : spectrum) (s : fft) :
  silent s (snd (magnitude sp s)).
Proof. unfold magnitude. silent_cases. Qed.

Lemma sum_spectrum_silent (m : ndarray) (s : fft) :
  silent s (snd (sum_spectrum m s)).
Proof. unfold sum_spectrum. silent_cases. Qed.

Lemma silent_trans (s1 s2 s3 : fft) : silent s1 s2 -> silent s2 s3 -> silent s1 s3.
Proof. unfold silent. congruence. Qed.

Lemma spectrum_work_silent (rate : Z) (start len overlap : Z) (s : fft) :
  silent s
    (snd ((tmpFFT <- transform_frame ;;
           create_bin_frequency_data_for_FFT rate (Z.quot len 2 + 1) ;;;
           mag <- magnitude tmpFFT ;;
           sum_spectrum mag ;;;
           get_next_frame_limits start len overlap)%py s)).
Proof.
  unfold bind at 1. pose proof (transform_frame_silent s) as H1.
  destruct (transform_frame s) as [[sp|e] s1]; cbn [snd] in H1 |- *;
    [|exact H1].
  apply (silent_trans _ _ _ H1). clear H1.
  unfold bind at 1.
  pose proof (create_bin_frequency_data_for_FFT_silent rate
                (Z.quot len 2 + 1) s1) as H2.
  destruct (create_bin_frequency_data_for_FFT _ _ s1) as [[u|e] s2];
    cbn [snd] in H2 |- *; [|exact H2].
  apply (silent_trans _ _ _ H2). clear H2.
  unfold bind at 1. pose proof (magnitude_silent sp s2) as H3.
  destruct (magnitude sp s2) as [[m|e] s3]; cbn [snd] in H3 |- *; [|exact H3].
  apply (silent_trans _ _ _ H3). clear H3.
  unfold bind at 1. pose proof (sum_spectrum_silent m s3) as H4.
  destruct (sum_spectrum m s3) as [[u4|e] s4]; cbn [snd] in H4 |- *;
    [|exact H4].
  apply (silent_trans _ _ _ H4). reflexivity.
Qed.

Lemma process_frame_unfiltered_silent (rate : Z) (w : option ndarray)
    (b : option coeffs) (start stop len overlap : Z) (s s' : fft)
    (o : outcome (Z * Z)) :
  process_frame rate w None b start stop len overlap s = (o, s') ->
  silent s s'.
Proof.
  unfold process_frame. unfold bind at 1. unfold take_frame at 1.
  destruct (sampleStream (buf s)) as [x|] eqn:Hx;
    [|intros H; injection H as <- <-; reflexivity].
  set (s1 := log_event _ _).
  assert (S1 : silent s s1) by reflexivity.
  assert (Hrest : forall s2 x2,
            silent s s2 -> frame_contents s2 = Ret x2 ->
            forall o2 s3,
              (apply_any_filter None b ;;;
               tmpFFT <- transform_frame ;;
               create_bin_frequency_data_for_FFT rate (Z.quot len 2 + 1) ;;;
               mag <- magnitude tmpFFT ;;
               sum_spectrum mag ;;;
               get_next_frame_limits start len overlap)%py s2 = (o2, s3) ->
              silent s s3).
  { intros s2 x2 S2 Hc o2 s3. unfold bind at 1.
    unfold apply_any_filter, apply_any_filter_try. rewrite Hc.
    intros H.
    pose proof (spectrum_work_silent rate start len overlap
                  (with_filteredSamples (Some x2) s2)) as Hs.
    rewrite H in Hs. unfold silent in *. cbn [snd] in Hs.
    rewrite Hs. exact S2. }
  unfold bind at 1. unfold apply_any_window_function at 1.
  destruct w as [k|].
  - change (frameSamples (wrk s1)) with (Some (start, stop)).
    change (sampleStream (buf s1)) with (sampleStream (buf s)). rewrite Hx.
    destruct (np_inplace PrimFloat.mul (py_slice x start stop) k) as [y|e];
      [|intros H; injection H as <- <-; exact S1].
    eapply Hrest; [exact S1 | reflexivity].
  - eapply Hrest; [exact S1|].
    unfold frame_contents.
    change (frameSamples (wrk s1)) with (Some (start, stop)).
    change (sampleStream (buf s1)) with (sampleStream (buf s)).
    rewrite Hx. reflexivity.
Qed.

(** Without a filter there is no notification: whatever the samples hold,
    NaN included, bringing the transforms up to date with no first
    coefficient vector in place emits nothing. *)
Theorem unfiltered_never_notifies (fuel : nat) (rate : Z) (w : option ndarray)
    (b : option coeffs) (s s' : fft) (o : outcome unit) :
  do_FFT fuel rate w None b s = Some (o, s') ->
  List.filter is_emitted (events s') = List.filter is_emitted (events s).
Proof.
  unfold do_FFT, get_initial_frame_limits.
  destruct (transform_frames _ _ _ _ _ _ _ _ _ _ s) as [s1|] eqn:E;
    [|discriminate].
  assert (H1 : silent s s1).
  { revert E.
    apply (transform_frames_invariant _ _ _ _ _ _ _
             (fun _ _ s0 => silent s s0) (silent s)).
    - auto.
    - intros start stop s2 o2 s3 H2 _ E2.
      pose proof (process_frame_unfiltered_silent _ _ _ _ _ _ _ _ _ _ E2) as H3.
      unfold silent in *.
      destruct o2 as [[? ?]|?]; congruence.
    - reflexivity. }
  destruct (drop_redundant_samples rate (buf s1)) as [o1 b1].
  intros H; injection H as <- <-. exact H1.
Qed.

End Unfiltered.

Lemma unfiltered_never_notifies_witness :
  exists s',
    @add_fft_stream_samples unstable_lib 10 1 no_window None None
      (repeat PrimFloat.nan 8) started_pipeline = Some (Ret tt, s') /\
    accumFFTSums (acc s') = 4 /\
    List.filter is_emitted (events s') = [].
Proof.
  eexists. split; [vm_compute; reflexivity|]. split; [reflexivity|].
  exact (@unfiltered_never_notifies unstable_lib 10 1 None None
           (with_buf (mkBuffer (Some (repeat 0%float 4 ++ repeat PrimFloat.nan 8))
                        12 6 1 0 0) started_pipeline)
           _ (Ret tt) ltac:(vm_compute; reflexivity)).
Defined.

Section StartAndStop.

Context {lib : numlib}.

(** [__start_audio] never touches what the pipeline has worked out so far:
    the cursor, the accumulated sum and its count, the frequency table and
    the log are as before, as are the configuration and the filter; and
    when it does prepare the stream, it leaves one frame as the number of
    frames to retain, so that only the first start of a thread pre-fills
    two frames. *)
Theorem start_audio_keeps_progress (env : capture_env) (st st' : thread)
    (o : outcome unit) :
  start_audio env st = (o, st') ->
  fftActiveStart (buf (pipeline st')) = fftActiveStart (buf (pipeline st)) /\
  acc (pipeline st') = acc (pipeline st) /\
  frq (pipeline st') = frq (pipeline st) /\
  events (pipeline st') = events (pipeline st) /\
  fmt st' = fmt st /\ tim st' = tim st /\ frm st' = frm st /\ flt st' = flt st /\
  (audioDev (dev st) = None -> o = Ret tt ->
   fftMinimumSampleFrame (buf (pipeline st')) = 1 /\
   nSampleStream (buf (pipeline st'))
   = fftMinimumSampleFrame (buf (pipeline st)) * fft_frame_size (RATE (tim st))).
Proof.
  unfold start_audio.
  destruct (audioDev (dev st)) as [d|].
  { intros H; injection H as <- <-. repeat split; discriminate. }
  destruct (pyaudio_new env) as [pa|e];
    [|intros H; injection H as <- <-; repeat split; discriminate].
  destruct (pyaudio_open env) as [str|e];
    [|intros H; injection H as <- <-; repeat split; discriminate].
  unfold preset_fft_state, np_zeros.
  destruct (_ <? 0); intros H; injection H as <- <-; cbn;
    repeat split; discriminate.
Qed.

(** When the capture library refuses the input stream of a thread that has
    neither device nor stream, the exception leaves [__start_audio] with
    the device handle kept and no stream, so the
    device does not count as open; and from there no later start opens a
    stream, whatever the library would answer, until [__stop_audio] has
    dropped the handle. *)
Theorem failed_open_blocks_start (env env2 : capture_env) (pa : PyAudio)
    (e : exn) (st : thread) :
  audioDev (dev st) = None -> stream (dev st) = None ->
  pyaudio_new env = Ret pa ->
  pyaudio_open env = Raise e ->
  exists st',
    start_audio env st = (Raise e, st') /\
    audio_open (dev st') = false /\
    amp st' = amp st /\ pipeline st' = pipeline st /\
    start_audio env2 st' = (Ret tt, st') /\
    audioDev (dev (stop_audio st')) = None.
Proof.
  intros Hd Hs Hn Ho. unfold start_audio at 1. rewrite Hd, Hn, Ho.
  eexists. split; [reflexivity|]. cbn. rewrite Hs.
  repeat split.
Qed.

End StartAndStop.

Lemma start_audio_keeps_progress_witness :
  exists st',
    start_audio device_answers (@new_thread unstable_lib) = (Ret tt, st') /\
    fftMinimumSampleFrame (buf (pipeline st')) = 1 /\
    nSampleStream (buf (pipeline st')) = 2 * fft_frame_size 44100.
Proof.
  eexists. split; [reflexivity|].
  exact (proj2 (proj2 (proj2 (proj2 (proj2 (proj2 (proj2 (proj2
           (@start_audio_keeps_progress unstable_lib device_answers
              (@new_thread unstable_lib) _ (Ret tt) eq_refl))))))))
           eq_refl eq_refl).
Defined.

Lemma failed_open_blocks_start_witness :
  exists st',
    start_audio (mkCaptureEnv (Ret PyAudioInstance) (Raise IOError))
      (@new_thread unstable_lib) = (Raise IOError, st') /\
    audio_open (dev st') = false /\
    start_audio device_answers st' = (Ret tt, st').
Proof.
  destruct (@failed_open_blocks_start unstable_lib
              (mkCaptureEnv (Ret PyAudioInstance) (Raise IOError))
              device_answers PyAudioInstance IOError (@new_thread unstable_lib)
              eq_refl eq_refl eq_refl eq_refl)
    as (st' & E & Hopen & _ & _ & Hagain & _).
  exists st'. split; [exact E|]. split; [exact Hopen | exact Hagain].
Defined.

Section CaptureLoop.

Context {lib : numlib}.

Lemma add_fft_stream_samples_returns (rate : Z) (g : framing)
    (a b : option coeffs) (newSamples : ndarray) (s : fft) :
  0 < rate -> sampleStream (buf s) <> None ->
  exists fuel o s',
    add_fft_stream_samples fuel rate g a b newSamples s = Some (o, s').
Proof.
  intros Hrate Hx. unfold add_fft_stream_samples.
  destruct (sampleStream (buf s)) as [x|]; [|contradiction].
  destruct (Z.eqb_spec rate 0) as [E|_]; [lia|].
  unfold int_quotient. rewrite fft_frame_size_double.
  destruct (Z.eqb_spec (2 * rate) 0) as [E|_]; [lia|].
  cbv zeta.
  destruct (Qlt_le_dec 0 _).
  - apply do_FFT_returns. exact Hrate.
  - exists 0%nat. eauto.
Qed.

(** One turn of the capture loop keeps the thread in order. With a positive
    rate and a cap of at least one frame, on a tracker whose count is the
    length of its window and a stream in order, a captured frame is taken
    in without an exception, for enough fuel: the window of the tracker
    holds at most the cap with the count its length, the stream is in order
    again and nothing of the configuration has changed; and a turn in
    which the device has no data changes nothing at all. *)
Theorem capture_iteration_keeps_order (sampleFrame : ndarray)
    (frameAmplitude : R) (st : thread) :
  0 < RATE (tim st) -> 1 <= meanSampleFrames (tim st) ->
  nSampleFrameAmplitudes (amp st)
  = Z.of_nat (length (sampleFrameAmplitudes (amp st))) ->
  stream_ok (pipeline st) ->
  (exists fuel st',
     capture_iteration fuel (Ret (sampleFrame, frameAmplitude)) st
     = Some (Ret tt, st') /\
     window_ok (meanSampleFrames (tim st')) (amp st') /\
     stream_ok (pipeline st') /\
     dev st' = dev st /\ fmt st' = fmt st /\ tim st' = tim st /\
     frm st' = frm st /\ flt st' = flt st) /\
  (forall fuel, capture_iteration fuel (Raise IOError) st = Some (Ret tt, st)).
Proof.
  intros Hrate Hcap Ht Hs. split; [|reflexivity].
  destruct (add_stream_amplitude_window _ frameAmplitude _ Hcap Ht)
    as (a' & Ea & Ha).
  assert (Hx : sampleStream (buf (pipeline st)) <> None).
  { destruct Hs as [[[x [Hx _]] _] _]. rewrite Hx. discriminate. }
  destruct (add_fft_stream_samples_returns (RATE (tim st)) (frm st)
              (filterA (flt st)) (filterB (flt st)) sampleFrame (pipeline st)
              Hrate Hx) as (fuel & o & p' & Ef).
  destruct (add_fft_stream_samples_safe _ _ _ _ _ _ _ _ _ Hrate Hs Ef)
    as [-> Hs'].
  exists fuel. eexists.
  unfold capture_iteration, capture_turn. rewrite Ea, Ef.
  split; [reflexivity|]. cbn.
  split; [exact Ha|]. split; [exact Hs'|]. repeat split.
Qed.

End CaptureLoop.

Lemma capture_iteration_keeps_order_witness :
  exists fuel st',
    @capture_iteration unstable_lib fuel (Ret ([1%float; 2%float], 3%R))
      (mkThread (mkDevice None None) (mkFormat paInt16 2 None 1 2)
         (mkTiming 1 0 (1 # 4) 1) no_window reset_stream_amplitude
         (@mkFilter unstable_lib "" 0 0 3 None None) started_pipeline)
    = Some (Ret tt, st') /\
    stream_ok (pipeline st').
Proof.
  destruct (@capture_iteration_keeps_order unstable_lib [1%float; 2%float] 3%R
              (mkThread (mkDevice None None) (mkFormat paInt16 2 None 1 2)
                 (mkTiming 1 0 (1 # 4) 1) no_window reset_stream_amplitude
                 (@mkFilter unstable_lib "" 0 0 3 None None) started_pipeline))
    as [(fuel & st' & E & _ & Hs & _) _].
  - cbn. lia.
  - cbn. lia.
  - reflexivity.
  - split; [split; [exists (repeat 0%float 4); split; reflexivity|]|].
    + change (0 <= 0 <= 4 /\ 1 <= 1). lia.
    + intros start stop n [].
  - exists fuel, st'. split; [exact E | exact Hs].
Defined.

Section EagerThreshold.

Context {lib : numlib}.

(** The frame counter [fftAciveFrame] of a pipeline state. *)
Definition acive_frame (s : fft) : Z := fftAciveFrame (buf s).

Ltac by_cases :=
  repeat match goal with
         | |- context [match ?x with _ => _ end] => destruct x
         end; reflexivity.

Lemma take_frame_acive (start stop len : Z) (s : fft) :
  acive_frame (snd (take_frame start stop len s)) = acive_frame s.
Proof. unfold take_frame. by_cases. Qed.

Lemma apply_any_window_function_acive (w : option ndarray) (s : fft) :
  acive_frame (snd (apply_any_window_function w s)) = acive_frame s.
Proof. unfold apply_any_window_function. by_cases. Qed.

Lemma verify_filtered_data_acive (s : fft) :
  acive_frame (snd (verify_filtered_data s)) = acive_frame s.
Proof. unfold verify_filtered_data. by_cases. Qed.

Lemma apply_any_filter_acive (a b : option coeffs) (s : fft) :
  acive_frame (snd (apply_any_filter a b s)) = acive_frame s.
Proof.
  assert (Hv : forall s0 (e : exn),
             acive_frame (snd (bind verify_filtered_data
                                 (fun _ => raise (A := unit) e) s0))
             = acive_frame s0).
  { intros s0 e. unfold bind, raise.
    pose proof (verify_filtered_data_acive s0) as H.
    destruct (verify_filtered_data s0) as [[u|e1] s1]; exact H. }
  assert (Hw : forall y s0,
             acive_frame
               (snd (let r := verify_filtered_data
                                (with_filteredSamples (Some y) s0) in
                     match r with
                     | (Ret _, s') => (Ret tt, s')
                     | (Raise e, s') =>
                         bind verify_filtered_data
                           (fun _ => raise (A := unit) e) s'
                     end)) = acive_frame s0).
  { intros y s0. cbv zeta.
    pose proof (verify_filtered_data_acive (with_filteredSamples (Some y) s0))
      as H.
    destruct (verify_filtered_data _) as [[u|e1] s1]; [exact H|].
    rewrite Hv. exact H. }
  unfold apply_any_filter, apply_any_filter_try.
  destruct (frame_contents s) as [x|e]; [|apply Hv].
  destruct a as [fa|]; [|reflexivity].
  destruct b as [fb|].
  - destruct (filtfilt fa fb x) as [y|e]; [apply Hw | apply Hv].
  - destruct (sosfilt fa x) as [y|e]; [apply Hw | apply Hv].
Qed.

Lemma transform_frame_acive (s : fft) :
  acive_frame (snd (transform_frame s)) = acive_frame s.
Proof. unfold transform_frame. by_cases. Qed.

Lemma create_bin_frequency_data_for_FFT_acive (rate n : Z) (s : fft) :
  acive_frame (snd (create_bin_frequency_data_for_FFT rate n s)) = acive_frame s.
Proof. unfold create_bin_frequency_data_for_FFT. by_cases. Qed.

Lemma magnitude_acive (sp : spectrum) (s : fft) :
  acive_frame (snd (magnitude sp s)) = acive_frame s.
Proof. unfold magnitude. by_cases. Qed.

Lemma sum_spectrum_acive (m : ndarray) (s : fft) :
  acive_frame (snd (sum_spectrum m s)) = acive_frame s.
Proof. unfold sum_spectrum. by_cases. Qed.

Lemma process_frame_acive (rate : Z) (w : option ndarray) (a b : option coeffs)
    (start stop len overlap : Z) (s s' : fft) (o : outcome (Z * Z)) :
  process_frame rate w a b start stop len overlap s = (o, s') ->
  acive_frame s' = acive_frame s.
Proof.
  unfold process_frame.
  unfold bind at 1. pose proof (take_frame_acive start stop len s) as A1.
  destruct (take_frame start stop len s) as [[u|e] s1]; cbn [snd] in A1;
    [|intros H; injection H as <- <-; exact A1].
  unfold bind at 1. pose proof (apply_any_window_function_acive w s1) as A2.
  destruct (apply_any_window_function w s1) as [[u2|e] s2]; cbn [snd] in A2;
    [|intros H; injection H as <- <-; congruence].
  unfold bind at 1. pose proof (apply_any_filter_acive a b s2) as A3.
  destruct (apply_any_filter a b s2) as [[u3|e] s3]; cbn [snd] in A3;
    [|intros H; injection H as <- <-; congruence].
  unfold bind at 1. pose proof (transform_frame_acive s3) as A4.
  destruct (transform_frame s3) as [[sp|e] s4]; cbn [snd] in A4;
    [|intros H; injection H as <- <-; congruence].
  unfold bind at 1.
  pose proof (create_bin_frequency_data_for_FFT_acive rate (Z.quot len 2 + 1) s4)
    as A5.
  destruct (create_bin_frequency_data_for_FFT _ _ s4) as [[u5|e] s5];
    cbn [snd] in A5; [|intros H; injection H as <- <-; congruence].
  unfold bind at 1. pose proof (magnitude_acive sp s5) as A6.
  destruct (magnitude sp s5) as [[m|e] s6]; cbn [snd] in A6;
    [|intros H; injection H as <- <-; congruence].
  unfold bind at 1. pose proof (sum_spectrum_acive m s6) as A7.
  destruct (sum_spectrum m s6) as [[u7|e] s7]; cbn [snd] in A7;
    [|intros H; injection H as <- <-; congruence].
  unfold get_next_frame_limits. intros H; injection H as _ <-.
  unfold acive_frame in *.
  cbn [buf with_buf fftAciveFrame with_fftActiveStart]. congruence.
Qed.

Lemma drop_redundant_samples_acive (rate : Z) (b : sample_buffer) :
  fftAciveFrame (snd (drop_redundant_samples rate b)) = fftAciveFrame b.
Proof. unfold drop_redundant_samples. by_cases. Qed.

Lemma do_FFT_acive (fuel : nat) (rate : Z) (w : option ndarray)
    (a b : option coeffs) (s s' : fft) (o : outcome unit) :
  do_FFT fuel rate w a b s = Some (o, s') -> acive_frame s' = acive_frame s.
Proof.
  unfold do_FFT, get_initial_frame_limits.
  destruct (transform_frames _ _ _ _ _ _ _ _ _ _ s) as [s1|] eqn:E;
    [|discriminate].
  assert (H1 : acive_frame s1 = acive_frame s).
  { revert E.
    apply (transform_frames_invariant _ _ _ _ _ _ _
             (fun _ _ s0 => acive_frame s0 = acive_frame s)
             (fun s0 => acive_frame s0 = acive_frame s)).
    - auto.
    - intros start stop s2 o2 s3 H2 _ E2.
      pose proof (process_frame_acive _ _ _ _ _ _ _ _ _ _ _ E2) as H3.
      destruct o2 as [[? ?]|?]; congruence.
    - reflexivity. }
  pose proof (drop_redundant_samples_acive rate (buf s1)) as Hd.
  destruct (drop_redundant_samples rate (buf s1)) as [o1 b1].
  intros H; injection H as <- <-. unfold acive_frame in *.
  cbn [buf with_buf snd] in *. congruence.
Qed.

Lemma add_fft_stream_samples_acive (fuel : nat) (rate : Z) (g : framing)
    (a b : option coeffs) (newSamples : ndarray) (s s' : fft)
    (o : outcome unit) :
  add_fft_stream_samples fuel rate g a b newSamples s = Some (o, s') ->
  acive_frame s' = acive_frame s.
Proof.
  unfold add_fft_stream_samples.
  destruct (sampleStream (buf s)) as [x|];
    [|intros H; injection H as <- <-; reflexivity].
  destruct (rate =? 0); [intros H; injection H as <- <-; reflexivity|].
  destruct (int_quotient _ _) as [c|e];
    [|intros H; injection H as <- <-; reflexivity].
  cbv zeta. destruct (Qlt_le_dec 0 _).
  - intros H. apply do_FFT_acive in H. exact H.
  - intros H; injection H as <- <-. reflexivity.
Qed.

(** The frame counter is never advanced: it is zero on every pipeline a
    thread can reach. *)
Lemma constructed_acive_frame (s : fft) : constructed s -> acive_frame s = 0.
Proof.
  intros Hc. induction Hc as
    [ | rate o b s _ IH H | fuel rate g fa fb x o s s' _ IH H
    | fuel rate w fa fb o s s' _ IH H | fuel rate w fa fb o s s' _ IH H ].
  - reflexivity.
  - revert H. unfold preset_fft_state.
    destruct (np_zeros _); intros H; injection H as _ <-;
      [reflexivity | exact IH].
  - apply add_fft_stream_samples_acive in H. congruence.
  - apply do_FFT_acive in H. congruence.
  - revert H. unfold fft_data.
    destruct (do_FFT fuel rate w fa fb s) as [[[u|e] s1]|] eqn:E;
      [| |discriminate]; intros H; injection H as _ <-;
      apply do_FFT_acive in E; unfold acive_frame in *;
      cbn [buf with_acc] in *; congruence.
Qed.

(** The number of whole frames among the samples counted as new. *)
Lemma unread_frames (n af F : Z) :
  0 < F ->
  py_int ((inject_Z n - tFFTUnit * inject_Z af) / inject_Z F)
  = Z.quot (n - 2 * af) F.
Proof.
  intros HF. destruct F as [|p|p]; try lia.
  unfold py_int, Qdiv, Qmult, Qinv, Qminus, Qplus, Qopp, inject_Z, tFFTUnit.
  cbn [Qnum Qden]. rewrite !Pos.mul_1_l. f_equal. lia.
Qed.

(** The test [tStep > 0] in whole numbers. *)
Lemma step_positive_iff (k rate batch : Z) :
  0 < rate ->
  (0 < inject_Z (k * (2 * rate)) / inject_Z rate - inject_Z batch)%Q
  <-> batch < 2 * k.
Proof.
  intros Hrate.
  assert (Hq : ~ (inject_Z rate == 0)%Q).
  { unfold Qeq, inject_Z; cbn [Qnum Qden]. lia. }
  assert (E : (inject_Z (k * (2 * rate)) / inject_Z rate == inject_Z (2 * k))%Q).
  { rewrite !inject_Z_mult. field. exact Hq. }
  rewrite E. unfold Qminus. rewrite <- Qlt_minus_iff, <- Zlt_Qlt. reflexivity.
Qed.

(** Whether [__add_fft_stream_samples] goes on to process depends on the
    length of the whole stream, not on how much of it is still unread: on a
    pipeline a thread can reach, with a positive rate, it appends the new
    samples, counts the whole frames of the stream, and brings the
    transforms up to date exactly when these frames, at two seconds each,
    last longer than the batch duration; otherwise it returns at once. *)
Theorem eager_threshold_counts_whole_stream (fuel : nat) (rate : Z)
    (g : framing) (a b : option coeffs) (newSamples x : ndarray) (s : fft) :
  constructed s -> 0 < rate -> sampleStream (buf s) = Some x ->
  let n := nSampleStream (buf s) + Z.of_nat (length newSamples) in
  let frames := Z.quot n (2 * rate) in
  let s2 := with_buf (mkBuffer (Some (x ++ newSamples)) n frames
                        (fftMinimumSampleFrame (buf s))
                        (fftActiveStart (buf s)) 0) s in
  add_fft_stream_samples fuel rate g a b newSamples s
  = if batchFFTDuration g <? 2 * frames
    then do_FFT fuel rate (fnWindow g) a b s2
    else Some (Ret tt, s2).
Proof.
  intros Hc Hrate Hx. pose proof (constructed_acive_frame s Hc) as Haf.
  unfold acive_frame in Haf. cbv zeta.
  unfold add_fft_stream_samples. rewrite Hx, Haf.
  destruct (Z.eqb_spec rate 0) as [E|_]; [lia|].
  unfold int_quotient. rewrite fft_frame_size_double.
  destruct (Z.eqb_spec (2 * rate) 0) as [E|_]; [lia|].
  cbv zeta.
  cbn [nSampleStream sampleStream fftMinimumSampleFrame fftActiveStart
       fftAciveFrame].
  rewrite unread_frames by lia.
  replace (nSampleStream (buf s) + Z.of_nat (length newSamples) - 2 * 0)
    with (nSampleStream (buf s) + Z.of_nat (length newSamples)) by lia.
  set (n := nSampleStream (buf s) + Z.of_nat (length newSamples)).
  pose proof (step_positive_iff (Z.quot n (2 * rate)) rate
                (batchFFTDuration g) Hrate) as Hiff.
  destruct (Qlt_le_dec 0 _) as [Hlt|Hle];
    destruct (Z.ltb_spec (batchFFTDuration g) (2 * Z.quot n (2 * rate)))
      as [Hb|Hb]; try reflexivity.
  - apply Hiff in Hlt. lia.
  - apply Hiff in Hb. exfalso. exact (Qlt_not_le _ _ Hb Hle).
Qed.

End EagerThreshold.

Lemma eager_threshold_counts_whole_stream_witness :
  @add_fft_stream_samples unstable_lib 10 1 no_window None None
    (repeat 1%float 8) started_pipeline
  = @do_FFT unstable_lib 10 1 None None None
      (with_buf (mkBuffer (Some (repeat 0%float 4 ++ repeat 1%float 8)) 12 6 1 0 0)
         started_pipeline).
Proof.
  pose proof (@eager_threshold_counts_whole_stream unstable_lib 10 1 no_window
                None None (repeat 1%float 8) (repeat 0%float 4) started_pipeline
                (@con_preset unstable_lib 1 (Ret tt) _
                   (pipeline (@new_thread unstable_lib)) (@con_new unstable_lib)
                   eq_refl)
                ltac:(lia) eq_refl) as H.
  cbv zeta in H.
  assert (Hc : (batchFFTDuration no_window
          <? 2 * Z.quot (nSampleStream (buf started_pipeline)
                         + Z.of_nat (length (repeat 1%float 8))) (2 * 1)) = true)
    by reflexivity.
  rewrite Hc in H. clear Hc.
  rewrite H. 
  apply (f_equal (@do_FFT unstable_lib 10 1 None None None)).
  reflexivity.
Defined.
